(** * repmgr.c: the command interpreter of repmgr, embedded in Rocq

    The commands of [repmgr.c] talk to database servers, run programs and
    leave with [exit()].  They are embedded here as functions in a small
    monad that threads a [world] (the clock, the global runtime options,
    the registries of the servers, the files and the trace of everything
    the command did on the outside) and that can stop with an exit status.
    What the outside answers is given by a record of oracles, [outside].

    The file has the data, the monad and the functions that [repmgr.c]
    calls but does not define; then [repmgr.c] itself, function by
    function; then the notions the theorems speak about and some concrete
    clusters; then the theorems. *)

From Stdlib Require Import ZArith List String Ascii Bool Lia DecimalString DecimalPos.
Import ListNotations.

Local Open Scope string_scope.
Local Open Scope Z_scope.

(** ** Exit statuses and results *)

(** The exit statuses of [errcode.h] that [repmgr.c] uses, by name. *)
Inductive errcode : Type :=
| ERR_BAD_CONFIG
| ERR_DB_CON
| ERR_DB_QUERY
| ERR_NO_RESTART
| ERR_BAD_PASSWORD
| ERR_STR_OVERFLOW.

(** A call comes back with a value, leaves the process with [exit()], or
    is still looping when the model's fuel is used up. *)
Inductive result (A : Type) : Type :=
| Returns (a : A)
| Exits (code : errcode)
| Diverges.

Arguments Returns {A} a.
Arguments Exits {A} code.
Arguments Diverges {A}.

(** ** Strings *)

Definition nl : string := String (ascii_of_nat 10) EmptyString.

(** A C string is empty when its first byte is the terminator:
    [s[0] == 0], [*s == 0]. *)
Definition is_empty (s : string) : bool :=
  match s with
  | EmptyString => true
  | String _ _ => false
  end.

(** ** Connections, registries, SQL *)

(** A connection is identified by the conninfo of the server it leads to. *)
Definition PGconn : Type := string.

(** The answers of [is_standby()]. *)
Inductive recovery_status : Type :=
| Standby
| Primary
| Unreachable.

(** A row of [repl_nodes], with the columns of [create_schema]. *)
Record node_row : Type := mkNode {
  col_id : Z;
  col_type : string;
  col_upstream_node_id : option Z;
  col_cluster : string;
  col_name : string;
  col_conninfo : string;
  col_slot_name : option string;
  col_priority : Z;
  col_active : bool
}.

(** A row of [repl_monitor]; only its age in days matters to cleanup. *)
Record monitor_row : Type := mkMonitor {
  col_standby_node : Z;
  col_age_days : Z
}.

Record database : Type := mkDb {
  schema_objects : list string;
  repl_nodes : list node_row;
  repl_monitor : list monitor_row
}.

(** The statements [repmgr.c] sends with [PQexec].  The INSERT of
    [create_node_record] is kept with the text of its VALUES list: the
    command writes the type, the cluster, the name and the conninfo of
    the node between quotes as they are, so that what is inserted is for
    the server to read from the text. *)
Inductive sql_command : Type :=
| CREATE_SCHEMA (sname : string)
| CREATE_FUNCTION (fname : string)
| CREATE_TABLE (tname : string)
| CREATE_VIEW (vname : string)
| CREATE_INDEX (iname : string)
| DELETE_FROM_repl_nodes (node_id : Z)
| INSERT_INTO_repl_nodes (values : string)
| DELETE_FROM_repl_monitor (days : Z)
| TRUNCATE_repl_monitor
| VACUUM_repl_monitor
| SELECT_FROM_repl_nodes.

(** ** Options *)

(** The fields of the global [runtime_options] that the embedded commands
    read. *)
Record t_runtime_options : Type := mkRuntime {
  host : string;
  masterport : string;
  username : string;
  wal_keep_segments : string;
  min_recovery_apply_delay : string;
  force : bool;
  wait_for_master : bool;
  keep_history : Z
}.

(** The fields of the global [options] (the configuration file) that the
    embedded commands read. *)
Record t_configuration_options : Type := mkOptions {
  cluster_name : string;
  node : Z;
  upstream_node : Z;
  conninfo : string;
  node_name : string;
  priority : Z;
  use_replication_slots : bool;
  master_response_timeout : Z;
  pgctl_options : string
}.

(** ** The world *)

Inductive loglevel : Type :=
| LOG_DEBUG | LOG_INFO | LOG_NOTICE | LOG_WARNING | LOG_ERR | STDERR | STDOUT.

(** Everything a command does on the outside, in the order it does it. *)
Inductive event : Type :=
| Log (level : loglevel) (text : string)
| LogQuery (action : string) (q : sql_command)
| Connect (to : string)
| PQfinish_ev (conn : PGconn)
| Asked_is_standby (conn : PGconn) (answer : Z)
| Asked_guc (conn : PGconn) (guc : string) (answer : Z)
| PQexec_ev (conn : PGconn) (q : sql_command) (ok : bool)
| System (script : string)
| Slept (seconds : Z).

(** [moment] counts the points at which the servers may have changed
    under the command: it moves on at every [sleep()], [system()] and
    [is_pgup()]; between two of them every server gives the same answers.
    [clock] is the number of seconds slept. *)
Record world : Type := mkWorld {
  moment : nat;
  clock : Z;
  runtime_options : t_runtime_options;
  dbs : PGconn -> database;
  files : string -> option string;
  trace : list event
}.

(** A stream opened for writing: the file it leads to and the text that
    has been written to it and has not reached the file yet.  The text
    reaches the file when the stream is closed; what becomes of a stream
    that is open when the command leaves with [exit()] is not followed,
    and no theorem speaks of the file in that case. *)
Record FILE : Type := mkFILE {
  stream_path : string;
  stream_buffer : string
}.

(** The answer of the server to a question about one of its settings. *)
Inductive setting_answer : Type :=
| QueryFailed
| NoSuchSetting
| Setting (value : string).

(** What the outside answers.  Servers are named by their conninfo.
    [fputs_ok] says whether a line can be written to a stream and
    [fclose_ok] whether what a stream holds can be written out to its
    file; [sql_effect] is what a server makes of the values of an INSERT
    that it does not read as one row. *)
Record outside : Type := mkOutside {
  connects : string -> nat -> bool;
  recovery : string -> nat -> recovery_status;
  server_version_num : PGconn -> Z;
  server_version : PGconn -> string;
  pg_setting : PGconn -> string -> setting_answer;
  pq_ok : PGconn -> sql_command -> bool;
  PQerrorMessage : PGconn -> string;
  pgup : PGconn -> nat -> bool;
  PQhost : PGconn -> string;
  PQport : PGconn -> string;
  PQuser : PGconn -> string;
  system_rc : string -> Z;
  PGPASSWORD : option string;
  fopen_ok : string -> bool;
  fputs_ok : string -> string -> bool;
  fclose_ok : string -> bool;
  sql_effect : PGconn -> string -> database -> database
}.

(** ** The monad of commands *)

Definition M (A : Type) : Type := world -> result A * world.

Definition ret {A : Type} (a : A) : M A := fun w => (Returns a, w).

Definition bind {A B : Type} (c : M A) (k : A -> M B) : M B :=
  fun w =>
    match c w with
    | (Returns a, w') => k a w'
    | (Exits code, w') => (Exits code, w')
    | (Diverges, w') => (Diverges, w')
    end.

Definition exit {A : Type} (code : errcode) : M A := fun w => (Exits code, w).

Definition out_of_fuel {A : Type} : M A := fun w => (Diverges, w).

Notation "x <- c1 ;; c2" := (bind c1 (fun x => c2))
  (at level 61, c1 at next level, right associativity).
Notation "c1 ;; c2" := (bind c1 (fun _ => c2))
  (at level 61, right associativity).
Notation "' pat <- c1 ;; c2" :=
  (bind c1 (fun x => match x with pat => c2 end))
  (at level 61, pat pattern, c1 at next level, right associativity).

Definition get_world : M world := fun w => (Returns w, w).

Definition get_runtime_options : M t_runtime_options :=
  fun w => (Returns (runtime_options w), w).

Definition emit (e : event) : M unit :=
  fun w => (Returns tt,
            mkWorld (moment w) (clock w) (runtime_options w) (dbs w)
                    (files w) (trace w ++ [e])).

Definition when (b : bool) (c : M unit) : M unit :=
  if b then c else ret tt.

Definition log_debug (text : string) : M unit := emit (Log LOG_DEBUG text).
Definition log_info (text : string) : M unit := emit (Log LOG_INFO text).
Definition log_notice (text : string) : M unit := emit (Log LOG_NOTICE text).
Definition log_warning (text : string) : M unit := emit (Log LOG_WARNING text).
Definition log_err (text : string) : M unit := emit (Log LOG_ERR text).

Definition PQfinish (conn : PGconn) : M unit := emit (PQfinish_ev conn).

(** [sleep(seconds)]: time passes. *)
Definition sleep (seconds : Z) : M unit :=
  fun w => (Returns tt,
            mkWorld (S (moment w)) (clock w + seconds) (runtime_options w)
                    (dbs w) (files w) (trace w ++ [Slept seconds])).

Definition set_runtime_options (ro : t_runtime_options) : M unit :=
  fun w => (Returns tt,
            mkWorld (moment w) (clock w) ro (dbs w) (files w) (trace w)).

Definition set_db (conn : PGconn) (d : database) : M unit :=
  fun w => (Returns tt,
            mkWorld (moment w) (clock w) (runtime_options w)
                    (fun c => if String.eqb c conn then d else dbs w c)
                    (files w) (trace w)).

Definition set_file (path : string) (content : string) : M unit :=
  fun w => (Returns tt,
            mkWorld (moment w) (clock w) (runtime_options w) (dbs w)
                    (fun p => if String.eqb p path then Some content
                              else files w p)
                    (trace w)).

(** ** Reading and writing integers *)

(** [%i] and [%d] of [printf]. *)
Definition string_of_Z (z : Z) : string := NilZero.string_of_int (Z.to_int z).

Definition digit_of (c : ascii) : option Z :=
  let n := Z.of_nat (nat_of_ascii c) in
  if (48 <=? n) && (n <=? 57) then Some (n - 48) else None.

Fixpoint digits (s : string) (acc : Z) : option Z :=
  match s with
  | EmptyString => Some acc
  | String c rest =>
      match digit_of c with
      | Some d => digits rest (10 * acc + d)
      | None => None
      end
  end.

(** The integer a text stands for in [text::integer]; [None] when the
    cast fails. *)
Definition integer_of (s : string) : option Z :=
  match s with
  | EmptyString => None
  | String "-" (String c rest) => option_map Z.opp (digits (String c rest) 0)
  | String _ _ => digits s 0
  end.

(** The comparison an operator of SQL stands for, on integers. *)
Definition holds (op : string) (a b : Z) : option bool :=
  if String.eqb op "=" then Some (a =? b)
  else if String.eqb op ">" then Some (a >? b)
  else if String.eqb op ">=" then Some (a >=? b)
  else if String.eqb op "<" then Some (a <? b)
  else if String.eqb op "<=" then Some (a <=? b)
  else None.

(** ** The server reads the values of an INSERT *)

(** The character occurs in the text. *)
Fixpoint has (c : ascii) (s : string) : bool :=
  match s with
  | EmptyString => false
  | String x rest => Ascii.eqb x c || has c rest
  end.

Definition backslash : ascii := ascii_of_nat 92.

(** A text with no quote and no backslash in it: written between quotes,
    it is read back by the server as it stands. *)
Definition plain (s : string) : bool :=
  negb (has "'" s) && negb (has backslash s).

(** A reader takes what it reads off the front of a text. *)
Definition reader (A : Type) : Type := string -> option (A * string).

Definition read_ret {A : Type} (a : A) : reader A := fun s => Some (a, s).

Definition read_fail {A : Type} : reader A := fun _ => None.

Definition and_then {A B : Type} (r : reader A) (k : A -> reader B) : reader B :=
  fun s =>
    match r s with
    | Some (a, rest) => k a rest
    | None => None
    end.

Notation "x <~ r ;; k" := (and_then r (fun x => k))
  (at level 61, r at next level, right associativity).

(** The text before the first [stop]; [stop] is taken off too. *)
Fixpoint until (stop : ascii) (s : string) : option (string * string) :=
  match s with
  | EmptyString => None
  | String c rest =>
      if Ascii.eqb c stop then Some (EmptyString, rest)
      else
        match until stop rest with
        | Some (before, after) => Some (String c before, after)
        | None => None
        end
  end.

(** The text [start], and nothing else. *)
Fixpoint expect (start : string) (s : string) : option (unit * string) :=
  match start with
  | EmptyString => Some (tt, s)
  | String a start' =>
      match s with
      | EmptyString => None
      | String b s' => if Ascii.eqb a b then expect start' s' else None
      end
  end.

(** An integer that ends at [stop]. *)
Definition integer_until (stop : ascii) : reader Z :=
  text <~ until stop;;
  match integer_of text with
  | Some z => read_ret z
  | None => read_fail
  end.

(** NULL, or an integer, that ends at [stop]. *)
Definition null_or_integer_until (stop : ascii) : reader (option Z) :=
  text <~ until stop;;
  if String.eqb text "NULL" then read_ret None
  else
    match integer_of text with
    | Some z => read_ret (Some z)
    | None => read_fail
    end.

(** A plain text up to the closing quote; the opening quote has been
    read. *)
Definition quoted : reader string :=
  text <~ until "'";;
  if plain text then read_ret text else read_fail.

(** NULL, or a plain text between quotes. *)
Definition null_or_quoted : reader (option string) :=
  fun s =>
    match s with
    | String "'" rest => (text <~ quoted;; read_ret (Some text)) rest
    | _ => (_ <~ expect "NULL";; read_ret None) s
    end.

(** The row that a VALUES list of the form
    [(%i, '%s', %s, '%s', '%s', '%s', %s, %i) ] stands for, when the
    integers are integers, the third and the seventh value are NULL or an
    integer and NULL or a text between quotes, and every text between
    quotes is plain.  The column [active] takes its default. *)
Definition read_values : reader node_row :=
  _ <~ expect "(";;
  id <~ integer_until ",";;
  _ <~ expect " '";;
  type <~ quoted;;
  _ <~ expect ", ";;
  upstream_node_id <~ null_or_integer_until ",";;
  _ <~ expect " '";;
  cluster <~ quoted;;
  _ <~ expect ", '";;
  name <~ quoted;;
  _ <~ expect ", '";;
  conninfo <~ quoted;;
  _ <~ expect ", ";;
  slot_name <~ null_or_quoted;;
  _ <~ expect ", ";;
  priority <~ integer_until ")";;
  _ <~ expect " ";;
  read_ret (mkNode id type upstream_node_id cluster name conninfo slot_name
                   priority true).

(** The text of a VALUES list is read as one row when it is such a list
    from its first character to its last. *)
Definition row_of_values (values : string) : option node_row :=
  match read_values values with
  | Some (row, EmptyString) => Some row
  | _ => None
  end.

(** What a statement that the server has accepted does to the database
    it is sent to.  A VALUES list that is read as one row adds that row;
    what the server makes of any other text (a quote inside a value ends
    the value, and the rest of the value is read as SQL) is for the
    outside to say. *)
Definition apply_sql (o : outside) (conn : PGconn) (q : sql_command)
    (d : database) : database :=
  match q with
  | CREATE_SCHEMA n | CREATE_FUNCTION n | CREATE_TABLE n
  | CREATE_VIEW n | CREATE_INDEX n =>
      mkDb (schema_objects d ++ [n]) (repl_nodes d) (repl_monitor d)
  | DELETE_FROM_repl_nodes n =>
      mkDb (schema_objects d)
           (filter (fun r => negb (col_id r =? n)) (repl_nodes d))
           (repl_monitor d)
  | INSERT_INTO_repl_nodes values =>
      match row_of_values values with
      | Some r => mkDb (schema_objects d) (repl_nodes d ++ [r]) (repl_monitor d)
      | None => sql_effect o conn values d
      end
  | DELETE_FROM_repl_monitor days =>
      mkDb (schema_objects d) (repl_nodes d)
           (filter (fun m => col_age_days m <? days) (repl_monitor d))
  | TRUNCATE_repl_monitor =>
      mkDb (schema_objects d) (repl_nodes d) []
  | VACUUM_repl_monitor | SELECT_FROM_repl_nodes => d
  end.

Section Repmgr.

(** The outside, the constants of [repmgr.h] and the globals that are set
    once, before a command starts. *)
Variable o : outside.
Variable MIN_SUPPORTED_VERSION_NUM : Z.
Variable MIN_SUPPORTED_VERSION : string.
Variable NO_UPSTREAM_NODE : Z.
Variable MAXLEN : nat.
Variable progname : string.
Variable options : t_configuration_options.
Variable require_password : bool.
Variable repmgr_slot_name : string.
Variable pg_bindir : string.
Variable get_repmgr_schema : string.
Variable get_repmgr_schema_quoted : string.

(** ** The functions of [dbutils.c], [strutil.c] and the C library *)

(** Modelled from the spec: [maxlen_snprintf] is defined in [strutil.c],
    which is not among the sources.  It formats into a buffer of [MAXLEN]
    bytes; the spec does not say what happens to a text that does not fit.
    In the model a text that fits is produced unchanged and the command
    stops otherwise, so that no theorem speaks about a cut text. *)
Definition maxlen_snprintf (text : string) : M string :=
  if (String.length text <? MAXLEN)%nat then ret text
  else exit ERR_STR_OVERFLOW.

(** Modelled from the spec: [establish_db_connection] is defined in
    [dbutils.c], which is not among the sources.  Section 7: failing to
    reach a required server ends the command. *)
Definition establish_db_connection (conninfo : string) (exit_on_error : bool)
  : M PGconn :=
  emit (Connect conninfo);;
  w <- get_world;;
  if connects o conninfo (moment w) then ret conninfo
  else if exit_on_error then exit ERR_DB_CON
  else ret conninfo.

(** Modelled from the spec: [is_standby] is defined in [dbutils.c], which
    is not among the sources.  Section 4.1: it answers Standby, Primary or
    Unreachable; the callers in [repmgr.c] read 1 as standby, 0 as master
    and -1 as a lost connection. *)
Definition is_standby (conn : PGconn) : M Z :=
  w <- get_world;;
  let answer :=
    match recovery o conn (moment w) with
    | Standby => 1
    | Primary => 0
    | Unreachable => -1
    end in
  emit (Asked_is_standby conn answer);;
  ret answer.

(** Modelled from the spec: [get_master_connection] is defined in
    [dbutils.c], which is not among the sources.  Section 4.1: it reads
    the records of the cluster and, for each in registry order, opens a
    connection and asks [is_standby]; the first that reports Primary is
    returned, unreachable nodes and standbys are skipped and their
    connections closed. *)
Fixpoint find_master (rows : list node_row) : M (option PGconn) :=
  match rows with
  | [] => ret None
  | r :: rest =>
      emit (Connect (col_conninfo r));;
      w <- get_world;;
      if connects o (col_conninfo r) (moment w) then
        answer <- is_standby (col_conninfo r);;
        if answer =? 0 then ret (Some (col_conninfo r))
        else PQfinish (col_conninfo r);; find_master rest
      else
        PQfinish (col_conninfo r);; find_master rest
  end.

Definition get_master_connection (conn : PGconn) (cluster : string)
  : M (option PGconn) :=
  w <- get_world;;
  find_master
    (filter (fun r => String.eqb (col_cluster r) cluster)
            (repl_nodes (dbs w conn))).

(** Modelled from the spec: [get_server_version] is defined in
    [dbutils.c], which is not among the sources: the version number of the
    server behind the connection, and its readable form. *)
Definition get_server_version (conn : PGconn) : Z * string :=
  (server_version_num o conn, server_version o conn).

(** Modelled from the spec: [check_cluster_schema] is defined in
    [dbutils.c], which is not among the sources.  Section 8: whether the
    schema of the cluster already exists on the server. *)
Definition check_cluster_schema (conn : PGconn) : M bool :=
  w <- get_world;;
  ret (existsb (String.eqb get_repmgr_schema) (schema_objects (dbs w conn))).

(** Modelled from the spec: [get_primary_node_id] is defined in
    [dbutils.c], which is not among the sources.  Section 8: the id of the
    cluster's current primary, read from the registry.  The spec does not
    say what it gives when no primary is registered; the model gives -1,
    the not-found answer of the other [int] functions of [dbutils.c]. *)
Definition get_primary_node_id (conn : PGconn) (cluster : string) : M Z :=
  w <- get_world;;
  match find (fun r => String.eqb (col_cluster r) cluster
                       && String.eqb (col_type r) "primary")
             (repl_nodes (dbs w conn)) with
  | Some r => ret (col_id r)
  | None => ret (-1)
  end.

(** Modelled from the spec: [guc_set] is defined in [dbutils.c], which is
    not among the sources.  Section 4.2: it tests a server parameter
    against a value; the callers read 1 as "holds", 0 as "does not hold"
    and -1 as "could not be asked". *)
Definition guc_set_answer (conn : PGconn) (parameter op value : string) : Z :=
  match pg_setting o conn parameter with
  | QueryFailed => -1
  | NoSuchSetting => 0
  | Setting v =>
      if String.eqb op "=" then (if String.eqb v value then 1 else 0)
      else -1
  end.

Definition guc_set (conn : PGconn) (parameter op value : string) : M Z :=
  let answer := guc_set_answer conn parameter op value in
  emit (Asked_guc conn parameter answer);;
  ret answer.

(** Modelled from the spec: [guc_set_typed] is defined in [dbutils.c],
    which is not among the sources.  As [guc_set], with the parameter and
    the value both read at the given type before they are compared:
    [setting op value]. *)
Definition guc_set_typed_answer (conn : PGconn)
    (parameter op value datatype : string) : Z :=
  match pg_setting o conn parameter with
  | QueryFailed => -1
  | NoSuchSetting => 0
  | Setting v =>
      if String.eqb datatype "integer" then
        match integer_of v, integer_of value with
        | Some a, Some b =>
            match holds op a b with
            | Some true => 1
            | Some false => 0
            | None => -1
            end
        | _, _ => -1
        end
      else -1
  end.

Definition guc_set_typed (conn : PGconn) (parameter op value datatype : string)
  : M Z :=
  let answer := guc_set_typed_answer conn parameter op value datatype in
  emit (Asked_guc conn parameter answer);;
  ret answer.

(** Modelled from the spec: [get_pg_setting] is defined in [dbutils.c],
    which is not among the sources.  Section 4.4: a server-setting query;
    it says whether it succeeded and gives the value. *)
Definition get_pg_setting (conn : PGconn) (setting : string) : M (bool * string) :=
  match pg_setting o conn setting with
  | Setting v => ret (true, v)
  | _ => ret (false, "")
  end.

(** Modelled from the spec: [is_pgup] is defined in [dbutils.c], which is
    not among the sources.  Section 4.5: whether the node responds within
    the liveness timeout; time passes while it waits. *)
Definition is_pgup (conn : PGconn) (timeout : Z) : M bool :=
  fun w => (Returns (pgup o conn (moment w)),
            mkWorld (S (moment w)) (clock w) (runtime_options w) (dbs w)
                    (files w) (trace w)).

(** [PQexec] of libpq, for statements: the server accepts the statement
    and carries it out, or refuses it.  The result says which
    ([PGRES_COMMAND_OK] or not). *)
Definition PQexec (conn : PGconn) (q : sql_command) : M bool :=
  w <- get_world;;
  let ok := pq_ok o conn q in
  emit (PQexec_ev conn q ok);;
  when ok (set_db conn (apply_sql o conn q (dbs w conn)));;
  ret ok.

(** [system()]: the script runs; the servers may have changed after it. *)
Definition system (script : string) : M Z :=
  fun w => (Returns (system_rc o script),
            mkWorld (S (moment w)) (clock w) (runtime_options w) (dbs w)
                    (files w) (trace w ++ [System script])).

Definition getenv_PGPASSWORD : M (option string) := ret (PGPASSWORD o).

(** [fopen(path, "w")]: the file is created empty and a stream to it is
    opened, or [NULL]. *)
Definition fopen_w (path : string) : M (option FILE) :=
  if fopen_ok o path then set_file path "";; ret (Some (mkFILE path ""))
  else ret None.

(** [fputs(line, file)]: the line is added to what the stream holds, or
    [EOF].  The stream is a value here: the stream that holds the line is
    what is returned. *)
Definition fputs (line : string) (file : FILE) : M (option FILE) :=
  if fputs_ok o (stream_path file) line then
    ret (Some (mkFILE (stream_path file) (stream_buffer file ++ line)))
  else ret None.

(** [fclose(file)]: what the stream holds is written to the file, or is
    lost when that fails; the result says which. *)
Definition fclose (file : FILE) : M bool :=
  if fclose_ok o (stream_path file) then
    w <- get_world;;
    set_file (stream_path file)
             (match files w (stream_path file) with
              | Some content => content ++ stream_buffer file
              | None => stream_buffer file
              end);;
    ret true
  else ret false.

(** [strncpy(dst, src, MAXLEN)]: at most [MAXLEN] bytes are copied. *)
Definition strncpy_MAXLEN (src : string) : string := substring 0 MAXLEN src.

(** ** [repmgr.c] *)

Definition RECOVERY_FILE : string := "recovery.conf".

Definition make_pg_path (file : string) : M string :=
  maxlen_snprintf (pg_bindir ++ file).

(** [write_primary_conninfo(line)]: the line is the value returned. *)
Definition write_primary_conninfo : M string :=
  password <- getenv_PGPASSWORD;;
  password_buf <-
    match password with
    | Some pw => maxlen_snprintf (" password=" ++ pw)
    | None =>
        if require_password then
          log_err (progname ++ ": PGPASSWORD not set, but having one is required" ++ nl);;
          exit ERR_BAD_PASSWORD
        else ret ""
    end;;
  ro <- get_runtime_options;;
  host_buf <-
    (if negb (is_empty (host ro)) then maxlen_snprintf (" host=" ++ host ro)
     else ret "");;
  user_buf <-
    (if negb (is_empty (username ro)) then maxlen_snprintf (" user=" ++ username ro)
     else ret "");;
  appname_buf <-
    (if negb (is_empty (node_name options)) then
       maxlen_snprintf (" application_name=" ++ node_name options)
     else ret "");;
  conn_buf <-
    maxlen_snprintf
      ("port=" ++ (if negb (is_empty (masterport ro)) then masterport ro else "5432")
       ++ host_buf ++ user_buf ++ password_buf ++ appname_buf);;
  maxlen_snprintf ("primary_conninfo = '" ++ conn_buf ++ "'" ++ nl).

(** [write_recovery_file_line]: where the source returns true, the
    stream that holds the line is returned; where it returns false,
    nothing is. *)
Definition write_recovery_file_line (recovery_file : FILE)
    (recovery_file_path line : string) : M (option FILE) :=
  written <- fputs line recovery_file;;
  match written with
  | None =>
      log_err ("Unable to write to recovery file at '" ++ recovery_file_path ++ "'" ++ nl);;
      _ <- fclose recovery_file;;
      ret None
  | Some recovery_file => ret (Some recovery_file)
  end.

(** [if (write_recovery_file_line(...) == false) return false;] *)
Definition or_return_false (written : option FILE) (rest : FILE -> M bool)
  : M bool :=
  match written with
  | None => ret false
  | Some recovery_file => rest recovery_file
  end.

(** [create_recovery_file]; the result of the [fclose] that ends it is
    not looked at. *)
Definition create_recovery_file (data_dir : string) : M bool :=
  recovery_file_path <- maxlen_snprintf (data_dir ++ "/" ++ RECOVERY_FILE);;
  opened <- fopen_w recovery_file_path;;
  match opened with
  | None =>
      log_err ("Unable to create recovery.conf file at '" ++ recovery_file_path ++ "'" ++ nl);;
      ret false
  | Some recovery_file =>
      line <- maxlen_snprintf ("standby_mode = 'on'" ++ nl);;
      written <- write_recovery_file_line recovery_file recovery_file_path line;;
      or_return_false written (fun recovery_file =>
      line <- write_primary_conninfo;;
      written <- write_recovery_file_line recovery_file recovery_file_path line;;
      or_return_false written (fun recovery_file =>
      line <- maxlen_snprintf ("recovery_target_timeline = 'latest'" ++ nl);;
      written <- write_recovery_file_line recovery_file recovery_file_path line;;
      or_return_false written (fun recovery_file =>
      ro <- get_runtime_options;;
      written <-
        (if negb (is_empty (min_recovery_apply_delay ro)) then
           line <- maxlen_snprintf
                     ("min_recovery_apply_delay = " ++ min_recovery_apply_delay ro ++ nl);;
           write_recovery_file_line recovery_file recovery_file_path line
         else ret (Some recovery_file));;
      or_return_false written (fun recovery_file =>
      written <-
        (if use_replication_slots options then
           line <- maxlen_snprintf ("primary_slot_name = " ++ repmgr_slot_name ++ nl);;
           write_recovery_file_line recovery_file recovery_file_path line
         else ret (Some recovery_file));;
      or_return_false written (fun recovery_file =>
      _ <- fclose recovery_file;;
      ret true)))))
  end.

(** [check_server_version]: the readable version is returned next to the
    number instead of being stored through a pointer. *)
Definition check_server_version (conn : PGconn) (server_type : string)
    (exit_on_error : bool) : M (Z * string) :=
  let (server_version_num, server_version_string) := get_server_version conn in
  if server_version_num <? MIN_SUPPORTED_VERSION_NUM then
    when (server_version_num >? 0)
         (log_err (progname ++ " needs " ++ server_type ++ " to be PostgreSQL "
                   ++ MIN_SUPPORTED_VERSION ++ " or better" ++ nl));;
    if exit_on_error then
      PQfinish conn;;
      exit ERR_BAD_CONFIG
    else ret (-1, server_version_string)
  else ret (server_version_num, server_version_string).

(** [if (exit_on_error == true) { PQfinish(conn); exit(ERR_BAD_CONFIG); }] *)
Definition leave_if (exit_on_error : bool) (conn : PGconn) : M unit :=
  if exit_on_error then PQfinish conn;; exit ERR_BAD_CONFIG
  else ret tt.

(** The part of [check_upstream_config] on how the WAL is kept for the
    standby: [if (options.use_replication_slots) ... else ...].  It gives
    the new value of [config_ok]. *)
Definition check_wal_retention (conn : PGconn) (server_version_num : Z)
    (exit_on_error : bool) (config_ok : bool) : M bool :=
  if use_replication_slots options then
    if server_version_num <? 90400 then
      log_err ("Server version must be 9.4 or later to enable replication slots" ++ nl);;
      leave_if exit_on_error conn;;
      ret false
    else
      i <- guc_set_typed conn "max_replication_slots" ">" "1" "integer";;
      if (i =? 0) || (i =? -1) then
        if i =? 0 then
          log_err (progname ++ " needs parameter 'max_replication_slots' must be set to at least 1 to enable replication slots" ++ nl);;
          leave_if exit_on_error conn;;
          ret false
        else ret config_ok
      else ret config_ok
  else
    ro <- get_runtime_options;;
    i <- guc_set_typed conn "wal_keep_segments" ">=" (wal_keep_segments ro) "integer";;
    if (i =? 0) || (i =? -1) then
      when (i =? 0)
           (log_err (progname ++ " needs parameter 'wal_keep_segments' to be set to "
                     ++ wal_keep_segments ro
                     ++ " or greater (see the '-w' option or edit the postgresql.conf of the upstream server.)" ++ nl);;
            when (server_version_num >=? 90400)
                 (log_notice ("HINT: in PostgreSQL 9.4 and later, replication slots can be used, which do not require 'wal_keep_segments' to be set to a high value (set parameter 'use_replication_slots' in the configuration file to enable)" ++ nl)));;
      leave_if exit_on_error conn;;
      ret false
    else ret config_ok.

Definition check_upstream_config (conn : PGconn) (server_version_num : Z)
    (exit_on_error : bool) : M bool :=
  let config_ok := true in
  i <- guc_set conn "wal_level" "=" "hot_standby";;
  config_ok <-
    (if (i =? 0) || (i =? -1) then
       when (i =? 0)
            (log_err (progname ++ " needs parameter 'wal_level' to be set to 'hot_standby'" ++ nl));;
       leave_if exit_on_error conn;;
       ret false
     else ret config_ok);;
  config_ok <- check_wal_retention conn server_version_num exit_on_error config_ok;;
  i <- guc_set conn "archive_mode" "=" "on";;
  config_ok <-
    (if (i =? 0) || (i =? -1) then
       when (i =? 0)
            (log_err (progname ++ " needs parameter 'archive_mode' to be set to 'on'" ++ nl));;
       leave_if exit_on_error conn;;
       ret false
     else ret config_ok);;
  i <- guc_set conn "hot_standby" "=" "on";;
  config_ok <-
    (if (i =? 0) || (i =? -1) then
       when (i =? 0)
            (log_err (progname ++ " needs parameter 'hot_standby' to be set to 'on'" ++ nl));;
       leave_if exit_on_error conn;;
       ret false
     else ret config_ok);;
  i <- guc_set_typed conn "max_wal_senders" ">" "0" "integer";;
  config_ok <-
    (if (i =? 0) || (i =? -1) then
       when (i =? 0)
            (log_err (progname ++ " needs parameter 'max_wal_senders' to be set to be at least 1" ++ nl));;
       leave_if exit_on_error conn;;
       ret false
     else ret config_ok);;
  ret config_ok.

(** [create_node_record].  The statement is kept by the text of its
    VALUES list, [(%i, '%s', %s, '%s', '%s', '%s', %s, %i) ], made as the
    source makes it; its head, the INSERT INTO with the schema and the
    columns, is the same in every call. *)
Definition create_node_record (conn : PGconn) (action : option string)
    (node : Z) (type : string) (upstream_node : Z)
    (cluster_name node_name conninfo : string) (priority : Z) : M bool :=
  upstream_node_id <-
    (if upstream_node =? NO_UPSTREAM_NODE then
       if String.eqb type "standby" then
         primary_node_id <- get_primary_node_id conn cluster_name;;
         maxlen_snprintf (string_of_Z primary_node_id)
       else maxlen_snprintf "NULL"
     else maxlen_snprintf (string_of_Z upstream_node));;
  slot_name <-
    (if use_replication_slots options && String.eqb type "standby"
     then maxlen_snprintf ("'" ++ repmgr_slot_name ++ "'")
     else maxlen_snprintf "NULL");;
  let sqlquery :=
    INSERT_INTO_repl_nodes
      ("(" ++ string_of_Z node ++ ", '" ++ type ++ "', " ++ upstream_node_id
       ++ ", '" ++ cluster_name ++ "', '" ++ node_name ++ "', '" ++ conninfo
       ++ "', " ++ slot_name ++ ", " ++ string_of_Z priority ++ ") ") in
  match action with
  | Some a => emit (LogQuery a sqlquery)
  | None => ret tt
  end;;
  ok <- PQexec conn sqlquery;;
  if negb ok then
    log_warning ("Cannot insert node details, " ++ PQerrorMessage o conn ++ nl);;
    ret false
  else ret true.

(** One statement of [create_schema]; [fatal] tells the statements whose
    failure ends the command from those after which [create_schema]
    returns false. *)
Definition create_object (conn : PGconn) (q : sql_command) (debug fatal : bool)
    (complaint : string) : M bool :=
  when debug (emit (LogQuery "master register" q));;
  ok <- PQexec conn q;;
  if negb ok then
    if fatal then
      log_err (complaint ++ PQerrorMessage o conn ++ nl);;
      PQfinish conn;;
      exit ERR_BAD_CONFIG
    else
      emit (Log STDERR (complaint ++ PQerrorMessage o conn ++ nl));;
      ret false
  else ret true.

Definition create_schema (conn : PGconn) : M bool :=
  ok <- create_object conn (CREATE_SCHEMA get_repmgr_schema) true true
          ("Cannot create the schema " ++ get_repmgr_schema ++ ": ");;
  ok <- create_object conn (CREATE_FUNCTION "repmgr_update_last_updated") false false
          "Cannot create the function repmgr_update_last_updated: ";;
  if negb ok then ret false else
  ok <- create_object conn (CREATE_FUNCTION "repmgr_get_last_updated") false false
          "Cannot create the function repmgr_get_last_updated: ";;
  if negb ok then ret false else
  ok <- create_object conn (CREATE_TABLE "repl_nodes") true true
          ("Cannot create the table " ++ get_repmgr_schema_quoted ++ ".repl_nodes: ");;
  ok <- create_object conn (CREATE_TABLE "repl_monitor") true true
          ("Cannot create the table " ++ get_repmgr_schema_quoted ++ ".repl_monitor: ");;
  ok <- create_object conn (CREATE_VIEW "repl_status") true true
          ("Cannot create the view " ++ get_repmgr_schema_quoted ++ ".repl_status: ");;
  ok <- create_object conn (CREATE_INDEX "idx_repl_status_sort") true true
          ("Can't index table " ++ get_repmgr_schema_quoted ++ ".repl_monitor: ");;
  ok <- create_object conn (CREATE_FUNCTION "repmgr_update_standby_location") false false
          "Cannot create the function repmgr_update_standby_location: ";;
  if negb ok then ret false else
  ok <- create_object conn (CREATE_FUNCTION "repmgr_get_last_standby_location") false false
          "Cannot create the function repmgr_get_last_standby_location: ";;
  if negb ok then ret false else
  ok <- create_object conn (CREATE_FUNCTION "repmgr_get_primary_conninfo") false false
          "Cannot create the function repmgr_get_primary_conninfo: ";;
  if negb ok then ret false else
  ret true.

Definition do_cluster_cleanup : M unit :=
  log_info (progname ++ " connecting to database" ++ nl);;
  conn <- establish_db_connection (conninfo options) true;;
  log_info (progname ++ " connecting to master database" ++ nl);;
  master_conn <- get_master_connection conn (cluster_name options);;
  match master_conn with
  | None =>
      log_err ("cluster cleanup: cannot connect to master" ++ nl);;
      PQfinish conn;;
      exit ERR_DB_CON
  | Some master_conn =>
      PQfinish conn;;
      ro <- get_runtime_options;;
      let sqlquery :=
        if keep_history ro >? 0 then DELETE_FROM_repl_monitor (keep_history ro)
        else TRUNCATE_repl_monitor in
      res <- PQexec master_conn sqlquery;;
      if negb res then
        log_err ("cluster cleanup: Couldn't clean history" ++ nl
                 ++ PQerrorMessage o master_conn ++ nl);;
        PQfinish master_conn;;
        exit ERR_BAD_CONFIG
      else
      res <- PQexec master_conn VACUUM_repl_monitor;;
      PQfinish master_conn
  end.

Definition do_master_register : M unit :=
  conn <- establish_db_connection (conninfo options) true;;
  log_info (progname ++ " connecting to master database" ++ nl);;
  _ <- check_server_version conn "master" true;;
  log_info (progname ++ " connected to master, checking its state" ++ nl);;
  ret_ <- is_standby conn;;
  if negb (ret_ =? 0) then
    log_err (if ret_ =? 1 then "Trying to register a standby node as a master" ++ nl
             else "Connection to node lost!" ++ nl);;
    PQfinish conn;;
    exit ERR_BAD_CONFIG
  else
  schema_exists <- check_cluster_schema conn;;
  ro <- get_runtime_options;;
  if schema_exists && negb (force ro) then
    log_notice ("Schema '" ++ get_repmgr_schema ++ "' already exists." ++ nl);;
    PQfinish conn;;
    exit ERR_BAD_CONFIG
  else
  go_on <-
    (if negb schema_exists then
       log_info ("master register: creating database objects inside the "
                 ++ get_repmgr_schema ++ " schema" ++ nl);;
       create_schema conn
     else
       when (force ro)
            (let sqlquery := DELETE_FROM_repl_nodes (node options) in
             emit (LogQuery "master register" sqlquery);;
             ok <- PQexec conn sqlquery;;
             if negb ok then
               log_warning ("Cannot delete node details, " ++ PQerrorMessage o conn ++ nl);;
               PQfinish conn;;
               exit ERR_BAD_CONFIG
             else ret tt);;
       master_conn <- get_master_connection conn (cluster_name options);;
       match master_conn with
       | Some master_conn =>
           PQfinish master_conn;;
           log_warning ("There is a master already in cluster " ++ cluster_name options ++ nl);;
           exit ERR_BAD_CONFIG
       | None => ret true
       end);;
  if negb go_on then ret tt else
  node_record_created <-
    create_node_record conn (Some "master register") (node options) "primary"
      NO_UPSTREAM_NODE (cluster_name options) (node_name options)
      (conninfo options) (priority options);;
  PQfinish conn;;
  if negb node_record_created then exit ERR_DB_QUERY else
  log_notice ("Master node correctly registered for cluster " ++ cluster_name options
              ++ " with id " ++ string_of_Z (node options)
              ++ " (conninfo: " ++ conninfo options ++ ")" ++ nl).

(** [(master_version_num / 100) != (standby_version_num / 100)] of
    [do_standby_register] and [do_standby_follow], negated: the pair of
    version numbers the two commands accept.  The division of C [int]s
    truncates towards zero: [Z.quot]. *)
Definition versions_match (master_version_num standby_version_num : Z) : bool :=
  Z.quot master_version_num 100 =? Z.quot standby_version_num 100.

(** The block [/* master and standby version should match */] that
    [do_standby_register] and [do_standby_follow] both have: the command
    leaves when the pair is not accepted and goes on when it is. *)
Definition versions_should_match (conn master_conn : PGconn)
    (master_version_num : Z) (master_version : string)
    (standby_version_num : Z) (standby_version : string) : M unit :=
  if negb (versions_match master_version_num standby_version_num) then
    PQfinish conn;;
    PQfinish master_conn;;
    log_err (progname ++ " needs versions of both master (" ++ master_version
             ++ ") and standby (" ++ standby_version ++ ") to match." ++ nl);;
    exit ERR_BAD_CONFIG
  else ret tt.

Definition do_standby_register : M unit :=
  log_info (progname ++ " connecting to standby database" ++ nl);;
  conn <- establish_db_connection (conninfo options) true;;
  '(standby_version_num, standby_version) <- check_server_version conn "standby" true;;
  ret_ <- is_standby conn;;
  if (ret_ =? 0) || (ret_ =? -1) then
    log_err (if ret_ =? 0
             then "repmgr: This node should be a standby (" ++ conninfo options ++ ")" ++ nl
             else "repmgr: connection to node (" ++ conninfo options ++ ") lost" ++ nl);;
    PQfinish conn;;
    exit ERR_BAD_CONFIG
  else
  schema_exists <- check_cluster_schema conn;;
  if negb schema_exists then
    log_err ("Schema '" ++ get_repmgr_schema ++ "' doesn't exist." ++ nl);;
    PQfinish conn;;
    exit ERR_BAD_CONFIG
  else
  log_info (progname ++ " connecting to master database" ++ nl);;
  master_conn <- get_master_connection conn (cluster_name options);;
  match master_conn with
  | None =>
      log_err ("A master must be defined before configuring a slave" ++ nl);;
      exit ERR_BAD_CONFIG
  | Some master_conn =>
      log_info (progname ++ " connected to master, checking its state" ++ nl);;
      '(master_version_num, master_version) <- check_server_version conn "master" false;;
      if master_version_num <? 0 then
        PQfinish conn;;
        PQfinish master_conn;;
        exit ERR_BAD_CONFIG
      else
      versions_should_match conn master_conn master_version_num master_version
        standby_version_num standby_version;;
      log_info (progname ++ " registering the standby" ++ nl);;
      ro <- get_runtime_options;;
      when (force ro)
           (let sqlquery := DELETE_FROM_repl_nodes (node options) in
            emit (LogQuery "standby register" sqlquery);;
            ok <- PQexec master_conn sqlquery;;
            if negb ok then
              log_err ("Cannot delete node details, " ++ PQerrorMessage o master_conn ++ nl);;
              PQfinish master_conn;;
              PQfinish conn;;
              exit ERR_BAD_CONFIG
            else ret tt);;
      node_record_created <-
        create_node_record master_conn (Some "standby register") (node options)
          "standby" (upstream_node options) (cluster_name options)
          (node_name options) (conninfo options) (priority options);;
      PQfinish master_conn;;
      PQfinish conn;;
      if negb node_record_created then exit ERR_BAD_CONFIG else
      log_info (progname ++ " registering the standby complete" ++ nl);;
      log_notice ("Standby node correctly registered for cluster " ++ cluster_name options
                  ++ " with id " ++ string_of_Z (node options)
                  ++ " (conninfo: " ++ conninfo options ++ ")" ++ nl)
  end.

(** The locals [promote_check_timeout] and [promote_check_interval] of
    [do_standby_promote]. *)
Definition promote_check_timeout : Z := 60.
Definition promote_check_interval : Z := 2.

(** [for(i = 0; i < promote_check_timeout; i += promote_check_interval)]
    of [do_standby_promote], from the value [i] on: it gives
    [promote_sucess] and the last [retval]. *)
Fixpoint promote_check_loop (fuel : nat) (conn : PGconn)
    (timeout interval i retval : Z) : M (bool * Z) :=
  if i <? timeout then
    match fuel with
    | O => out_of_fuel
    | S fuel' =>
        retval <- is_standby conn;;
        if retval =? 0 then ret (true, retval)
        else
          sleep interval;;
          promote_check_loop fuel' conn timeout interval (i + interval) retval
    end
  else ret (false, retval).

(** [do_standby_promote] up to the two checks on the cluster: the
    connection to the standby is the value returned. *)
Definition promote_preconditions : M (PGconn * Z) :=
  log_info (progname ++ " connecting to standby database" ++ nl);;
  conn <- establish_db_connection (conninfo options) true;;
  log_info (progname ++ " connected to standby, checking its state" ++ nl);;
  _ <- check_server_version conn "standby" true;;
  retval <- is_standby conn;;
  if (retval =? 0) || (retval =? -1) then
    log_err (if retval =? 0
             then progname ++ ": The command should be executed on a standby node" ++ nl
             else progname ++ ": connection to node lost!" ++ nl);;
    PQfinish conn;;
    exit ERR_BAD_CONFIG
  else
  old_master_conn <- get_master_connection conn (cluster_name options);;
  match old_master_conn with
  | Some old_master_conn =>
      log_err ("This cluster already has an active master server" ++ nl);;
      PQfinish old_master_conn;;
      PQfinish conn;;
      exit ERR_BAD_CONFIG
  | None => ret (conn, retval)
  end.

(** [do_standby_promote], the promote action. *)
Definition promote_server (conn : PGconn) : M unit :=
  log_notice (progname ++ ": Promoting standby" ++ nl);;
  '(success, data_dir) <- get_pg_setting conn "data_directory";;
  PQfinish conn;;
  if negb success then
    log_err ("Unable to determine data directory" ++ nl);;
    exit ERR_BAD_CONFIG
  else
  pg_ctl <- make_pg_path "pg_ctl";;
  script <- maxlen_snprintf (pg_ctl ++ " -D " ++ data_dir ++ " promote");;
  log_notice (progname ++ ": promoting server using '" ++ script ++ "'" ++ nl);;
  r <- system script;;
  if negb (r =? 0) then
    log_err ("Unable to promote server from standby to master" ++ nl);;
    exit ERR_NO_RESTART
  else ret tt.

(** [do_standby_promote] after the promote action: the polling and its
    report. *)
Definition promote_confirmation (retval : Z) : M unit :=
  log_info (progname ++ " reconnecting to promoted server" ++ nl);;
  conn <- establish_db_connection (conninfo options) true;;
  '(promote_sucess, retval) <-
    promote_check_loop (Z.to_nat promote_check_timeout) conn
      promote_check_timeout promote_check_interval 0 retval;;
  (if negb promote_sucess then
     log_err (if retval =? 1
              then progname ++ ": STANDBY PROMOTE failed, this is still a standby node." ++ nl
              else progname ++ ": connection to node lost!" ++ nl)
   else
     log_notice (progname ++ ": STANDBY PROMOTE successful.  You should REINDEX any hash indexes you have." ++ nl));;
  PQfinish conn.

Definition do_standby_promote : M unit :=
  '(conn, retval) <- promote_preconditions;;
  promote_server conn;;
  promote_confirmation retval.

(** The [do ... while] of [do_standby_follow]: the connection to the
    standby, which may have been opened again, and the master found. *)
Fixpoint discover_master (fuel : nat) (conn : PGconn)
  : M (PGconn * option PGconn) :=
  match fuel with
  | O => out_of_fuel
  | S fuel' =>
      up <- is_pgup conn (master_response_timeout options);;
      conn <- (if negb up then establish_db_connection (conninfo options) true
               else ret conn);;
      master_conn <- get_master_connection conn (cluster_name options);;
      ro <- get_runtime_options;;
      match master_conn with
      | None =>
          if wait_for_master ro then discover_master fuel' conn
          else ret (conn, None)
      | Some _ => ret (conn, master_conn)
      end
  end.

Definition do_standby_follow (fuel : nat) : M unit :=
  log_info (progname ++ " connecting to standby database" ++ nl);;
  conn <- establish_db_connection (conninfo options) true;;
  log_info (progname ++ " connected to standby, checking its state" ++ nl);;
  '(standby_version_num, standby_version) <- check_server_version conn "standby" true;;
  retval <- is_standby conn;;
  if (retval =? 0) || (retval =? -1) then
    log_err (if retval =? 0
             then progname ++ ": The command should be executed in a standby node" ++ nl
             else progname ++ ": connection to node lost!" ++ nl);;
    PQfinish conn;;
    exit ERR_BAD_CONFIG
  else
  log_info (progname ++ " discovering new master..." ++ nl);;
  '(conn, master_conn) <- discover_master fuel conn;;
  match master_conn with
  | None =>
      log_err ("There isn't a master to follow in this cluster" ++ nl);;
      PQfinish conn;;
      exit ERR_BAD_CONFIG
  | Some master_conn =>
      retval <- is_standby master_conn;;
      if negb (retval =? 0) then
        log_err (if retval =? 1
                 then progname ++ ": The node to follow should be a master" ++ nl
                 else progname ++ ": connection to node lost!" ++ nl);;
        PQfinish conn;;
        PQfinish master_conn;;
        exit ERR_BAD_CONFIG
      else
      log_info (progname ++ " connected to master, checking its state" ++ nl);;
      '(master_version_num, master_version) <- check_server_version conn "master" false;;
      if master_version_num <? 0 then
        PQfinish conn;;
        PQfinish master_conn;;
        exit ERR_BAD_CONFIG
      else
      versions_should_match conn master_conn master_version_num master_version
        standby_version_num standby_version;;
      ro <- get_runtime_options;;
      set_runtime_options
        (mkRuntime (strncpy_MAXLEN (PQhost o master_conn))
                   (strncpy_MAXLEN (PQport o master_conn))
                   (strncpy_MAXLEN (PQuser o master_conn))
                   (wal_keep_segments ro) (min_recovery_apply_delay ro)
                   (force ro) (wait_for_master ro) (keep_history ro));;
      PQfinish master_conn;;
      log_info (progname ++ " Changing standby's master" ++ nl);;
      '(success, data_dir) <- get_pg_setting conn "data_directory";;
      PQfinish conn;;
      if negb success then
        log_err ("Unable to determine data directory" ++ nl);;
        exit ERR_BAD_CONFIG
      else
      written <- create_recovery_file data_dir;;
      if negb written then exit ERR_BAD_CONFIG else
      pg_ctl <- make_pg_path "pg_ctl";;
      script <- maxlen_snprintf (pg_ctl ++ " " ++ pgctl_options options ++ " -w -D "
                                 ++ data_dir ++ " -m fast restart");;
      log_notice (progname ++ ": restarting server using '" ++ script ++ "'" ++ nl);;
      r <- system script;;
      if negb (r =? 0) then
        log_err ("Can't restart server" ++ nl);;
        exit ERR_NO_RESTART
      else ret tt
  end.

End Repmgr.

(** * What the theorems speak about *)

(** The scripts run with [system()], in order. *)
Fixpoint scripts_run (t : list event) : list string :=
  match t with
  | [] => []
  | System script :: rest => script :: scripts_run rest
  | _ :: rest => scripts_run rest
  end.

(** The errors written with [log_err], in order. *)
Fixpoint errors_logged (t : list event) : list string :=
  match t with
  | [] => []
  | Log LOG_ERR text :: rest => text :: errors_logged rest
  | _ :: rest => errors_logged rest
  end.

(** The statements sent with [PQexec], in order. *)
Fixpoint statements_sent (t : list event) : list sql_command :=
  match t with
  | [] => []
  | PQexec_ev _ q _ :: rest => q :: statements_sent rest
  | _ :: rest => statements_sent rest
  end.

(** The answers [is_standby] gave for [conn], in order. *)
Fixpoint probes_of (conn : PGconn) (t : list event) : list Z :=
  match t with
  | [] => []
  | Asked_is_standby c answer :: rest =>
      if String.eqb c conn then answer :: probes_of conn rest
      else probes_of conn rest
  | _ :: rest => probes_of conn rest
  end.

(** The server parameters asked for, in order. *)
Fixpoint parameters_asked (t : list event) : list string :=
  match t with
  | [] => []
  | Asked_guc _ parameter _ :: rest => parameter :: parameters_asked rest
  | _ :: rest => parameters_asked rest
  end.

(** The connections opened, in order. *)
Fixpoint connections_opened (t : list event) : list string :=
  match t with
  | [] => []
  | Connect to :: rest => to :: connections_opened rest
  | _ :: rest => connections_opened rest
  end.

(** What [is_standby] answers for a server at a moment. *)
Definition answer_at (o : outside) (conn : PGconn) (m : nat) : Z :=
  match recovery o conn m with
  | Standby => 1
  | Primary => 0
  | Unreachable => -1
  end.

(** The server of a row can be reached and reports Primary. *)
Definition reports_primary (o : outside) (m : nat) (r : node_row) : bool :=
  connects o (col_conninfo r) m && (answer_at o (col_conninfo r) m =? 0).

(** The value of [find_master]: the first row that reports Primary. *)
Fixpoint first_primary (o : outside) (m : nat) (rows : list node_row)
  : option PGconn :=
  match rows with
  | [] => None
  | r :: rest =>
      if reports_primary o m r then Some (col_conninfo r)
      else first_primary o m rest
  end.

(** The rows of a cluster in the registry read through [conn]. *)
Definition cluster_rows (w : world) (conn : PGconn) (cluster : string)
  : list node_row :=
  filter (fun r => String.eqb (col_cluster r) cluster) (repl_nodes (dbs w conn)).

(** Some registered node of the cluster can be reached and reports
    Primary. *)
Definition registered_primary (o : outside) (options : t_configuration_options)
    (w : world) : Prop :=
  exists row,
    In row (repl_nodes (dbs w (conninfo options)))
    /\ col_cluster row = cluster_name options
    /\ connects o (col_conninfo row) (moment w) = true
    /\ recovery o (col_conninfo row) (moment w) = Primary.

(** The world after more events. *)
Definition add_events (added : list event) (w : world) : world :=
  mkWorld (moment w) (clock w) (runtime_options w) (dbs w) (files w)
          (trace w ++ added).

(** The three reports that end [do_standby_promote]. *)
Definition promoted_report (progname : string) : event :=
  Log LOG_NOTICE
      (progname ++ ": STANDBY PROMOTE successful.  You should REINDEX any hash indexes you have." ++ nl).

Definition still_standby_report (progname : string) : event :=
  Log LOG_ERR
      (progname ++ ": STANDBY PROMOTE failed, this is still a standby node." ++ nl).

Definition connection_lost_report (progname : string) : event :=
  Log LOG_ERR (progname ++ ": connection to node lost!" ++ nl).

(** The report chosen from [promote_sucess] and the last [retval]. *)
Definition promote_report (progname : string) (promote_sucess : bool) (retval : Z)
  : event :=
  if promote_sucess then promoted_report progname
  else if retval =? 1 then still_standby_report progname
  else connection_lost_report progname.

(** The number of rounds of the polling loop. *)
Definition promote_check_rounds : nat :=
  Z.to_nat (promote_check_timeout / promote_check_interval).

(** The text does not have the field. *)
Definition omits (field text : string) : Prop := index 0 field text = None.

(** C3 as the spec words it, for the fields of primary_conninfo: every
    field whose source value is empty is absent from the file written. *)
Definition empty_fields_are_omitted (o : outside) (MAXLEN : nat)
    (progname : string) (options : t_configuration_options)
    (require_password : bool) (repmgr_slot_name data_dir : string)
    (w : world) : Prop :=
  forall w' content,
    create_recovery_file o MAXLEN progname options require_password
      repmgr_slot_name data_dir w = (Returns true, w') ->
    files w' (data_dir ++ "/" ++ RECOVERY_FILE) = Some content ->
    (is_empty (masterport (runtime_options w)) = true -> omits "port=" content)
    /\ (is_empty (host (runtime_options w)) = true -> omits "host=" content)
    /\ (is_empty (username (runtime_options w)) = true -> omits "user=" content)
    /\ (PGPASSWORD o = None -> omits "password=" content)
    /\ (is_empty (node_name options) = true -> omits "application_name=" content).

(** A probe of the upstream configuration did not pass: the parameter
    does not hold (0) or could not be asked (-1). *)
Definition failed (i : Z) : bool := (i =? 0) || (i =? -1).

(** The command returns [a], having asked for the parameters [asked], in
    every world whose runtime options are [ro]. *)
Definition asks {A : Type} (ro : t_runtime_options) (c : M A) (a : A)
    (asked : list string) : Prop :=
  forall w,
    runtime_options w = ro ->
    exists added,
      c w = (Returns a, add_events added w)
      /\ parameters_asked added = asked.

(** The command leaves with [code], having asked for the parameters
    [asked], in every world whose runtime options are [ro]. *)
Definition leaves {A : Type} (ro : t_runtime_options) (c : M A)
    (code : errcode) (asked : list string) : Prop :=
  forall w,
    runtime_options w = ro ->
    exists added,
      c w = (Exits code, add_events added w)
      /\ parameters_asked added = asked.

(** * Scenarios *)

(** A cluster named test: node1 is its registered primary, node2 a
    standby that is being set up. *)
Definition node1 : string := "host=node1".
Definition node2 : string := "host=node2".

Definition node1_row : node_row :=
  mkNode 1 "primary" None "test" "node1" node1 None 100 true.

Definition registered : database := mkDb ["repmgr_test"] [node1_row] [].

Definition hot_standby_settings (slots : setting_answer) (conn : PGconn)
    (parameter : string) : setting_answer :=
  if String.eqb parameter "wal_level" then Setting "hot_standby"
  else if String.eqb parameter "max_replication_slots" then slots
  else if String.eqb parameter "wal_keep_segments" then Setting "5000"
  else if String.eqb parameter "archive_mode" then Setting "on"
  else if String.eqb parameter "hot_standby" then Setting "on"
  else if String.eqb parameter "max_wal_senders" then Setting "5"
  else if String.eqb parameter "data_directory" then Setting "/data"
  else NoSuchSetting.

(** Every server can be reached and accepts every statement; [role] says
    what each reports, [version] what it runs and [slots] what it answers
    about max_replication_slots. *)
Definition cluster_outside (role : string -> nat -> recovery_status)
    (version : PGconn -> Z) (slots : setting_answer) : outside :=
  mkOutside (fun _ _ => true) role version (fun _ => "9.x")
            (hot_standby_settings slots) (fun _ _ => true) (fun _ => "")
            (fun _ _ => true) (fun _ => "node1") (fun _ => "5432")
            (fun _ => "repmgr") (fun _ => 0) None (fun _ => true)
            (fun _ _ => true) (fun _ => true) (fun _ _ d => d).

(** The outside [o] with another PGPASSWORD in the environment. *)
Definition with_password (password : option string) (o : outside) : outside :=
  mkOutside (connects o) (recovery o) (server_version_num o) (server_version o)
            (pg_setting o) (pq_ok o) (PQerrorMessage o) (pgup o) (PQhost o)
            (PQport o) (PQuser o) (system_rc o) password (fopen_ok o)
            (fputs_ok o) (fclose_ok o) (sql_effect o).

(** The outside [o] with a server that makes something else of a text
    it does not read as one row. *)
Definition with_sql_effect (effect : PGconn -> string -> database -> database)
    (o : outside) : outside :=
  mkOutside (connects o) (recovery o) (server_version_num o) (server_version o)
            (pg_setting o) (pq_ok o) (PQerrorMessage o) (pgup o) (PQhost o)
            (PQport o) (PQuser o) (system_rc o) (PGPASSWORD o) (fopen_ok o)
            (fputs_ok o) (fclose_ok o) effect.

(** node1 is the primary and stays it; every other server is a standby. *)
Definition node1_primary (conn : string) (m : nat) : recovery_status :=
  if String.eqb conn node1 then Primary else Standby.

(** node1 is gone; node2 is a standby that never becomes a primary. *)
Definition node2_stays_standby (conn : string) (m : nat) : recovery_status :=
  if String.eqb conn node1 then Unreachable else Standby.

(** node1 runs 9.3.0, every other server 9.4.0. *)
Definition mixed_versions (conn : PGconn) : Z :=
  if String.eqb conn node1 then 90300 else 90400.

Definition all_9_4 (conn : PGconn) : Z := 90400.

(** The options of node2, with and without replication slots. *)
Definition node2_options (slots : bool) : t_configuration_options :=
  mkOptions "test" 2 (-1) node2 "node2" 100 slots 60 "".

Definition node1_options : t_configuration_options :=
  mkOptions "test" 1 (-1) node1 "node1" 100 false 60 "".

(** The runtime options: the master is node1, no port was given. *)
Definition default_runtime : t_runtime_options :=
  mkRuntime "node1" "" "repmgr" "5000" "" false false 0.

(** The world when a command starts. *)
Definition first_world : world :=
  mkWorld 0 0 default_runtime (fun _ => registered) (fun _ => None) [].

(** * More of [repmgr.c] *)

(** The double quote. *)
Definition dq : string := String (ascii_of_nat 34) EmptyString.

(** The fields of [runtime_options] and of [options] that only the
    functions below read. *)
Record t_runtime_options_rest : Type := mkRuntimeRest {
  dbname : string;
  dest_dir : string;
  remote_user : string
}.

Record t_configuration_options_rest : Type := mkOptionsRest {
  ssh_options : string;
  rsync_options : string;
  pg_basebackup_options : string;
  tablespace_dirs : list (string * string)
}.

(** The actions [NO_ACTION] ... [CLUSTER_CLEANUP]. *)
Inductive command_action : Type :=
| NO_ACTION
| MASTER_REGISTER
| STANDBY_REGISTER
| STANDBY_CLONE
| STANDBY_PROMOTE
| STANDBY_FOLLOW
| WITNESS_CREATE
| CLUSTER_SHOW
| CLUSTER_CLEANUP.

(** [tolower] and [strcasecmp(a, b) == 0], in the C locale. *)
Definition tolower (c : ascii) : ascii :=
  let n := nat_of_ascii c in
  if ((65 <=? n) && (n <=? 90))%nat then ascii_of_nat (n + 32) else c.

Fixpoint strcasecmp_eq (a b : string) : bool :=
  match a, b with
  | EmptyString, EmptyString => true
  | String x a', String y b' =>
      Ascii.eqb (tolower x) (tolower y) && strcasecmp_eq a' b'
  | _, _ => false
  end.

(** [printf("%-10s", s)]: the text, then blanks up to ten columns. *)
Fixpoint blanks (n : nat) : string :=
  match n with
  | O => ""
  | S n' => " " ++ blanks n'
  end.

Definition left_justified_10 (s : string) : string :=
  s ++ blanks (10 - String.length s).

(** The action a server mode and a server command stand for: the nested
    [if]s of [main]. *)
Definition action_of (server_mode server_cmd : string) : command_action :=
  if strcasecmp_eq server_mode "MASTER" then
    if strcasecmp_eq server_cmd "REGISTER" then MASTER_REGISTER else NO_ACTION
  else if strcasecmp_eq server_mode "STANDBY" then
    if strcasecmp_eq server_cmd "REGISTER" then STANDBY_REGISTER
    else if strcasecmp_eq server_cmd "CLONE" then STANDBY_CLONE
    else if strcasecmp_eq server_cmd "PROMOTE" then STANDBY_PROMOTE
    else if strcasecmp_eq server_cmd "FOLLOW" then STANDBY_FOLLOW
    else NO_ACTION
  else if strcasecmp_eq server_mode "CLUSTER" then
    if strcasecmp_eq server_cmd "SHOW" then CLUSTER_SHOW
    else if strcasecmp_eq server_cmd "CLEANUP" then CLUSTER_CLEANUP
    else NO_ACTION
  else if strcasecmp_eq server_mode "WITNESS" then
    if strcasecmp_eq server_cmd "CREATE" then WITNESS_CREATE else NO_ACTION
  else NO_ACTION.

Definition is_action (a b : command_action) : bool :=
  match a, b with
  | NO_ACTION, NO_ACTION | MASTER_REGISTER, MASTER_REGISTER
  | STANDBY_REGISTER, STANDBY_REGISTER | STANDBY_CLONE, STANDBY_CLONE
  | STANDBY_PROMOTE, STANDBY_PROMOTE | STANDBY_FOLLOW, STANDBY_FOLLOW
  | WITNESS_CREATE, WITNESS_CREATE | CLUSTER_SHOW, CLUSTER_SHOW
  | CLUSTER_CLEANUP, CLUSTER_CLEANUP => true
  | _, _ => false
  end.

Section Commands.

Variable o : outside.
Variable MAXLEN : nat.
Variable progname : string.
Variable options : t_configuration_options.
Variable options_rest : t_configuration_options_rest.
Variable runtime_rest : t_runtime_options_rest.
Variable pg_bindir : string.

Definition usage : M unit :=
  emit (Log STDERR (nl ++ nl ++ progname ++ ": Replicator manager " ++ nl));;
  emit (Log STDERR ("Try " ++ dq ++ progname ++ " --help" ++ dq
                    ++ " for more information." ++ nl)).

(** The two tests that [check_parameters_for_action] makes for MASTER
    REGISTER, STANDBY REGISTER, STANDBY PROMOTE and STANDBY FOLLOW; the
    four cases differ by the name of the command in the messages. *)
Definition no_parameters_wanted (command : string) : M bool :=
  let ok := true in
  ro <- get_runtime_options;;
  ok <-
    (if negb (is_empty (host ro)) || negb (is_empty (masterport ro))
        || negb (is_empty (username ro)) || negb (is_empty (dbname runtime_rest))
     then
       log_err ("You can't use connection parameters to the master when issuing a "
                ++ command ++ " command." ++ nl);;
       usage;;
       ret false
     else ret ok);;
  ok <-
    (if negb (is_empty (dest_dir runtime_rest)) then
       log_err ("You don't need a destination directory for " ++ command
                ++ " command" ++ nl);;
       usage;;
       ret false
     else ret ok);;
  ret ok.

(** [check_parameters_for_action]: the value is [ok] with the new value
    of the global [need_a_node], which is true when the program starts.
    [runtime_options.host] is an array of the structure, so the test
    [runtime_options.host == NULL] of STANDBY CLONE never holds. *)
Definition check_parameters_for_action (action : command_action) (need_a_node : bool)
  : M (bool * bool) :=
  match action with
  | MASTER_REGISTER =>
      ok <- no_parameters_wanted "MASTER REGISTER";; ret (ok, need_a_node)
  | STANDBY_REGISTER =>
      ok <- no_parameters_wanted "STANDBY REGISTER";; ret (ok, need_a_node)
  | STANDBY_PROMOTE =>
      ok <- no_parameters_wanted "STANDBY PROMOTE";; ret (ok, need_a_node)
  | STANDBY_FOLLOW =>
      ok <- no_parameters_wanted "STANDBY FOLLOW";; ret (ok, need_a_node)
  | STANDBY_CLONE => ret (true, false)
  | WITNESS_CREATE => ret (true, need_a_node)
  | CLUSTER_SHOW => ret (true, need_a_node)
  | CLUSTER_CLEANUP => ret (true, need_a_node)
  | NO_ACTION => ret (true, need_a_node)
  end.

(** [main], from the first argument that is not an option to the check
    of the parameters ([if (optind < argc)] ... [exit(ERR_BAD_CONFIG)]
    after [check_parameters_for_action]): [args] is [argv] from [optind]
    on.  The value is [action] with the new [need_a_node]. *)
Definition main_action (args : list string) : M (command_action * bool) :=
  '(server_mode, args) <-
    match args with
    | server_mode :: rest =>
        if negb (strcasecmp_eq server_mode "STANDBY")
           && negb (strcasecmp_eq server_mode "MASTER")
           && negb (strcasecmp_eq server_mode "WITNESS")
           && negb (strcasecmp_eq server_mode "CLUSTER")
        then usage;; exit ERR_BAD_CONFIG
        else ret (Some server_mode, rest)
    | [] => ret (None, [])
    end;;
  '(action, args) <-
    match server_mode, args with
    | Some server_mode, server_cmd :: rest =>
        ret (action_of server_mode server_cmd, rest)
    | _, _ => ret (NO_ACTION, args)
    end;;
  (if is_action action NO_ACTION then usage;; exit ERR_BAD_CONFIG else ret tt);;
  args <-
    (if is_action action STANDBY_CLONE then
       match args with
       | node_arg :: rest =>
           ro <- get_runtime_options;;
           (if negb (is_empty (host ro)) then
              log_err ("Conflicting parameters:  you can't use -h while providing a node separately." ++ nl);;
              usage;;
              exit ERR_BAD_CONFIG
            else ret tt);;
           set_runtime_options
             (mkRuntime (strncpy_MAXLEN MAXLEN node_arg) (masterport ro) (username ro)
                        (wal_keep_segments ro) (min_recovery_apply_delay ro)
                        (force ro) (wait_for_master ro) (keep_history ro));;
           ret rest
       | [] => ret args
       end
     else ret args);;
  match args with
  | extra :: _ =>
      log_err (progname ++ ": too many command-line arguments (first extra is "
               ++ dq ++ extra ++ dq ++ ")" ++ nl);;
      usage;;
      exit ERR_BAD_CONFIG
  | [] =>
      '(ok, need_a_node) <- check_parameters_for_action action true;;
      if negb ok then exit ERR_BAD_CONFIG else ret (action, need_a_node)
  end.

(** The loop of [test_ssh_connection] over [truebin_paths], from the path
    at which it stands. *)
Fixpoint try_truebin_paths (truebin_paths : list string) (host remote_user : string)
    (r : Z) : M Z :=
  match truebin_paths with
  | [] => ret r
  | truebin :: rest =>
      if negb (r =? 0) then
        script <-
          (if is_empty remote_user then
             maxlen_snprintf MAXLEN
               ("ssh -o Batchmode=yes " ++ ssh_options options_rest ++ " " ++ host
                ++ " " ++ truebin)
           else
             maxlen_snprintf MAXLEN
               ("ssh -o Batchmode=yes " ++ ssh_options options_rest ++ " " ++ host
                ++ " -l " ++ remote_user ++ " " ++ truebin));;
        log_debug ("command is: " ++ script ++ nl);;
        r <- system o script;;
        try_truebin_paths rest host remote_user r
      else ret r
  end.

Definition test_ssh_connection (host remote_user : string) : M Z :=
  r <- try_truebin_paths ["/bin/true"; "/usr/bin/true"] host remote_user 1;;
  when (negb (r =? 0))
       (log_info ("Can not connect to the remote host (" ++ host ++ ")" ++ nl));;
  ret r.

(** [copy_remote_files].  [strcat] writes past [rsync_flags] when the
    flags leave no room for [" --delete"]; the command line that holds
    the flags is then too long for [script] as well, and the model stops
    there. *)
Definition copy_remote_files (host remote_user remote_path local_path : string)
  : M Z :=
  rsync_flags <-
    (if is_empty (rsync_options options_rest) then
       maxlen_snprintf MAXLEN "--archive --checksum --compress --progress --rsh=ssh"
     else maxlen_snprintf MAXLEN (rsync_options options_rest));;
  ro <- get_runtime_options;;
  let rsync_flags := if force ro then rsync_flags ++ " --delete" else rsync_flags in
  host_string <-
    (if is_empty remote_user then maxlen_snprintf MAXLEN host
     else maxlen_snprintf MAXLEN (remote_user ++ "@" ++ host));;
  script <- maxlen_snprintf MAXLEN
              ("rsync " ++ rsync_flags ++ " " ++ host_string ++ ":" ++ remote_path
               ++ " " ++ local_path);;
  log_info ("rsync command line:  '" ++ script ++ "'" ++ nl);;
  r <- system o script;;
  when (negb (r =? 0))
       (log_err ("Can't rsync from remote file (" ++ host_string ++ ":"
                 ++ remote_path ++ ")" ++ nl));;
  ret r.

(** [WEXITSTATUS(r)] of [<sys/wait.h>]: bits 8 to 15 of the status. *)
Definition WEXITSTATUS (r : Z) : Z := Z.land (Z.shiftr r 8) 255.

(** [appendPQExpBuffer(&params, " -T %s=%s", ...)] for every cell. *)
Fixpoint tablespace_params (cells : list (string * string)) : string :=
  match cells with
  | [] => ""
  | (old_dir, new_dir) :: rest =>
      " -T " ++ old_dir ++ "=" ++ new_dir ++ tablespace_params rest
  end.

Definition run_basebackup : M Z :=
  ro <- get_runtime_options;;
  let params := "" in
  let params := if negb (is_empty (host ro)) then params ++ " -h " ++ host ro else params in
  let params :=
    if negb (is_empty (masterport ro)) then params ++ " -p " ++ masterport ro
    else params in
  let params :=
    if negb (is_empty (username ro)) then params ++ " -U " ++ username ro
    else params in
  let params :=
    if negb (is_empty (dest_dir runtime_rest)) then params ++ " -D " ++ dest_dir runtime_rest
    else params in
  let params := params ++ tablespace_params (tablespace_dirs options_rest) in
  pg_basebackup <- make_pg_path MAXLEN pg_bindir "pg_basebackup";;
  script <- maxlen_snprintf MAXLEN
              (pg_basebackup ++ " -l " ++ dq ++ "repmgr base backup" ++ dq ++ " "
               ++ params ++ " " ++ pg_basebackup_options options_rest);;
  log_info ("Executing: '" ++ script ++ "'" ++ nl);;
  r <- system o script;;
  log_debug ("r = " ++ string_of_Z r ++ ", " ++ string_of_Z (WEXITSTATUS r) ++ nl);;
  ret r.

End Commands.

Section Show.

Variable o : outside.
Variable MIN_SUPPORTED_VERSION_NUM : Z.
Variable MIN_SUPPORTED_VERSION : string.
Variable progname : string.
Variable options : t_configuration_options.
Variable runtime_rest : t_runtime_options_rest.

(** [PQresultStatus(res) == PGRES_TUPLES_OK] for the SELECT that
    [do_cluster_show] sends on a connection. *)
Variable select_ok : PGconn -> bool.

(** The server that connection parameters lead to. *)
Variable server_of_params : list (string * string) -> PGconn.

(** [PQstatus(conn) == CONNECTION_OK] of libpq. *)
Definition PQstatus_ok (conn : PGconn) : M bool :=
  w <- get_world;;
  ret (connects o conn (moment w)).

(** The [for] of [do_cluster_show] over the rows of the result, which
    come in the order of the registry. *)
Fixpoint show_nodes (rows : list node_row) : M unit :=
  match rows with
  | [] => ret tt
  | r :: rest =>
      conn <- establish_db_connection o (col_conninfo r) false;;
      ok <- PQstatus_ok conn;;
      node_role <-
        (if negb ok then ret "  FAILED"
         else if String.eqb (col_type r) "witness" then ret "  witness"
         else
           standby <- is_standby o conn;;
           if negb (standby =? 0) then ret "  standby" else ret "* master");;
      emit (Log STDOUT (left_justified_10 node_role));;
      emit (Log STDOUT ("| " ++ col_conninfo r ++ nl));;
      PQfinish conn;;
      show_nodes rest
  end.

Definition do_cluster_show : M unit :=
  log_info (progname ++ " connecting to database" ++ nl);;
  conn <- establish_db_connection o (conninfo options) true;;
  let sqlquery := SELECT_FROM_repl_nodes in
  w <- get_world;;
  emit (PQexec_ev conn sqlquery (select_ok conn));;
  let res := repl_nodes (dbs w conn) in
  if negb (select_ok conn) then
    log_err ("Can't get nodes information, have you registered them?" ++ nl
             ++ PQerrorMessage o conn ++ nl);;
    PQfinish conn;;
    exit ERR_BAD_CONFIG
  else
  PQfinish conn;;
  emit (Log STDOUT ("Role      | Connection String " ++ nl));;
  show_nodes res.

(** Modelled from the spec: [establish_db_connection_by_params] is
    defined in [dbutils.c], which is not among the sources.  As
    [establish_db_connection] (section 7: failing to reach a required
    server ends the command), for the server the parameters lead to. *)
Definition establish_db_connection_by_params (keywords values : list string)
    (exit_on_error : bool) : M PGconn :=
  establish_db_connection o (server_of_params (combine keywords values))
    exit_on_error.

(** [do_check_upstream_config]; the configuration file, read once more
    by [parse_config], gives the same [options]. *)
Definition do_check_upstream_config : M unit :=
  ro <- get_runtime_options;;
  let keywords := ["host"; "port"; "dbname"] in
  let values := [host ro; masterport ro; dbname runtime_rest] in
  log_info (progname ++ " connecting to upstream server" ++ nl);;
  conn <- establish_db_connection_by_params keywords values true;;
  log_info (progname ++ " connected to upstream server, checking its state" ++ nl);;
  '(server_version_num, _) <-
    check_server_version o MIN_SUPPORTED_VERSION_NUM MIN_SUPPORTED_VERSION progname
      conn "upstream server" false;;
  config_ok <- check_upstream_config o progname options conn server_version_num false;;
  when config_ok
       (emit (Log STDOUT ("No configuration problems found with the upstream server" ++ nl)));;
  PQfinish conn.

End Show.

(** [main], [/* Initialise pg_bindir */] and [/* Add trailing slash */]:
    the value is the global [pg_bindir], which is empty when the program
    starts.  [runtime_pg_bindir] is [runtime_options.pg_bindir] and
    [options_pg_bindir] is [options.pg_bindir]. *)
Definition main_pg_bindir (MAXLEN : nat) (runtime_pg_bindir options_pg_bindir : string)
  : M string :=
  let runtime_pg_bindir :=
    if (String.length runtime_pg_bindir =? 0)%nat
    then strncpy_MAXLEN MAXLEN options_pg_bindir
    else runtime_pg_bindir in
  if negb (String.length runtime_pg_bindir =? 0)%nat then
    let len := String.length runtime_pg_bindir in
    match String.get (len - 1) runtime_pg_bindir with
    | Some "/"%char => ret (strncpy_MAXLEN MAXLEN runtime_pg_bindir)
    | _ => maxlen_snprintf MAXLEN (runtime_pg_bindir ++ "/")
    end
  else ret "".

(** * What the theorems on these functions speak about *)

(** The text in lower case. *)
Fixpoint lowercase (s : string) : string :=
  match s with
  | EmptyString => EmptyString
  | String c rest => String (tolower c) (lowercase rest)
  end.

(** The command grammar: a server mode, a server command and the action
    they stand for. *)
Definition command_grammar : list (string * string * command_action) :=
  [("master", "register", MASTER_REGISTER);
   ("standby", "register", STANDBY_REGISTER);
   ("standby", "clone", STANDBY_CLONE);
   ("standby", "promote", STANDBY_PROMOTE);
   ("standby", "follow", STANDBY_FOLLOW);
   ("witness", "create", WITNESS_CREATE);
   ("cluster", "show", CLUSTER_SHOW);
   ("cluster", "cleanup", CLUSTER_CLEANUP)].

(** The actions that find the master in the registry and take no
    connection parameter and no destination directory. *)
Definition wants_no_parameters (action : command_action) : bool :=
  match action with
  | MASTER_REGISTER | STANDBY_REGISTER | STANDBY_PROMOTE | STANDBY_FOLLOW => true
  | _ => false
  end.

(** No connection parameter and no destination directory was given. *)
Definition no_parameters_given (ro : t_runtime_options)
    (runtime_rest : t_runtime_options_rest) : bool :=
  is_empty (host ro) && is_empty (masterport ro) && is_empty (username ro)
  && is_empty (dbname runtime_rest) && is_empty (dest_dir runtime_rest).

(** The event is a message. *)
Definition is_log (e : event) : bool :=
  match e with
  | Log _ _ => true
  | _ => false
  end.

(** What was printed on the standard output. *)
Fixpoint printed (t : list event) : string :=
  match t with
  | [] => ""
  | Log STDOUT text :: rest => text ++ printed rest
  | _ :: rest => printed rest
  end.

(** The connections closed, in order. *)
Fixpoint connections_closed (t : list event) : list PGconn :=
  match t with
  | [] => []
  | PQfinish_ev conn :: rest => conn :: connections_closed rest
  | _ :: rest => connections_closed rest
  end.

(** The command [test_ssh_connection] runs for one place of [true]. *)
Definition ssh_probe (options_rest : t_configuration_options_rest)
    (host remote_user truebin : string) : string :=
  "ssh -o Batchmode=yes " ++ ssh_options options_rest ++ " " ++ host
  ++ (if is_empty remote_user then "" else " -l " ++ remote_user)
  ++ " " ++ truebin.

(** The command line of [copy_remote_files]. *)
Definition rsync_command (options_rest : t_configuration_options_rest)
    (force : bool) (host remote_user remote_path local_path : string) : string :=
  "rsync "
  ++ (if is_empty (rsync_options options_rest)
      then "--archive --checksum --compress --progress --rsh=ssh"
      else rsync_options options_rest)
  ++ (if force then " --delete" else "")
  ++ " "
  ++ (if is_empty remote_user then host else remote_user ++ "@" ++ host)
  ++ ":" ++ remote_path ++ " " ++ local_path.

(** An option of the command line of [run_basebackup]: it is there when
    its value is not empty. *)
Definition optional_parameter (flag value : string) : string :=
  if is_empty value then "" else flag ++ value.

(** The command line of [run_basebackup]. *)
Definition basebackup_command (pg_bindir : string) (ro : t_runtime_options)
    (runtime_rest : t_runtime_options_rest)
    (options_rest : t_configuration_options_rest) : string :=
  pg_bindir ++ "pg_basebackup" ++ " -l " ++ dq ++ "repmgr base backup" ++ dq ++ " "
  ++ (optional_parameter " -h " (host ro)
      ++ optional_parameter " -p " (masterport ro)
      ++ optional_parameter " -U " (username ro)
      ++ optional_parameter " -D " (dest_dir runtime_rest)
      ++ tablespace_params (tablespace_dirs options_rest))
  ++ " " ++ pg_basebackup_options options_rest.

(** The world after a script: the servers may have changed. *)
Definition after_script (script : string) (w : world) : world :=
  mkWorld (S (moment w)) (clock w) (runtime_options w) (dbs w) (files w)
          (trace w ++ [System script]).

(** The role [do_cluster_show] prints for a node, from what the outside
    answers at a moment. *)
Definition node_role (o : outside) (m : nat) (r : node_row) : string :=
  if negb (connects o (col_conninfo r) m) then "  FAILED"
  else if String.eqb (col_type r) "witness" then "  witness"
  else
    match recovery o (col_conninfo r) m with
    | Primary => "* master"
    | Standby | Unreachable => "  standby"
    end.

(** The line [do_cluster_show] prints for a node. *)
Definition show_line (o : outside) (m : nat) (r : node_row) : string :=
  left_justified_10 (node_role o m r) ++ "| " ++ col_conninfo r ++ nl.

(** The nodes [do_cluster_show] asks whether they are standbys. *)
Definition asked_by_show (o : outside) (m : nat) (r : node_row) : bool :=
  connects o (col_conninfo r) m && negb (String.eqb (col_type r) "witness").

(** The servers asked [is_standby], in order. *)
Fixpoint servers_probed (t : list event) : list PGconn :=
  match t with
  | [] => []
  | Asked_is_standby conn _ :: rest => conn :: servers_probed rest
  | _ :: rest => servers_probed rest
  end.

(** The event is a message that is not printed on the standard output,
    or a question about a server parameter. *)
Definition is_check_event (e : event) : bool :=
  match e with
  | Log STDOUT _ => false
  | Log _ _ => true
  | Asked_guc _ _ _ => true
  | _ => false
  end.

(** Whatever the command does, the events it adds all satisfy [P] and
    nothing else of the world changes. *)
Definition only (P : event -> bool) {A : Type} (c : M A) : Prop :=
  forall w,
    exists added,
      snd (c w) = add_events added w /\ forallb P added = true.

(** The version [check_server_version] hands on when it does not leave. *)
Definition version_handed_on (o : outside) (MIN_SUPPORTED_VERSION_NUM : Z)
    (conn : PGconn) : Z :=
  if server_version_num o conn <? MIN_SUPPORTED_VERSION_NUM then -1
  else server_version_num o conn.

(** The value of [config_ok] at the end of [check_upstream_config], from
    the answers of the server: a probe that does not hold (0) or could
    not be made (-1) makes it false, except the probe of
    max_replication_slots, where only 0 does. *)
Definition computed_config_ok (o : outside) (options : t_configuration_options)
    (ro : t_runtime_options) (conn : PGconn) (server_version_num : Z) : bool :=
  negb (failed (guc_set_answer o conn "wal_level" "=" "hot_standby"))
  && (if use_replication_slots options then
        if server_version_num <? 90400 then false
        else negb (guc_set_typed_answer o conn "max_replication_slots" ">" "1"
                     "integer" =? 0)
      else negb (failed (guc_set_typed_answer o conn "wal_keep_segments" ">="
                           (wal_keep_segments ro) "integer")))
  && negb (failed (guc_set_answer o conn "archive_mode" "=" "on"))
  && negb (failed (guc_set_answer o conn "hot_standby" "=" "on"))
  && negb (failed (guc_set_typed_answer o conn "max_wal_senders" ">" "0" "integer")).

(** A probe passes: the server answers that the parameter holds. *)
Definition passes (i : Z) : bool := i =? 1.

(** The check on how the WAL is kept passes: the server knows
    replication slots and the probe of max_replication_slots passes, when
    slots are in use; the probe of wal_keep_segments passes, when they
    are not. *)
Definition wal_retention_passes (o : outside) (options : t_configuration_options)
    (ro : t_runtime_options) (conn : PGconn) (server_version_num : Z) : bool :=
  if use_replication_slots options then
    if server_version_num <? 90400 then false
    else passes (guc_set_typed_answer o conn "max_replication_slots" ">" "1"
                   "integer")
  else passes (guc_set_typed_answer o conn "wal_keep_segments" ">="
                 (wal_keep_segments ro) "integer").

(** The four other checks pass. *)
Definition other_checks_pass (o : outside) (conn : PGconn) : bool :=
  passes (guc_set_answer o conn "wal_level" "=" "hot_standby")
  && passes (guc_set_answer o conn "archive_mode" "=" "on")
  && passes (guc_set_answer o conn "hot_standby" "=" "on")
  && passes (guc_set_typed_answer o conn "max_wal_senders" ">" "0" "integer").

(** Every check of [check_upstream_config] passes. *)
Definition every_check_passes (o : outside) (options : t_configuration_options)
    (ro : t_runtime_options) (conn : PGconn) (server_version_num : Z) : bool :=
  other_checks_pass o conn
  && wal_retention_passes o options ro conn server_version_num.

(** The probe of max_replication_slots is made and the server could not
    be asked. *)
Definition slot_probe_not_made (o : outside) (options : t_configuration_options)
    (conn : PGconn) (server_version_num : Z) : bool :=
  use_replication_slots options
  && negb (server_version_num <? 90400)
  && (guc_set_typed_answer o conn "max_replication_slots" ">" "1" "integer"
      =? -1).

(** The parameters [check_upstream_config] asks for when it does not
    stop at a failed check. *)
Definition upstream_parameters (options : t_configuration_options)
    (server_version_num : Z) : list string :=
  ("wal_level"
   :: (if use_replication_slots options then
         if server_version_num <? 90400 then []
         else ["max_replication_slots"]
       else ["wal_keep_segments"])
   ++ ["archive_mode"; "hot_standby"; "max_wal_senders"])%list.

(** The last character of the text is a slash. *)
Definition ends_with_slash (s : string) : bool :=
  match String.get (String.length s - 1) s with
  | Some "/"%char => true
  | _ => false
  end.

(** The statements of [create_schema], in the order in which they are
    sent, each with whether its refusal ends the command. *)
Definition schema_statements (schema : string) : list (sql_command * bool) :=
  [(CREATE_SCHEMA schema, true);
   (CREATE_FUNCTION "repmgr_update_last_updated", false);
   (CREATE_FUNCTION "repmgr_get_last_updated", false);
   (CREATE_TABLE "repl_nodes", true);
   (CREATE_TABLE "repl_monitor", true);
   (CREATE_VIEW "repl_status", true);
   (CREATE_INDEX "idx_repl_status_sort", true);
   (CREATE_FUNCTION "repmgr_update_standby_location", false);
   (CREATE_FUNCTION "repmgr_get_last_standby_location", false);
   (CREATE_FUNCTION "repmgr_get_primary_conninfo", false)].

(** The statements that the server accepted, up to the first it
    refuses. *)
Fixpoint accepted_before_refusal (accepts : sql_command -> bool)
    (statements : list (sql_command * bool)) : list sql_command :=
  match statements with
  | [] => []
  | (q, _) :: rest =>
      if accepts q then q :: accepted_before_refusal accepts rest else []
  end.

(** The first statement that the server refuses. *)
Fixpoint first_refused (accepts : sql_command -> bool)
    (statements : list (sql_command * bool)) : option (sql_command * bool) :=
  match statements with
  | [] => None
  | (q, fatal) :: rest =>
      if accepts q then first_refused accepts rest else Some (q, fatal)
  end.

(** The object a CREATE statement makes. *)
Definition object_created (q : sql_command) : list string :=
  match q with
  | CREATE_SCHEMA n | CREATE_FUNCTION n | CREATE_TABLE n
  | CREATE_VIEW n | CREATE_INDEX n => [n]
  | _ => []
  end.

(** The connections on which statements were sent, in order. *)
Fixpoint statements_went_to (t : list event) : list PGconn :=
  match t with
  | [] => []
  | PQexec_ev conn _ _ :: rest => conn :: statements_went_to rest
  | _ :: rest => statements_went_to rest
  end.

(** The world after statements on [conn]: the statements [accepted] have
    been carried out, and [refused] (none or one statement) has been sent
    and refused.  The statements are CREATE statements, which add to the
    objects of the schema and to nothing else. *)
Definition after_statements (conn : PGconn) (accepted refused : list sql_command)
    (w w' : world) : Prop :=
  statements_sent (trace w')
  = (statements_sent (trace w) ++ accepted ++ refused)%list
  /\ statements_went_to (trace w')
     = (statements_went_to (trace w)
        ++ map (fun _ => conn) (accepted ++ refused))%list
  /\ schema_objects (dbs w' conn)
     = (schema_objects (dbs w conn) ++ flat_map object_created accepted)%list
  /\ repl_nodes (dbs w' conn) = repl_nodes (dbs w conn)
  /\ repl_monitor (dbs w' conn) = repl_monitor (dbs w conn)
  /\ (forall other, other <> conn -> dbs w' other = dbs w other)
  /\ moment w' = moment w
  /\ runtime_options w' = runtime_options w
  /\ files w' = files w
  /\ scripts_run (trace w') = scripts_run (trace w).

(** The text of a number that may be missing, and of a text that may be
    missing, in a VALUES list. *)
Definition null_or_number (z : option Z) : string :=
  match z with
  | Some z => string_of_Z z
  | None => "NULL"
  end.

Definition null_or_text (s : option string) : string :=
  match s with
  | Some s => "'" ++ s ++ "'"
  | None => "NULL"
  end.

(** The VALUES list that [create_node_record] makes for a row. *)
Definition values_of_row (r : node_row) : string :=
  "(" ++ string_of_Z (col_id r) ++ ", '" ++ col_type r ++ "', "
  ++ null_or_number (col_upstream_node_id r)
  ++ ", '" ++ col_cluster r ++ "', '" ++ col_name r ++ "', '" ++ col_conninfo r
  ++ "', " ++ null_or_text (col_slot_name r) ++ ", "
  ++ string_of_Z (col_priority r) ++ ") ".

(** The texts of a row are plain. *)
Definition plain_row (r : node_row) : bool :=
  plain (col_type r) && plain (col_cluster r) && plain (col_name r)
  && plain (col_conninfo r)
  && match col_slot_name r with
     | Some s => plain s
     | None => true
     end.

(** The record of type primary that the registry read through [conn] has
    for the cluster: what [get_primary_node_id] reads. *)
Definition recorded_primary (w : world) (conn : PGconn) (cluster : string)
  : option node_row :=
  find (fun r => String.eqb (col_cluster r) cluster
                 && String.eqb (col_type r) "primary")
       (repl_nodes (dbs w conn)).


(** The record that [create_node_record] writes into its statement, made
    on the registry read through [conn]. *)
Definition node_record (NO_UPSTREAM_NODE : Z) (options : t_configuration_options)
    (repmgr_slot_name : string) (w : world) (conn : PGconn)
    (node : Z) (type : string) (upstream_node : Z)
    (cluster_name node_name conninfo : string) (priority : Z) : node_row :=
  mkNode node type
         (if upstream_node =? NO_UPSTREAM_NODE then
            if String.eqb type "standby" then
              match recorded_primary w conn cluster_name with
              | Some r => Some (col_id r)
              | None => Some (-1)
              end
            else None
          else Some upstream_node)
         cluster_name node_name conninfo
         (if use_replication_slots options && String.eqb type "standby"
          then Some repmgr_slot_name else None)
         priority true.

(** The world after an INSERT that the server has accepted and read as
    the row [r]. *)
Definition after_insert (conn : PGconn) (action : option string) (r : node_row)
    (w : world) : world :=
  mkWorld (moment w) (clock w) (runtime_options w)
          (fun c => if String.eqb c conn
                    then mkDb (schema_objects (dbs w conn))
                              (repl_nodes (dbs w conn) ++ [r])
                              (repl_monitor (dbs w conn))
                    else dbs w c)
          (files w)
          (trace w
           ++ match action with
              | Some a => [LogQuery a (INSERT_INTO_repl_nodes (values_of_row r))]
              | None => []
              end
           ++ [PQexec_ev conn (INSERT_INTO_repl_nodes (values_of_row r)) true]).

(** The record of the node for MASTER REGISTER: a primary with no
    upstream node and no replication slot. *)
Definition primary_record (options : t_configuration_options) : node_row :=
  mkNode (node options) "primary" None (cluster_name options) (node_name options)
         (conninfo options) None (priority options) true.

(** The registry without the records of a node. *)
Definition without_node (id : Z) (rows : list node_row) : list node_row :=
  filter (fun r => negb (col_id r =? id)) rows.

(** The record of the node for STANDBY REGISTER, made on a registry:
    the upstream node of the configuration file or, when there is none,
    what [get_primary_node_id] reads in the registry; the replication
    slot when slots are in use. *)
Definition standby_record (NO_UPSTREAM_NODE : Z) (options : t_configuration_options)
    (repmgr_slot_name : string) (registry : list node_row) : node_row :=
  mkNode (node options) "standby"
         (if upstream_node options =? NO_UPSTREAM_NODE then
            match find (fun r => String.eqb (col_cluster r) (cluster_name options)
                                 && String.eqb (col_type r) "primary")
                       registry with
            | Some r => Some (col_id r)
            | None => Some (-1)
            end
          else Some (upstream_node options))
         (cluster_name options) (node_name options) (conninfo options)
         (if use_replication_slots options then Some repmgr_slot_name else None)
         (priority options) true.

(** The seconds slept, in order. *)
Fixpoint slept (t : list event) : list Z :=
  match t with
  | [] => []
  | Slept seconds :: rest => seconds :: slept rest
  | _ :: rest => slept rest
  end.

(** Whatever the command does and however it ends, what [obs] sees of
    the world is as it was. *)
Definition keeps {X A : Type} (obs : world -> X) (c : M A) : Prop :=
  forall w, obs (snd (c w)) = obs w.

(** The databases and the statements sent to them. *)
Definition registries (w : world) : (PGconn -> database) * list sql_command :=
  (dbs w, statements_sent (trace w)).

(** The recovery configuration that [create_recovery_file] writes, from
    the runtime options at the time. *)
Definition recovery_configuration (o : outside) (options : t_configuration_options)
    (repmgr_slot_name : string) (ro : t_runtime_options) : string :=
  ("standby_mode = 'on'" ++ nl)
  ++ ("primary_conninfo = '"
      ++ ("port="
          ++ (if is_empty (masterport ro) then "5432" else masterport ro)
          ++ (if is_empty (host ro) then "" else " host=" ++ host ro)
          ++ (if is_empty (username ro) then "" else " user=" ++ username ro)
          ++ match PGPASSWORD o with
             | Some pw => " password=" ++ pw
             | None => ""
             end
          ++ (if is_empty (node_name options) then ""
              else " application_name=" ++ node_name options))
      ++ "'" ++ nl)
  ++ ("recovery_target_timeline = 'latest'" ++ nl)
  ++ (if is_empty (min_recovery_apply_delay ro) then ""
      else "min_recovery_apply_delay = " ++ min_recovery_apply_delay ro ++ nl)
  ++ (if use_replication_slots options
      then "primary_slot_name = " ++ repmgr_slot_name ++ nl
      else "").

(** The runtime options after STANDBY FOLLOW has found the master: the
    host, the port and the user are those of the connection to it. *)
Definition follow_options (o : outside) (MAXLEN : nat) (master_conn : PGconn)
    (ro : t_runtime_options) : t_runtime_options :=
  mkRuntime (strncpy_MAXLEN MAXLEN (PQhost o master_conn))
            (strncpy_MAXLEN MAXLEN (PQport o master_conn))
            (strncpy_MAXLEN MAXLEN (PQuser o master_conn))
            (wal_keep_segments ro) (min_recovery_apply_delay ro)
            (force ro) (wait_for_master ro) (keep_history ro).

(** What a command that only looks at the cluster and writes messages
    leaves alone. *)
Definition settings (w : world)
  : t_runtime_options * (PGconn -> database) * (string -> option string)
    * list string :=
  (runtime_options w, dbs w, files w, scripts_run (trace w)).

(** What writing a file leaves alone. *)
Definition options_and_scripts (w : world) : t_runtime_options * list string :=
  (runtime_options w, scripts_run (trace w)).

(** * Scenarios for these functions *)

(** No option was given on the command line. *)
Definition no_runtime_options : t_runtime_options :=
  mkRuntime "" "" "" "5000" "" false false 0.

Definition no_runtime_rest : t_runtime_options_rest := mkRuntimeRest "" "" "".

Definition no_options_rest : t_configuration_options_rest :=
  mkOptionsRest "" "" "" [].

(** The world when [main] has read the options of a command line that
    has none. *)
Definition started_world : world :=
  mkWorld 0 0 no_runtime_options (fun _ => registered) (fun _ => None) [].

(** The outside [o] with other answers of [system()]. *)
Definition with_scripts (rc : string -> Z) (o : outside) : outside :=
  mkOutside (connects o) (recovery o) (server_version_num o) (server_version o)
            (pg_setting o) (pq_ok o) (PQerrorMessage o) (pgup o) (PQhost o)
            (PQport o) (PQuser o) rc (PGPASSWORD o) (fopen_ok o) (fputs_ok o)
            (fclose_ok o) (sql_effect o).

(** The remote host has no /bin/true: a script that calls it fails. *)
Definition no_bin_true (script : string) : Z :=
  match index 0 " /bin/true" script with
  | Some _ => 256
  | None => 0
  end.

(** A registry with a primary, a standby and a witness. *)
Definition node3 : string := "host=node3".

Definition three_nodes : database :=
  mkDb ["repmgr_test"]
       [node1_row;
        mkNode 2 "standby" (Some 1) "test" "node2" node2 None 100 true;
        mkNode 3 "witness" None "test" "node3" node3 None 100 true]
       [].

Definition three_nodes_world : world :=
  mkWorld 0 0 default_runtime (fun _ => three_nodes) (fun _ => None) [].

(** The server that connection parameters lead to, named as the
    registries name it: by its host. *)
Definition server_of_host (params : list (string * string)) : PGconn :=
  match params with
  | (_, host) :: _ => "host=" ++ host
  | [] => ""
  end.

(** The outside [o] with other answers to the statements. *)
Definition with_statements (ok : PGconn -> sql_command -> bool) (o : outside)
  : outside :=
  mkOutside (connects o) (recovery o) (server_version_num o) (server_version o)
            (pg_setting o) ok (PQerrorMessage o) (pgup o) (PQhost o)
            (PQport o) (PQuser o) (system_rc o) (PGPASSWORD o) (fopen_ok o)
            (fputs_ok o) (fclose_ok o) (sql_effect o).


(** The user may not create functions. *)
Definition refuses_functions (conn : PGconn) (q : sql_command) : bool :=
  match q with
  | CREATE_FUNCTION _ => false
  | _ => true
  end.

(** A server on which repmgr has never been used. *)
Definition empty_server : database := mkDb [] [] [].

Definition empty_world : world :=
  mkWorld 0 0 default_runtime (fun _ => empty_server) (fun _ => None) [].

(** The force flag is set. *)
Definition forced_runtime : t_runtime_options :=
  mkRuntime "node1" "" "repmgr" "5000" "" true false 0.

Definition forced_world : world :=
  mkWorld 0 0 forced_runtime (fun _ => registered) (fun _ => None) [].

(** node1 and node2 are both registered as primaries, and both report
    that they are. *)
Definition two_primaries : database :=
  mkDb ["repmgr_test"]
       [node1_row; mkNode 2 "primary" None "test" "node2" node2 None 100 true]
       [].

Definition everyone_primary (conn : string) (m : nat) : recovery_status := Primary.

Definition two_primaries_world : world :=
  mkWorld 0 0 forced_runtime (fun _ => two_primaries) (fun _ => None) [].

(** A history with a sample of yesterday and one of last month; a week
    of history is to be kept. *)
Definition with_history : database :=
  mkDb ["repmgr_test"] [node1_row] [mkMonitor 2 1; mkMonitor 2 30].

Definition history_world : world :=
  mkWorld 0 0 (mkRuntime "node1" "" "repmgr" "5000" "" false false 7)
          (fun _ => with_history) (fun _ => None) [].


(** The wait flag is set. *)
Definition waiting_world : world :=
  mkWorld 0 0 (mkRuntime "node1" "" "repmgr" "5000" "" false true 0)
          (fun _ => registered) (fun _ => None) [].

(** * Theorems *)

(** ** The monad *)

Lemma bind_returns {A B : Type} (c : M A) (k : A -> M B) (w w' : world) (b : B) :
  bind c k w = (Returns b, w') ->
  exists a w1, c w = (Returns a, w1) /\ k a w1 = (Returns b, w').
Proof.
  unfold bind. destruct (c w) as [[a | code | ] w1]; intros H.
  - exists a, w1. split; [reflexivity | exact H].
  - discriminate H.
  - discriminate H.
Qed.

(** One step of a command on a world. *)
Ltac run :=
  cbv beta iota zeta delta
    [bind ret exit emit get_world get_runtime_options out_of_fuel when
     log_debug log_info log_notice log_warning log_err PQfinish sleep
     set_db set_file set_runtime_options add_events];
  cbn [fst snd moment clock dbs files trace runtime_options].

Ltac run_in H :=
  cbv beta iota zeta delta
    [bind ret exit emit get_world get_runtime_options out_of_fuel when
     log_debug log_info log_notice log_warning log_err PQfinish sleep
     set_db set_file set_runtime_options add_events] in H;
  cbn [fst snd moment clock dbs files trace runtime_options] in H.

Lemma existsb_eqb_In (s : string) (l : list string) :
  In s l -> existsb (String.eqb s) l = true.
Proof.
  intros H. apply existsb_exists. exists s. split; [exact H | apply String.eqb_refl].
Qed.

Lemma add_events_add_events (a b : list event) (w : world) :
  add_events b (add_events a w) = add_events (a ++ b) w.
Proof.
  unfold add_events. cbn. rewrite app_assoc. reflexivity.
Qed.

Lemma scripts_run_app (a b : list event) :
  scripts_run (a ++ b) = (scripts_run a ++ scripts_run b)%list.
Proof.
  induction a as [| e a IH]; [reflexivity | ].
  destruct e; cbn; rewrite IH; reflexivity.
Qed.

Lemma statements_sent_app (a b : list event) :
  statements_sent (a ++ b) = (statements_sent a ++ statements_sent b)%list.
Proof.
  induction a as [| e a IH]; [reflexivity | ].
  destruct e; cbn; rewrite IH; reflexivity.
Qed.

Lemma probes_of_app (conn : PGconn) (a b : list event) :
  probes_of conn (a ++ b) = (probes_of conn a ++ probes_of conn b)%list.
Proof.
  induction a as [| e a IH]; [reflexivity | ].
  destruct e; cbn; try rewrite IH; try reflexivity.
  destruct (String.eqb conn0 conn); cbn; rewrite ?IH; reflexivity.
Qed.

Lemma last_cons {A : Type} (x d : A) (l : list A) :
  last (x :: l) d = last l x.
Proof.
  revert x d. induction l as [| y l IH]; intros x d; [reflexivity | ].
  change (last (x :: y :: l) d) with (last (y :: l) d).
  rewrite (IH y d), (IH y x). reflexivity.
Qed.

Lemma last_map_seq {A : Type} (f : nat -> A) (k : nat) :
  forall (m : nat) (d : A), last (map f (seq m (S k))) d = f (m + k)%nat.
Proof.
  induction k as [| k IH]; intros m d.
  - cbn. rewrite Nat.add_0_r. reflexivity.
  - change (seq m (S (S k))) with (m :: seq (S m) (S k)).
    cbn [map]. rewrite last_cons, IH. f_equal. lia.
Qed.

Lemma append_inj_l (p a b : string) : p ++ a = p ++ b -> a = b.
Proof.
  induction p as [| c p IH]; cbn; intros H; [exact H | ].
  injection H as H. apply IH. exact H.
Qed.

Lemma string_app_assoc (a b c : string) : (a ++ b) ++ c = a ++ b ++ c.
Proof.
  induction a as [| x a IH]; cbn; [reflexivity | ].
  rewrite IH. reflexivity.
Qed.

Lemma string_app_nil_r (a : string) : a ++ "" = a.
Proof.
  induction a as [| x a IH]; cbn; [reflexivity | ].
  rewrite IH. reflexivity.
Qed.

Lemma maxlen_snprintf_returns (MAXLEN : nat) (text s : string) (w w' : world) :
  maxlen_snprintf MAXLEN text w = (Returns s, w') -> s = text /\ w' = w.
Proof.
  unfold maxlen_snprintf. destruct (_ <? _)%nat; intros H; inversion H; auto.
Qed.

Lemma answer_at_primary (o : outside) (conn : PGconn) (m : nat) :
  answer_at o conn m = 0 <-> recovery o conn m = Primary.
Proof.
  unfold answer_at. destruct (recovery o conn m); split; intros H;
    try reflexivity; discriminate H.
Qed.

Lemma answer_at_unreachable (o : outside) (conn : PGconn) (m : nat) :
  answer_at o conn m = -1 <-> recovery o conn m = Unreachable.
Proof.
  unfold answer_at. destruct (recovery o conn m); split; intros H;
    try reflexivity; discriminate H.
Qed.

Lemma answer_at_cases (o : outside) (conn : PGconn) (m : nat) :
  answer_at o conn m = 1 \/ answer_at o conn m = 0 \/ answer_at o conn m = -1.
Proof.
  unfold answer_at. destruct (recovery o conn m); auto.
Qed.

(** ** Looking for the master *)

(** [find_master] gives the first row that reports Primary; it only
    opens connections, asks [is_standby] and closes connections. *)
Lemma find_master_spec (o : outside) (rows : list node_row) (w : world) :
  exists added,
    find_master o rows w
    = (Returns (first_primary o (moment w) rows), add_events added w)
    /\ scripts_run added = []
    /\ statements_sent added = [].
Proof.
  revert w. induction rows as [| r rest IH]; intros w.
  - exists []. cbn. unfold ret, add_events. rewrite app_nil_r.
    destruct w; auto.
  - cbn [find_master first_primary]. unfold reports_primary, answer_at.
    unfold bind at 1. cbn [emit].
    unfold bind at 1. cbn [get_world moment].
    destruct (connects o (col_conninfo r) (moment w)) eqn:Hc; cbn [andb].
    + unfold is_standby, PQfinish. cbn.
      destruct (recovery o (col_conninfo r) (moment w)) eqn:Hr; cbn.
      * destruct (IH (add_events [Connect (col_conninfo r);
                                  Asked_is_standby (col_conninfo r) 1;
                                  PQfinish_ev (col_conninfo r)] w))
          as (added & Hrun & Hs & Hq).
        cbn [moment add_events] in Hrun.
        eexists. rewrite add_events_add_events in Hrun.
        unfold add_events in Hrun |- *. cbn in Hrun |- *.
        repeat rewrite <- app_assoc. cbn.
        split; [exact Hrun | ].
        cbn. auto.
      * eexists. unfold ret, add_events. cbn.
        repeat rewrite <- app_assoc. cbn. split; [reflexivity | auto].
      * destruct (IH (add_events [Connect (col_conninfo r);
                                  Asked_is_standby (col_conninfo r) (-1);
                                  PQfinish_ev (col_conninfo r)] w))
          as (added & Hrun & Hs & Hq).
        cbn [moment add_events] in Hrun.
        eexists. rewrite add_events_add_events in Hrun.
        unfold add_events in Hrun |- *. cbn in Hrun |- *.
        repeat rewrite <- app_assoc. cbn.
        split; [exact Hrun | ].
        cbn. auto.
    + unfold PQfinish. cbn.
      destruct (IH (add_events [Connect (col_conninfo r);
                                PQfinish_ev (col_conninfo r)] w))
        as (added & Hrun & Hs & Hq).
      cbn [moment add_events] in Hrun.
      eexists. rewrite add_events_add_events in Hrun.
      unfold add_events in Hrun |- *. cbn in Hrun |- *.
      repeat rewrite <- app_assoc. cbn.
      split; [exact Hrun | ].
      cbn. auto.
Qed.

Lemma first_primary_some (o : outside) (m : nat) (rows : list node_row) (row : node_row) :
  In row rows -> reports_primary o m row = true ->
  exists c, first_primary o m rows = Some c.
Proof.
  induction rows as [| r rest IH]; intros Hin Hrow; [contradiction | ].
  cbn. destruct (reports_primary o m r) eqn:Hr.
  - exists (col_conninfo r). reflexivity.
  - destruct Hin as [-> | Hin].
    + rewrite Hrow in Hr. discriminate Hr.
    + apply IH; assumption.
Qed.

Lemma first_primary_none (o : outside) (m : nat) (rows : list node_row) (row : node_row) :
  first_primary o m rows = None -> In row rows -> reports_primary o m row = false.
Proof.
  intros Hnone Hin.
  destruct (reports_primary o m row) eqn:Hrow; [ | reflexivity].
  destruct (first_primary_some o m rows row Hin Hrow) as [c Hc].
  rewrite Hc in Hnone. discriminate Hnone.
Qed.

Lemma registered_primary_found (o : outside) (options : t_configuration_options) (w : world) :
  registered_primary o options w ->
  exists c,
    first_primary o (moment w)
      (cluster_rows w (conninfo options) (cluster_name options)) = Some c.
Proof.
  intros (row & Hin & Hcl & Hc & Hr).
  apply first_primary_some with (row := row).
  - unfold cluster_rows. apply filter_In. split; [exact Hin | ].
    rewrite Hcl. apply String.eqb_refl.
  - unfold reports_primary, answer_at. rewrite Hc, Hr. reflexivity.
Qed.

Lemma no_registered_primary (o : outside) (options : t_configuration_options) (w : world) :
  first_primary o (moment w)
    (cluster_rows w (conninfo options) (cluster_name options)) = None ->
  ~ registered_primary o options w.
Proof.
  intros Hnone Hreg.
  destruct (registered_primary_found o options w Hreg) as [c Hc].
  rewrite Hc in Hnone. discriminate Hnone.
Qed.

Section MasterRegister.

Variable o : outside.
Variable MIN_SUPPORTED_VERSION_NUM : Z.
Variable MIN_SUPPORTED_VERSION : string.
Variable NO_UPSTREAM_NODE : Z.
Variable MAXLEN : nat.
Variable progname : string.
Variable options : t_configuration_options.
Variable repmgr_slot_name : string.
Variable get_repmgr_schema : string.
Variable get_repmgr_schema_quoted : string.

(** C8: when master register finds that the schema of the cluster exists
    and the force flag is not set, it reports that the schema already
    exists and leaves with [ERR_BAD_CONFIG]; it has sent no statement to
    the server and every database is as it was. *)
Theorem master_register_existing_schema_without_force (w : world) :
  connects o (conninfo options) (moment w) = true ->
  MIN_SUPPORTED_VERSION_NUM <= server_version_num o (conninfo options) ->
  recovery o (conninfo options) (moment w) = Primary ->
  In get_repmgr_schema (schema_objects (dbs w (conninfo options))) ->
  force (runtime_options w) = false ->
  exists w',
    do_master_register o MIN_SUPPORTED_VERSION_NUM MIN_SUPPORTED_VERSION
      NO_UPSTREAM_NODE MAXLEN progname options repmgr_slot_name get_repmgr_schema
      get_repmgr_schema_quoted w = (Exits ERR_BAD_CONFIG, w')
    /\ dbs w' = dbs w
    /\ trace w' =
         (trace w ++
          [ Connect (conninfo options);
            Log LOG_INFO (progname ++ " connecting to master database" ++ nl);
            Log LOG_INFO (progname ++ " connected to master, checking its state" ++ nl);
            Asked_is_standby (conninfo options) 0;
            Log LOG_NOTICE ("Schema '" ++ get_repmgr_schema ++ "' already exists." ++ nl);
            PQfinish_ev (conninfo options) ])%list.
Proof.
  intros Hconn Hver Hrec Hschema Hforce.
  apply Z.ltb_ge in Hver.
  apply existsb_eqb_In in Hschema.
  unfold do_master_register, establish_db_connection, check_server_version,
    get_server_version, is_standby, check_cluster_schema.
  unfold bind at 1. cbn [emit get_world bind fst snd moment].
  cbn. rewrite Hconn. cbn. rewrite Hver. cbn. rewrite Hrec. cbn.
  rewrite Hschema, Hforce. cbn.
  eexists. split; [reflexivity | ]. cbn. split; [reflexivity | ].
  repeat rewrite <- app_assoc. reflexivity.
Qed.

End MasterRegister.

(** ** Promotion *)

Section Promote.

Variable o : outside.
Variable MIN_SUPPORTED_VERSION_NUM : Z.
Variable MIN_SUPPORTED_VERSION : string.
Variable MAXLEN : nat.
Variable progname : string.
Variable options : t_configuration_options.
Variable pg_bindir : string.

Local Abbreviation target := (conninfo options).
Local Abbreviation preconditions :=
  (promote_preconditions o MIN_SUPPORTED_VERSION_NUM MIN_SUPPORTED_VERSION
     progname options).
Local Abbreviation promote :=
  (do_standby_promote o MIN_SUPPORTED_VERSION_NUM MIN_SUPPORTED_VERSION MAXLEN
     progname options pg_bindir).

(** The checks before the promote action run no script and send no
    statement; they let through exactly the runs in which the node
    reports Standby and no registered node reports Primary. *)
Lemma promote_preconditions_spec (w : world) :
  exists added,
    snd (preconditions w) = add_events added w
    /\ scripts_run added = []
    /\ statements_sent added = []
    /\ match fst (preconditions w) with
       | Returns (conn, retval) =>
           conn = target /\ retval = 1
           /\ recovery o target (moment w) = Standby
           /\ first_primary o (moment w)
                (cluster_rows w target (cluster_name options)) = None
       | Exits code =>
           connects o target (moment w) = true ->
           MIN_SUPPORTED_VERSION_NUM <= server_version_num o target ->
           code = ERR_BAD_CONFIG
           /\ (recovery o target (moment w) <> Standby
               \/ exists c, first_primary o (moment w)
                              (cluster_rows w target (cluster_name options)) = Some c)
       | Diverges => False
       end.
Proof.
  unfold promote_preconditions, establish_db_connection,
    check_server_version, get_server_version, is_standby,
    get_master_connection.
  run.
  destruct (connects o target (moment w)) eqn:Hconn; run.
  2:{ eexists. repeat rewrite <- app_assoc. split; [reflexivity | ].
      split; [reflexivity | split; [reflexivity | ]].
      intros H. discriminate H. }
  destruct (server_version_num o target <? MIN_SUPPORTED_VERSION_NUM) eqn:Hver; run.
  { apply Z.ltb_lt in Hver.
    destruct (server_version_num o target >? 0); run;
      eexists; repeat rewrite <- app_assoc;
      (split; [reflexivity | ]);
      (split; [reflexivity | split; [reflexivity | ]]);
      intros _ Hge; lia. }
  destruct (recovery o target (moment w)) eqn:Hrec; cbn [Z.eqb Pos.eqb orb]; run.
  - (* Standby: on to the search for a master *)
    match goal with
    | |- context [find_master o ?rows ?w1] =>
        destruct (find_master_spec o rows w1) as (added & Hrun & Hs & Hq)
    end.
    run_in Hrun. rewrite Hrun. fold (cluster_rows w target (cluster_name options)).
    destruct (first_primary o (moment w)
                (cluster_rows w target (cluster_name options))) as [c | ] eqn:Hfp; run.
    + eexists. repeat rewrite <- app_assoc.
      split; [reflexivity | ].
      rewrite !scripts_run_app, !statements_sent_app, Hs, Hq.
      split; [reflexivity | split; [reflexivity | ]].
      intros _ _. split; [reflexivity | ]. right. exists c. reflexivity.
    + eexists. repeat rewrite <- app_assoc.
      split; [reflexivity | ].
      rewrite !scripts_run_app, !statements_sent_app, Hs, Hq.
      split; [reflexivity | split; [reflexivity | ]].
      repeat split; assumption.
  - eexists. repeat rewrite <- app_assoc.
    split; [reflexivity | ].
    split; [reflexivity | split; [reflexivity | ]].
    intros _ _. split; [reflexivity | ]. left. discriminate.
  - eexists. repeat rewrite <- app_assoc.
    split; [reflexivity | ].
    split; [reflexivity | split; [reflexivity | ]].
    intros _ _. split; [reflexivity | ]. left. discriminate.
Qed.

(** C5: standby promote is refused with [ERR_BAD_CONFIG], and the promote
    action is not run, whenever the node does not report Standby or some
    registered node of the cluster that can be reached reports Primary;
    the promote action is run only when the node reports Standby and no
    such node reports Primary. *)
Theorem standby_promote_refused (w : world) :
  (connects o target (moment w) = true ->
   MIN_SUPPORTED_VERSION_NUM <= server_version_num o target ->
   recovery o target (moment w) <> Standby \/ registered_primary o options w ->
   fst (promote w) = Exits ERR_BAD_CONFIG
   /\ scripts_run (trace (snd (promote w))) = scripts_run (trace w))
  /\ (scripts_run (trace (snd (promote w))) <> scripts_run (trace w) ->
      recovery o target (moment w) = Standby
      /\ ~ registered_primary o options w).
Proof.
  destruct (promote_preconditions_spec w) as (added & Hw & Hs & _ & Hres).
  remember (promote w) as out eqn:Hout.
  unfold do_standby_promote in Hout. unfold bind at 1 in Hout.
  destruct (preconditions w) as [[[conn retval] | code | ] w1];
    cbn [fst snd] in Hw, Hres.
  - destruct Hres as (_ & _ & Hstandby & Hnone).
    split.
    + intros _ _ [Hnot | Hreg].
      * contradiction.
      * apply no_registered_primary in Hnone. contradiction.
    + intros _. split; [exact Hstandby | ].
      apply no_registered_primary. exact Hnone.
  - subst w1 out. unfold add_events. cbn [fst snd trace].
    rewrite scripts_run_app, Hs, app_nil_r.
    split.
    + intros Hconn Hver _. destruct (Hres Hconn Hver) as [-> _].
      split; reflexivity.
    + intros Hdiff. contradiction Hdiff. reflexivity.
  - contradiction.
Qed.

(** The polling loop, [k] rounds before the timeout.  It comes back after
    [n] sleeps and [p] probes; it opens no connection, runs no script and
    sends no statement.  It stops at the first probe that answers 0, and
    otherwise when the [k] rounds are over. *)
Lemma promote_check_loop_spec (conn : PGconn) (k : nat) :
  forall (fuel : nat) (retval : Z) (w : world),
    (k <= fuel)%nat ->
    exists ok retval' n p added w',
      promote_check_loop o fuel conn promote_check_timeout promote_check_interval
        (promote_check_timeout - promote_check_interval * Z.of_nat k) retval w
      = (Returns (ok, retval'), w')
      /\ moment w' = (moment w + n)%nat
      /\ clock w' = clock w + promote_check_interval * Z.of_nat n
      /\ runtime_options w' = runtime_options w
      /\ dbs w' = dbs w
      /\ files w' = files w
      /\ trace w' = (trace w ++ added)%list
      /\ probes_of conn added = map (answer_at o conn) (seq (moment w) p)
      /\ connections_opened added = []
      /\ scripts_run added = []
      /\ statements_sent added = []
      /\ (n <= k)%nat /\ (p <= k)%nat
      /\ (forall j, (j < n)%nat -> answer_at o conn (moment w + j) <> 0)
      /\ (ok = true ->
          p = S n /\ answer_at o conn (moment w + n) = 0 /\ retval' = 0)
      /\ (ok = false ->
          p = n /\ n = k
          /\ retval' = last (map (answer_at o conn) (seq (moment w) p)) retval).
Proof.
  unfold promote_check_timeout, promote_check_interval.
  induction k as [| k IH]; intros fuel retval w Hfuel.
  - exists false, retval, 0%nat, 0%nat, [], w.
    destruct fuel; cbn; rewrite ?app_nil_r, ?Nat.add_0_r, ?Z.add_0_r;
      repeat split; auto; try lia; discriminate.
  - destruct fuel as [| fuel]; [lia | ].
    cbn [promote_check_loop].
    replace (60 - 2 * Z.of_nat (S k) <? 60) with true
      by (symmetry; apply Z.ltb_lt; lia).
    unfold is_standby. run. fold (answer_at o conn (moment w)).
    destruct (answer_at o conn (moment w) =? 0) eqn:Hanswer.
    + apply Z.eqb_eq in Hanswer.
      exists true, (answer_at o conn (moment w)), 0%nat, 1%nat,
        [Asked_is_standby conn (answer_at o conn (moment w))].
      eexists. split; [reflexivity | ].
      cbn. rewrite String.eqb_refl, ?Nat.add_0_r, ?Z.add_0_r.
      repeat split; auto; try lia; discriminate.
    + apply Z.eqb_neq in Hanswer.
      replace (60 - 2 * Z.of_nat (S k) + 2) with (60 - 2 * Z.of_nat k) by lia.
      match goal with
      | |- context [promote_check_loop o fuel conn 60 2 _ ?r ?w1] =>
          destruct (IH fuel r w1 ltac:(lia))
            as (ok & retval' & n & p & added & w' & Hrun & Hm & Hc & Hro & Hd
                & Hf & Ht & Hp & Hco & Hsc & Hst & Hn & Hpk & Hnz & Hok & Hno)
      end.
      cbn [moment clock runtime_options dbs files trace] in *.
      exists ok, retval', (S n), (S p),
        (Asked_is_standby conn (answer_at o conn (moment w)) :: Slept 2 :: added), w'.
      split; [exact Hrun | ].
      split; [lia | ]. split; [lia | ].
      split; [exact Hro | ]. split; [exact Hd | ]. split; [exact Hf | ].
      split; [rewrite Ht, <- !app_assoc; reflexivity | ].
      split; [cbn; rewrite String.eqb_refl, Hp; reflexivity | ].
      split; [exact Hco | ]. split; [exact Hsc | ]. split; [exact Hst | ].
      split; [lia | ]. split; [lia | ].
      split.
      { intros [| j] Hj.
        - rewrite Nat.add_0_r. exact Hanswer.
        - replace (moment w + S j)%nat with (S (moment w) + j)%nat by lia.
          apply Hnz. lia. }
      split.
      { intros Hyes. destruct (Hok Hyes) as (-> & Hzero & ->).
        replace (moment w + S n)%nat with (S (moment w) + n)%nat by lia.
        auto. }
      { intros Hnot. destruct (Hno Hnot) as (-> & -> & ->).
        repeat split.
        cbn [seq map]. symmetry. apply last_cons. }
Qed.

Local Abbreviation confirmation :=
  (promote_confirmation o progname options).

(** The end of [do_standby_promote], once the reconnection has worked:
    it always returns, after the polling and one report. *)
Lemma promote_confirmation_spec (retval : Z) (w : world) :
  connects o target (moment w) = true ->
  exists ok retval' n p polled w',
    confirmation retval w = (Returns tt, w')
    /\ moment w' = (moment w + n)%nat
    /\ clock w' = clock w + promote_check_interval * Z.of_nat n
    /\ runtime_options w' = runtime_options w
    /\ dbs w' = dbs w
    /\ files w' = files w
    /\ trace w' =
         (trace w
          ++ [Log LOG_INFO (progname ++ " reconnecting to promoted server" ++ nl);
              Connect target]
          ++ polled
          ++ [promote_report progname ok retval'; PQfinish_ev target])%list
    /\ probes_of target polled = map (answer_at o target) (seq (moment w) p)
    /\ connections_opened polled = []
    /\ scripts_run polled = []
    /\ statements_sent polled = []
    /\ (n <= promote_check_rounds)%nat /\ (p <= promote_check_rounds)%nat
    /\ (forall j, (j < n)%nat -> answer_at o target (moment w + j) <> 0)
    /\ (ok = true ->
        p = S n /\ answer_at o target (moment w + n) = 0 /\ retval' = 0)
    /\ (ok = false ->
        p = n /\ n = promote_check_rounds
        /\ retval' = last (map (answer_at o target) (seq (moment w) p)) retval).
Proof.
  intros Hconn.
  unfold promote_confirmation, establish_db_connection. run.
  rewrite Hconn. run.
  change 0 with
    (promote_check_timeout - promote_check_interval * Z.of_nat promote_check_rounds) at 1.
  match goal with
  | |- context [promote_check_loop o ?fuel _ _ _ _ ?r ?w1] =>
      destruct (promote_check_loop_spec target promote_check_rounds fuel r w1)
        as (ok & retval' & n & p & added & w' & Hrun & Hm & Hc & Hro & Hd
            & Hf & Ht & Hp & Hco & Hsc & Hst & Hn & Hpk & Hnz & Hok & Hno);
        [vm_compute; lia | ]
  end.
  cbn [moment clock runtime_options dbs files trace] in *.
  rewrite Hrun.
  exists ok, retval', n, p, added.
  destruct ok; run; eexists; (split; [reflexivity | ]);
    cbn [moment clock runtime_options dbs files trace];
    rewrite Ht, <- !app_assoc; cbn [app];
    repeat (split; [assumption || reflexivity | ]); try assumption.
  - unfold promote_report. destruct (retval' =? 1); split; try reflexivity;
      repeat (split; [assumption || reflexivity | ]); assumption.
Qed.

(** C6: the confirmation loop of standby promote makes at most
    [promote_check_timeout / promote_check_interval] = 30 probes and
    sleeps at most [promote_check_timeout] = 60; it stops at the first
    probe that reports Primary; when no probe does, it makes its 30
    probes, reports the failure (that the node is still a standby, when
    that is what the last probe said) and returns, having run no script
    and sent no statement. *)
Theorem promote_polling_is_bounded (retval : Z) (w : world) :
  connects o target (moment w) = true ->
  exists polled final w',
    confirmation retval w = (Returns tt, w')
    /\ trace w' =
         (trace w
          ++ [Log LOG_INFO (progname ++ " reconnecting to promoted server" ++ nl);
              Connect target]
          ++ polled
          ++ [final; PQfinish_ev target])%list
    /\ (List.length (probes_of target polled)
        <= Z.to_nat (promote_check_timeout / promote_check_interval))%nat
    /\ Z.to_nat (promote_check_timeout / promote_check_interval) = 30%nat
    /\ clock w' - clock w <= promote_check_timeout
    /\ dbs w' = dbs w
    /\ scripts_run polled = []
    /\ statements_sent polled = []
    /\ (forall j,
          (j < 30)%nat ->
          recovery o target (moment w + j) = Primary ->
          (forall i, (i < j)%nat -> recovery o target (moment w + i) <> Primary) ->
          List.length (probes_of target polled) = S j
          /\ final = promoted_report progname)
    /\ ((forall j, (j < 30)%nat -> recovery o target (moment w + j) <> Primary) ->
        List.length (probes_of target polled) = 30%nat
        /\ (final = still_standby_report progname
            \/ final = connection_lost_report progname)
        /\ (recovery o target (moment w + 29) = Standby ->
            final = still_standby_report progname)).
Proof.
  intros Hconn.
  destruct (promote_confirmation_spec retval w Hconn)
    as (ok & retval' & n & p & polled & w' & Hrun & Hm & Hc & Hro & Hd
        & Hf & Ht & Hp & Hco & Hsc & Hst & Hn & Hpk & Hnz & Hok & Hno).
  change promote_check_rounds with 30%nat in *.
  assert (Hlen : List.length (probes_of target polled) = p)
    by (rewrite Hp, length_map, length_seq; reflexivity).
  exists polled, (promote_report progname ok retval'), w'.
  split; [exact Hrun | ]. split; [exact Ht | ].
  split; [rewrite Hlen; exact Hpk | ]. split; [reflexivity | ].
  split; [rewrite Hc; unfold promote_check_interval, promote_check_timeout; lia | ].
  split; [exact Hd | ]. split; [exact Hsc | ]. split; [exact Hst | ].
  rewrite Hlen. split.
  - intros j Hj Hprimary Hfirst.
    apply answer_at_primary in Hprimary.
    destruct ok.
    + destruct (Hok eq_refl) as (-> & Hzero & _).
      assert (n = j) as ->.
      { destruct (Nat.lt_trichotomy n j) as [Hlt | [Heq | Hgt]].
        - apply answer_at_primary in Hzero.
          exfalso. exact (Hfirst n Hlt Hzero).
        - exact Heq.
        - exfalso. exact (Hnz j Hgt Hprimary). }
      split; reflexivity.
    + destruct (Hno eq_refl) as (-> & -> & _).
      exfalso. exact (Hnz j Hj Hprimary).
  - intros Hnever. destruct ok.
    + destruct (Hok eq_refl) as (-> & Hzero & _).
      apply answer_at_primary in Hzero.
      exfalso. apply (Hnever n); [lia | exact Hzero].
    + destruct (Hno eq_refl) as (-> & -> & ->).
      split; [reflexivity | ].
      rewrite (last_map_seq (answer_at o target) 29 (moment w) retval).
      unfold promote_report. split.
      * destruct (answer_at o target (moment w + 29) =? 1); auto.
      * intros Hstandby. unfold answer_at. rewrite Hstandby. reflexivity.
Qed.

(** C9: in the confirmation loop of standby promote an Unreachable answer
    does not end the polling: the loop goes on to the next probe, on the
    same connection, and it ends before its 30 rounds only at a probe that
    reports Primary.  The connection-lost report is the final report
    exactly when no probe reported Primary and the last of the 30 probes
    was Unreachable. *)
Theorem unreachable_probe_keeps_polling (retval : Z) (w : world) :
  connects o target (moment w) = true ->
  exists polled final p w',
    confirmation retval w = (Returns tt, w')
    /\ trace w' =
         (trace w
          ++ [Log LOG_INFO (progname ++ " reconnecting to promoted server" ++ nl);
              Connect target]
          ++ polled
          ++ [final; PQfinish_ev target])%list
    /\ probes_of target polled = map (answer_at o target) (seq (moment w) p)
    /\ (p <= promote_check_rounds)%nat
    /\ connections_opened polled = []
    /\ (forall j,
          (j < p)%nat ->
          recovery o target (moment w + j) = Unreachable ->
          (S j < promote_check_rounds)%nat ->
          (S j < p)%nat)
    /\ ((p < promote_check_rounds)%nat ->
        exists j, p = S j /\ recovery o target (moment w + j) = Primary)
    /\ (final = connection_lost_report progname <->
        p = promote_check_rounds
        /\ (forall j, (j < promote_check_rounds)%nat ->
                      recovery o target (moment w + j) <> Primary)
        /\ recovery o target (moment w + (promote_check_rounds - 1)) = Unreachable).
Proof.
  intros Hconn.
  destruct (promote_confirmation_spec retval w Hconn)
    as (ok & retval' & n & p & polled & w' & Hrun & Hm & Hc & Hro & Hd
        & Hf & Ht & Hp & Hco & Hsc & Hst & Hn & Hpk & Hnz & Hok & Hno).
  change promote_check_rounds with 30%nat in *.
  exists polled, (promote_report progname ok retval'), p, w'.
  split; [exact Hrun | ]. split; [exact Ht | ]. split; [exact Hp | ].
  split; [exact Hpk | ]. split; [exact Hco | ].
  destruct ok.
  - destruct (Hok eq_refl) as (-> & Hzero & ->).
    split; [ | split].
    + intros j Hj Hlost _.
      assert (j <> n).
      { intros ->. apply answer_at_unreachable in Hlost.
        rewrite Hlost in Hzero. discriminate Hzero. }
      lia.
    + intros _. exists n. split; [reflexivity | ].
      apply answer_at_primary. exact Hzero.
    + unfold promote_report, promoted_report, connection_lost_report.
      split; [intros H; discriminate H | ].
      intros (Hp30 & Hnever & _). exfalso.
      apply (Hnever n); [lia | ]. apply answer_at_primary. exact Hzero.
  - destruct (Hno eq_refl) as (-> & -> & ->).
    rewrite (last_map_seq (answer_at o target) 29 (moment w) retval).
    assert (Hlast : answer_at o target (moment w + 29) <> 0) by (apply Hnz; lia).
    split; [ | split].
    + intros j _ _ Hj. exact Hj.
    + intros H. lia.
    + unfold promote_report, still_standby_report, connection_lost_report.
      destruct (answer_at o target (moment w + 29) =? 1) eqn:Hone.
      * apply Z.eqb_eq in Hone. split.
        -- intros H. injection H as H. apply append_inj_l in H. discriminate H.
        -- intros (_ & _ & Hlost). apply answer_at_unreachable in Hlost.
           cbn [Nat.sub] in Hlost. rewrite Hlost in Hone. discriminate Hone.
      * apply Z.eqb_neq in Hone. split; [ | reflexivity].
        intros _. split; [reflexivity | ]. split.
        -- intros j Hj Hprimary. apply answer_at_primary in Hprimary.
           exact (Hnz j Hj Hprimary).
        -- apply answer_at_unreachable. cbn [Nat.sub].
           destruct (answer_at_cases o target (moment w + 29)) as [H | [H | H]];
             [contradiction | contradiction | exact H].
Qed.

End Promote.

(** ** Cleanup *)

Section Cleanup.

Variable o : outside.
Variable progname : string.
Variable options : t_configuration_options.

(** The statement that cleans the history. *)
Local Abbreviation history_statement w :=
  (if keep_history (runtime_options w) >? 0
   then DELETE_FROM_repl_monitor (keep_history (runtime_options w))
   else TRUNCATE_repl_monitor).

(** C10: cluster cleanup looks only at the outcome of the DELETE (or
    TRUNCATE) of the history: once that statement has succeeded the
    VACUUM is sent and cleanup returns normally, whatever the server
    answers to the VACUUM. *)
Theorem cluster_cleanup_ignores_vacuum (w : world) (master_conn : PGconn) :
  connects o (conninfo options) (moment w) = true ->
  first_primary o (moment w)
    (cluster_rows w (conninfo options) (cluster_name options)) = Some master_conn ->
  pq_ok o master_conn (history_statement w) = true ->
  exists w',
    do_cluster_cleanup o progname options w = (Returns tt, w')
    /\ statements_sent (trace w')
       = (statements_sent (trace w) ++ [history_statement w; VACUUM_repl_monitor])%list
    /\ In (PQexec_ev master_conn VACUUM_repl_monitor
                     (pq_ok o master_conn VACUUM_repl_monitor))
          (trace w').
Proof.
  intros Hconn Hmaster Hcleaned.
  unfold do_cluster_cleanup, establish_db_connection, get_master_connection, PQexec.
  run. rewrite Hconn. run.
  match goal with
  | |- context [find_master o ?rows ?w1] =>
      destruct (find_master_spec o rows w1) as (added & Hrun & Hs & Hq)
  end.
  run_in Hrun. rewrite Hrun.
  fold (cluster_rows w (conninfo options) (cluster_name options)).
  rewrite Hmaster. run. rewrite Hcleaned. run.
  destruct (pq_ok o master_conn VACUUM_repl_monitor); run;
    eexists; (split; [reflexivity | ]); cbn [trace];
    (split;
     [ rewrite !statements_sent_app, Hq; cbn;
       rewrite ?app_nil_r, <- ?app_assoc; reflexivity
     | apply in_or_app; left; apply in_or_app; right; left; reflexivity ]).
Qed.

End Cleanup.

(** ** The values of an INSERT, read back *)

Lemma until_app (stop : ascii) (a rest : string) :
  has stop a = false ->
  until stop (a ++ String stop rest) = Some (a, rest).
Proof.
  induction a as [| x a IH]; cbn [append until has]; intros H.
  - rewrite Ascii.eqb_refl. reflexivity.
  - apply orb_false_iff in H as [Hx Ha]. rewrite Hx, (IH Ha). reflexivity.
Qed.

Lemma plain_has_no_quote (s : string) : plain s = true -> has "'" s = false.
Proof.
  unfold plain. intros H. apply andb_true_iff in H as [H _].
  apply negb_true_iff in H. exact H.
Qed.

(** The digits of a number, read on top of what has been read. *)
Lemma digits_of_uint_acc (u : Decimal.uint) (p : positive) :
  digits (NilEmpty.string_of_uint u) (Z.pos p) = Some (Z.pos (Pos.of_uint_acc u p)).
Proof.
  revert p. induction u as [| u IH | u IH | u IH | u IH | u IH | u IH | u IH | u IH | u IH | u IH];
    intros p; cbn [NilEmpty.string_of_uint digits Pos.of_uint_acc];
    [reflexivity | ..];
    match goal with
    | |- context [digit_of ?c] =>
        let d := eval vm_compute in (digit_of c) in change (digit_of c) with d
    end; cbv beta iota;
    match goal with
    | |- digits _ ?acc = Some (Z.pos (Pos.of_uint_acc _ ?q)) =>
        replace acc with (Z.pos q) by lia
    end; apply IH.
Qed.

Lemma digits_of_uint (u : Decimal.uint) :
  digits (NilEmpty.string_of_uint u) 0 = Some (Z.of_N (Pos.of_uint u)).
Proof.
  induction u as [| u IH | u IH | u IH | u IH | u IH | u IH | u IH | u IH | u IH | u IH];
    cbn [NilEmpty.string_of_uint digits Pos.of_uint];
    [reflexivity | ..];
    match goal with
    | |- context [digit_of ?c] =>
        let d := eval vm_compute in (digit_of c) in change (digit_of c) with d
    end; cbv beta iota;
    [ exact IH | .. ];
    match goal with
    | |- digits _ ?acc = _ =>
        let v := eval vm_compute in acc in change acc with v
    end; rewrite digits_of_uint_acc; reflexivity.
Qed.

(** The decimal text of a positive number begins with a digit. *)
Lemma integer_of_uint (u : Decimal.uint) :
  u <> Decimal.Nil ->
  integer_of (NilEmpty.string_of_uint u) = Some (Z.of_N (Pos.of_uint u))
  /\ integer_of (String "-" (NilEmpty.string_of_uint u))
     = Some (- Z.of_N (Pos.of_uint u)).
Proof.
  intros Hnil. pose proof (digits_of_uint u) as H.
  destruct u; [contradiction Hnil; reflexivity | ..];
    cbn [NilEmpty.string_of_uint] in H |- *; unfold integer_of;
    rewrite H; split; reflexivity.
Qed.

(** [%i] and back. *)
Lemma integer_of_string_of_Z (z : Z) : integer_of (string_of_Z z) = Some z.
Proof.
  unfold string_of_Z. destruct z as [| p | p]; [reflexivity | | ];
    cbn [Z.to_int NilZero.string_of_int];
    pose proof (DecimalPos.Unsigned.to_uint_nonnil p) as Hnil;
    destruct (integer_of_uint (Pos.to_uint p) Hnil) as [Hpos Hneg];
    rewrite DecimalPos.Unsigned.of_to in Hpos, Hneg;
    unfold NilZero.string_of_uint;
    destruct (Pos.to_uint p); try (contradiction Hnil; reflexivity);
    first [exact Hpos | exact Hneg].
Qed.

(** The decimal text of a number has digits and a sign only. *)
Lemma has_string_of_uint (c : ascii) (u : Decimal.uint) :
  digit_of c = None ->
  has c (NilEmpty.string_of_uint u) = false.
Proof.
  intros Hc.
  induction u as [| u IH | u IH | u IH | u IH | u IH | u IH | u IH | u IH | u IH | u IH];
    cbn [NilEmpty.string_of_uint has]; [reflexivity | ..];
    rewrite IH, orb_false_r; apply Ascii.eqb_neq; intros <-;
    vm_compute in Hc; discriminate Hc.
Qed.

Lemma has_string_of_Z (c : ascii) (z : Z) :
  digit_of c = None -> c <> "-"%char ->
  has c (string_of_Z z) = false.
Proof.
  intros Hc Hminus. unfold string_of_Z.
  assert (Hzero : has c "0" = false).
  { cbn [has]. rewrite orb_false_r. apply Ascii.eqb_neq. intros <-.
    vm_compute in Hc. discriminate Hc. }
  destruct z as [| p | p]; cbn [Z.to_int NilZero.string_of_int has];
    [exact Hzero | | ];
    unfold NilZero.string_of_uint;
    pose proof (has_string_of_uint c (Pos.to_uint p) Hc) as H;
    destruct (Pos.to_uint p); rewrite ?H, ?Hzero; try reflexivity;
    rewrite orb_false_r; apply Ascii.eqb_neq; intros Heq; apply Hminus; symmetry; exact Heq.
Qed.

Lemma until_string_of_Z (stop : ascii) (z : Z) (rest : string) :
  digit_of stop = None -> stop <> "-"%char ->
  until stop (string_of_Z z ++ String stop rest) = Some (string_of_Z z, rest).
Proof.
  intros Hstop Hminus. apply until_app. apply has_string_of_Z; assumption.
Qed.

Lemma string_of_Z_is_not_NULL (z : Z) : String.eqb (string_of_Z z) "NULL" = false.
Proof.
  apply String.eqb_neq. intros H.
  pose proof (integer_of_string_of_Z z) as Hz. rewrite H in Hz. discriminate Hz.
Qed.

Lemma expect_app (start rest : string) : expect start (start ++ rest) = Some (tt, rest).
Proof.
  induction start as [| a start IH]; cbn [append expect]; [reflexivity | ].
  rewrite Ascii.eqb_refl. exact IH.
Qed.

Lemma integer_until_string_of_Z (stop : ascii) (z : Z) (rest : string) :
  digit_of stop = None -> stop <> "-"%char ->
  integer_until stop (string_of_Z z ++ String stop rest) = Some (z, rest).
Proof.
  intros Hstop Hminus. unfold integer_until, and_then.
  rewrite until_string_of_Z, integer_of_string_of_Z by assumption. reflexivity.
Qed.

Lemma null_or_integer_until_number (stop : ascii) (z : option Z) (rest : string) :
  digit_of stop = None -> stop <> "-"%char -> stop <> "N"%char ->
  stop <> "U"%char -> stop <> "L"%char ->
  null_or_integer_until stop (null_or_number z ++ String stop rest) = Some (z, rest).
Proof.
  intros Hstop Hminus HN HU HL. unfold null_or_integer_until, and_then.
  destruct z as [z | ]; cbn [null_or_number].
  - rewrite until_string_of_Z, string_of_Z_is_not_NULL, integer_of_string_of_Z
      by assumption.
    reflexivity.
  - rewrite until_app; [reflexivity | ].
    cbn [has]. apply Ascii.eqb_neq in HN, HU, HL.
    rewrite Ascii.eqb_sym in HN, HU, HL. rewrite HN, HU, HL. reflexivity.
Qed.

Lemma quoted_plain (s rest : string) :
  plain s = true -> quoted (s ++ String "'" rest) = Some (s, rest).
Proof.
  intros Hplain. unfold quoted, and_then.
  rewrite until_app by (apply plain_has_no_quote; exact Hplain).
  rewrite Hplain. reflexivity.
Qed.

Lemma null_or_quoted_text (s : option string) (rest : string) :
  match s with Some s => plain s = true | None => True end ->
  null_or_quoted (null_or_text s ++ rest) = Some (s, rest).
Proof.
  destruct s as [s | ]; cbn [null_or_text]; intros Hplain.
  - cbn [append null_or_quoted]. unfold and_then.
    rewrite string_app_assoc. cbn [append].
    rewrite quoted_plain by exact Hplain. reflexivity.
  - reflexivity.
Qed.

(** A row whose texts are plain is read back from its VALUES list. *)
Lemma row_of_values_of_row (r : node_row) :
  plain_row r = true -> col_active r = true ->
  row_of_values (values_of_row r) = Some r.
Proof.
  destruct r as [id type up cluster name conn slot prio active].
  unfold plain_row. cbn [col_id col_type col_upstream_node_id col_cluster col_name
                         col_conninfo col_slot_name col_priority col_active].
  intros Hplain ->.
  apply andb_true_iff in Hplain as [Hplain Hslot].
  apply andb_true_iff in Hplain as [Hplain Hconn].
  apply andb_true_iff in Hplain as [Hplain Hname].
  apply andb_true_iff in Hplain as [Htype Hcluster].
  unfold row_of_values, values_of_row, read_values.
  cbn [col_id col_type col_upstream_node_id col_cluster col_name
       col_conninfo col_slot_name col_priority col_active].
  unfold and_then at 1. rewrite expect_app.
  unfold and_then at 1.
  change (", '" ++ ?x) with (String "," (" '" ++ x)).
  rewrite integer_until_string_of_Z by (try reflexivity; discriminate).
  unfold and_then at 1. rewrite expect_app.
  unfold and_then at 1.
  change ("', " ++ ?x) with (String "'"%char (", " ++ x)).
  rewrite quoted_plain by exact Htype.
  unfold and_then at 1. rewrite expect_app.
  unfold and_then at 1.
  change (", '" ++ ?x) with (String "," (" '" ++ x)).
  rewrite null_or_integer_until_number by (try reflexivity; discriminate).
  unfold and_then at 1. rewrite expect_app.
  unfold and_then at 1.
  change ("', '" ++ ?x) with (String "'"%char (", '" ++ x)).
  rewrite quoted_plain by exact Hcluster.
  unfold and_then at 1. rewrite expect_app.
  unfold and_then at 1.
  change ("', '" ++ ?x) with (String "'"%char (", '" ++ x)).
  rewrite quoted_plain by exact Hname.
  unfold and_then at 1. rewrite expect_app.
  unfold and_then at 1.
  change ("', " ++ ?x) with (String "'"%char (", " ++ x)).
  rewrite quoted_plain by exact Hconn.
  unfold and_then at 1. rewrite expect_app.
  unfold and_then at 1.
  rewrite null_or_quoted_text by (destruct slot; [exact Hslot | exact I]).
  unfold and_then at 1. rewrite expect_app.
  unfold and_then at 1.
  change (") ") with (String ")" " ").
  rewrite integer_until_string_of_Z by (try reflexivity; discriminate).
  reflexivity.
Qed.

(** ** Node records *)

Section NodeRecord.

Variable o : outside.
Variable NO_UPSTREAM_NODE : Z.
Variable MAXLEN : nat.
Variable options : t_configuration_options.
Variable repmgr_slot_name : string.

Local Abbreviation record w conn node type upstream_node cluster_name node_name
    conninfo priority :=
  (node_record NO_UPSTREAM_NODE options repmgr_slot_name w conn node type
     upstream_node cluster_name node_name conninfo priority).

(** The two texts that [create_node_record] writes with
    [maxlen_snprintf] are those of the record. *)
Lemma upstream_node_id_text
    (conn : PGconn) (node : Z) (type : string) (upstream_node : Z)
    (cluster_name node_name conninfo : string) (priority : Z) (w : world) :
  (if upstream_node =? NO_UPSTREAM_NODE then
     if String.eqb type "standby" then
       primary_node_id <- get_primary_node_id conn cluster_name;;
       maxlen_snprintf MAXLEN (string_of_Z primary_node_id)
     else maxlen_snprintf MAXLEN "NULL"
   else maxlen_snprintf MAXLEN (string_of_Z upstream_node)) w
  = maxlen_snprintf MAXLEN
      (null_or_number
         (col_upstream_node_id
            (record w conn node type upstream_node cluster_name node_name
               conninfo priority))) w.
Proof.
  unfold node_record, get_primary_node_id, recorded_primary.
  cbn [col_upstream_node_id].
  destruct (upstream_node =? NO_UPSTREAM_NODE); [ | reflexivity].
  destruct (String.eqb type "standby"); [ | reflexivity].
  unfold bind at 1. cbn [get_world bind].
  destruct (find _ (repl_nodes (dbs w conn))); reflexivity.
Qed.

Lemma slot_name_text
    (conn : PGconn) (node : Z) (type : string) (upstream_node : Z)
    (cluster_name node_name conninfo : string) (priority : Z) (w : world) :
  (if use_replication_slots options && String.eqb type "standby"
   then maxlen_snprintf MAXLEN ("'" ++ repmgr_slot_name ++ "'")
   else maxlen_snprintf MAXLEN "NULL")
  = maxlen_snprintf MAXLEN
      (null_or_text
         (col_slot_name
            (record w conn node type upstream_node cluster_name node_name
               conninfo priority))).
Proof.
  unfold node_record. cbn [col_slot_name].
  destruct (use_replication_slots options && String.eqb type "standby");
    reflexivity.
Qed.

(** When the two texts fit and the server accepts the statement,
    [create_node_record] returns true, and a record whose texts are plain
    is in the registry as it was written. *)
Lemma create_node_record_inserts
    (conn : PGconn) (action : option string) (node : Z) (type : string)
    (upstream_node : Z) (cluster_name node_name conninfo : string)
    (priority : Z) (w : world) :
  let r := record w conn node type upstream_node cluster_name node_name
             conninfo priority in
  plain_row r = true ->
  (String.length (null_or_number (col_upstream_node_id r)) < MAXLEN)%nat ->
  (String.length (null_or_text (col_slot_name r)) < MAXLEN)%nat ->
  pq_ok o conn (INSERT_INTO_repl_nodes (values_of_row r)) = true ->
  create_node_record o NO_UPSTREAM_NODE MAXLEN options repmgr_slot_name conn
    action node type upstream_node cluster_name node_name conninfo priority w
  = (Returns true, after_insert conn action r w).
Proof.
  cbv zeta. intros Hplain Hup Hslot Hok.
  apply row_of_values_of_row in Hplain; [ | reflexivity].
  apply Nat.ltb_lt in Hup, Hslot.
  unfold create_node_record. unfold bind at 1.
  rewrite upstream_node_id_text with (node := node) (node_name := node_name)
    (conninfo := conninfo) (priority := priority).
  rewrite slot_name_text with (conn := conn) (node := node)
    (upstream_node := upstream_node) (cluster_name := cluster_name)
    (node_name := node_name) (conninfo := conninfo) (priority := priority) (w := w).
  unfold maxlen_snprintf at 1. rewrite Hup. cbn [ret].
  unfold bind at 1. unfold maxlen_snprintf at 1. rewrite Hslot. cbn [ret].
  change (INSERT_INTO_repl_nodes _)
    with (INSERT_INTO_repl_nodes
            (values_of_row
               (record w conn node type upstream_node cluster_name node_name
                  conninfo priority))).
  unfold PQexec, after_insert.
  destruct action; run; rewrite Hok; run; cbn [apply_sql]; rewrite Hplain;
    rewrite <- ?app_assoc; reflexivity.
Qed.



End NodeRecord.

(** ** The recovery configuration *)

Section RecoveryFile.

Variable o : outside.
Variable MAXLEN : nat.
Variable progname : string.
Variable options : t_configuration_options.
Variable require_password : bool.
Variable repmgr_slot_name : string.

Lemma optional_text_returns (empty : bool) (text s : string) (w w' : world) :
  (if negb empty then maxlen_snprintf MAXLEN text else ret "") w = (Returns s, w') ->
  s = (if empty then "" else text) /\ w' = w.
Proof.
  destruct empty; cbn [negb]; intros H.
  - inversion H. auto.
  - apply maxlen_snprintf_returns in H. exact H.
Qed.

(** The text of primary_conninfo, from the values it is made of. *)
Lemma write_primary_conninfo_returns (line : string) (w w' : world) :
  write_primary_conninfo o MAXLEN progname options require_password w
  = (Returns line, w') ->
  w' = w
  /\ line =
     "primary_conninfo = '"
     ++ ("port="
         ++ (if is_empty (masterport (runtime_options w)) then "5432"
             else masterport (runtime_options w))
         ++ (if is_empty (host (runtime_options w)) then ""
             else " host=" ++ host (runtime_options w))
         ++ (if is_empty (username (runtime_options w)) then ""
             else " user=" ++ username (runtime_options w))
         ++ match PGPASSWORD o with
            | Some pw => " password=" ++ pw
            | None => ""
            end
         ++ (if is_empty (node_name options) then ""
             else " application_name=" ++ node_name options))
     ++ "'" ++ nl.
Proof.
  unfold write_primary_conninfo, getenv_PGPASSWORD. intros H.
  apply bind_returns in H as (password & w1 & H1 & H).
  inversion H1; subst password w1; clear H1.
  apply bind_returns in H as (password_buf & w1 & H1 & H).
  assert (password_buf = match PGPASSWORD o with
                         | Some pw => " password=" ++ pw
                         | None => ""
                         end /\ w1 = w) as [-> ->].
  { destruct (PGPASSWORD o) as [pw | ].
    - apply maxlen_snprintf_returns in H1. exact H1.
    - destruct require_password; run_in H1; inversion H1; auto. }
  clear H1.
  apply bind_returns in H as (ro & w1 & H1 & H).
  inversion H1; subst ro w1; clear H1.
  apply bind_returns in H as (host_buf & w1 & H1 & H).
  apply optional_text_returns in H1 as [-> ->].
  apply bind_returns in H as (user_buf & w1 & H1 & H).
  apply optional_text_returns in H1 as [-> ->].
  apply bind_returns in H as (appname_buf & w1 & H1 & H).
  apply optional_text_returns in H1 as [-> ->].
  apply bind_returns in H as (conn_buf & w1 & H1 & H).
  apply maxlen_snprintf_returns in H1 as [-> ->].
  apply maxlen_snprintf_returns in H as [-> ->].
  split; [reflexivity | ].
  destruct (is_empty (masterport (runtime_options w))); reflexivity.
Qed.

(** A line that has been written is at the end of what the stream
    holds; nothing has reached the file yet. *)
Lemma write_recovery_file_line_returns
    (file file' : FILE) (path line : string) (w w' : world) :
  write_recovery_file_line o file path line w = (Returns (Some file'), w') ->
  file' = mkFILE (stream_path file) (stream_buffer file ++ line) /\ w' = w.
Proof.
  unfold write_recovery_file_line, fputs, fclose. intros H.
  destruct (fputs_ok o (stream_path file) line); run_in H.
  - inversion H. auto.
  - destruct (fclose_ok o (stream_path file)); run_in H; discriminate H.
Qed.

(** An optional line is written when its condition holds. *)
Lemma optional_line_returns
    (wanted : bool) (file file' : FILE) (path text : string) (w w' : world) :
  (if wanted then
     line <- maxlen_snprintf MAXLEN text;;
     write_recovery_file_line o file path line
   else ret (Some file)) w = (Returns (Some file'), w') ->
  file' = mkFILE (stream_path file)
            (stream_buffer file ++ (if wanted then text else ""))
  /\ w' = w.
Proof.
  destruct wanted; intros H.
  - apply bind_returns in H as (line & w1 & H1 & H).
    apply maxlen_snprintf_returns in H1 as [-> ->].
    apply (write_recovery_file_line_returns _ _ _ _ _ _ H).
  - inversion H; subst. rewrite string_app_nil_r. destruct file'; auto.
Qed.

(** What comes after a line has been written: the run only goes on when
    the line was written. *)
Lemma or_return_false_returns (written : option FILE) (rest : FILE -> M bool)
    (w w' : world) :
  or_return_false written rest w = (Returns true, w') ->
  exists file, written = Some file /\ rest file w = (Returns true, w').
Proof.
  destruct written as [file | ]; cbn [or_return_false]; intros H.
  - exists file. auto.
  - discriminate H.
Qed.

(** What a stream held is in the file after [fclose], when it could be
    written out. *)
Lemma fclose_returns (file : FILE) (closed : bool) (w w' : world) :
  fclose o file w = (Returns closed, w') ->
  files w' (stream_path file)
  = (if fclose_ok o (stream_path file) then
       Some (match files w (stream_path file) with
             | Some content => content ++ stream_buffer file
             | None => stream_buffer file
             end)
     else files w (stream_path file))
  /\ runtime_options w' = runtime_options w.
Proof.
  unfold fclose. destruct (fclose_ok o (stream_path file));
    intros H; run_in H; inversion H; subst; clear H; cbn [files runtime_options];
    rewrite ?String.eqb_refl; auto.
Qed.

(** When [create_recovery_file] returns true, the file holds the whole
    recovery configuration if the stream could be written out when it was
    closed, and is empty if not. *)
Lemma create_recovery_file_writes (data_dir : string) (w w' : world) :
  create_recovery_file o MAXLEN progname options require_password
    repmgr_slot_name data_dir w = (Returns true, w') ->
  files w' (data_dir ++ "/" ++ RECOVERY_FILE)
  = Some (if fclose_ok o (data_dir ++ "/" ++ RECOVERY_FILE)
          then recovery_configuration o options repmgr_slot_name (runtime_options w)
          else "").
Proof.
  unfold create_recovery_file. intros H.
  apply bind_returns in H as (path & w1 & H1 & H).
  apply maxlen_snprintf_returns in H1 as [Hpath ->].
  rewrite <- Hpath. clear Hpath.
  apply bind_returns in H as (opened & w1 & H1 & H).
  unfold fopen_w in H1.
  destruct (fopen_ok o path); run_in H1;
    inversion H1; subst opened w1; clear H1; [ | run_in H; discriminate H].
  match type of H with
  | _ ?opened_world = _ => remember opened_world as w0 eqn:Hw0
  end.
  assert (Hfile : files w0 path = Some "")
    by (subst w0; cbn [files]; rewrite String.eqb_refl; reflexivity).
  assert (Hro : runtime_options w0 = runtime_options w)
    by (subst w0; reflexivity).
  clear Hw0.
  (* standby_mode *)
  apply bind_returns in H as (line & w1 & H1 & H).
  apply maxlen_snprintf_returns in H1 as [-> ->].
  apply bind_returns in H as (written & w1 & H1 & H).
  apply or_return_false_returns in H as (file1 & -> & H).
  apply write_recovery_file_line_returns in H1 as [-> ->].
  (* primary_conninfo *)
  apply bind_returns in H as (line & w1 & H1 & H).
  apply write_primary_conninfo_returns in H1 as [-> ->].
  apply bind_returns in H as (written & w1 & H1 & H).
  apply or_return_false_returns in H as (file2 & -> & H).
  apply write_recovery_file_line_returns in H1 as [-> ->].
  (* recovery_target_timeline *)
  apply bind_returns in H as (line & w1 & H1 & H).
  apply maxlen_snprintf_returns in H1 as [-> ->].
  apply bind_returns in H as (written & w1 & H1 & H).
  apply or_return_false_returns in H as (file3 & -> & H).
  apply write_recovery_file_line_returns in H1 as [-> ->].
  (* min_recovery_apply_delay *)
  apply bind_returns in H as (ro & w1 & H1 & H).
  inversion H1; subst ro w1; clear H1.
  apply bind_returns in H as (written & w1 & H1 & H).
  apply or_return_false_returns in H as (file4 & -> & H).
  apply optional_line_returns in H1 as [-> ->].
  (* primary_slot_name *)
  apply bind_returns in H as (written & w1 & H1 & H).
  apply or_return_false_returns in H as (file5 & -> & H).
  apply optional_line_returns in H1 as [-> ->].
  (* fclose *)
  apply bind_returns in H as (closed & w1 & H1 & H).
  inversion H; subst w1; clear H.
  apply fclose_returns in H1 as [Hfiles _].
  cbv beta iota delta [stream_path stream_buffer] in Hfiles.
  rewrite Hfile in Hfiles. rewrite Hfiles.
  destruct (fclose_ok o path); [ | reflexivity].
  f_equal. unfold recovery_configuration. rewrite Hro.
  destruct (is_empty (min_recovery_apply_delay (runtime_options w)));
    cbn [negb]; rewrite ?string_app_assoc; reflexivity.
Qed.

(** C3, as the code has it: a recovery configuration that
    [create_recovery_file] has generated (it has returned true, and the
    lines could be written out when the file was closed) holds exactly
    the lines standby_mode, primary_conninfo, recovery_target_timeline,
    then min_recovery_apply_delay when that option is not empty, then
    primary_slot_name when replication slots are in use.  In
    primary_conninfo the port is always written, 5432 standing for an
    empty master port; host, user, password and application_name are
    left out when their values are empty and written when they are not;
    the password is that of the environment, PGPASSWORD.  A PGPASSWORD
    that is set to the empty text is not spoken of. *)
Theorem recovery_file_contents (data_dir : string) (w w' : world) :
  let password :=
    match PGPASSWORD o with
    | Some pw => pw
    | None => ""
    end in
  PGPASSWORD o <> Some "" ->
  fclose_ok o (data_dir ++ "/" ++ RECOVERY_FILE) = true ->
  create_recovery_file o MAXLEN progname options require_password
    repmgr_slot_name data_dir w = (Returns true, w') ->
  files w' (data_dir ++ "/" ++ RECOVERY_FILE)
  = Some
      (("standby_mode = 'on'" ++ nl)
       ++ ("primary_conninfo = '"
           ++ ("port="
               ++ (if is_empty (masterport (runtime_options w)) then "5432"
                   else masterport (runtime_options w))
               ++ (if is_empty (host (runtime_options w)) then ""
                   else " host=" ++ host (runtime_options w))
               ++ (if is_empty (username (runtime_options w)) then ""
                   else " user=" ++ username (runtime_options w))
               ++ (if is_empty password then ""
                   else " password=" ++ password)
               ++ (if is_empty (node_name options) then ""
                   else " application_name=" ++ node_name options))
           ++ "'" ++ nl)
       ++ ("recovery_target_timeline = 'latest'" ++ nl)
       ++ (if is_empty (min_recovery_apply_delay (runtime_options w)) then ""
           else "min_recovery_apply_delay = "
                ++ min_recovery_apply_delay (runtime_options w) ++ nl)
       ++ (if use_replication_slots options
           then "primary_slot_name = " ++ repmgr_slot_name ++ nl
           else "")).
Proof.
  cbv zeta. intros Hpassword Hclose H.
  apply create_recovery_file_writes in H. rewrite Hclose in H.
  refine (eq_trans H _). unfold recovery_configuration.
  destruct (PGPASSWORD o) as [[| c pw] | ]; cbn [is_empty];
    [contradiction Hpassword; reflexivity | reflexivity | reflexivity].
Qed.

End RecoveryFile.

(** ** The configuration of the upstream server *)

Lemma parameters_asked_app (a b : list event) :
  parameters_asked (a ++ b) = (parameters_asked a ++ parameters_asked b)%list.
Proof.
  induction a as [| e a IH]; [reflexivity | ].
  destruct e; cbn; rewrite IH; reflexivity.
Qed.

Lemma asks_ret {A : Type} (ro : t_runtime_options) (a : A) :
  asks ro (ret a) a [].
Proof.
  intros w _. exists []. unfold ret, add_events. rewrite app_nil_r.
  destruct w; auto.
Qed.

Lemma asks_bind {A B : Type} (ro : t_runtime_options) (c : M A) (k : A -> M B)
    (a : A) (b : B) (l1 l2 : list string) :
  asks ro c a l1 -> asks ro (k a) b l2 -> asks ro (bind c k) b (l1 ++ l2).
Proof.
  intros Hc Hk w Hro.
  destruct (Hc w Hro) as (e1 & H1 & P1).
  destruct (Hk (add_events e1 w) Hro) as (e2 & H2 & P2).
  exists (e1 ++ e2)%list. unfold bind. rewrite H1, H2, add_events_add_events.
  split; [reflexivity | ].
  rewrite parameters_asked_app, P1, P2. reflexivity.
Qed.

Lemma asks_log (ro : t_runtime_options) (level : loglevel) (text : string) :
  asks ro (emit (Log level text)) tt [].
Proof.
  intros w _. exists [Log level text]. split; reflexivity.
Qed.

Lemma asks_when (ro : t_runtime_options) (b : bool) (c : M unit) :
  asks ro c tt [] -> asks ro (when b c) tt [].
Proof.
  intros Hc. destruct b; [exact Hc | apply asks_ret].
Qed.

Lemma asks_get_runtime_options (ro : t_runtime_options) :
  asks ro get_runtime_options ro [].
Proof.
  intros w <-. exists []. unfold get_runtime_options, add_events.
  rewrite app_nil_r. destruct w; auto.
Qed.

Lemma asks_guc_set (o : outside) (ro : t_runtime_options) (conn : PGconn)
    (parameter op value : string) :
  asks ro (guc_set o conn parameter op value)
       (guc_set_answer o conn parameter op value) [parameter].
Proof.
  intros w _. eexists. unfold guc_set. run. split; reflexivity.
Qed.

Lemma asks_guc_set_typed (o : outside) (ro : t_runtime_options) (conn : PGconn)
    (parameter op value datatype : string) :
  asks ro (guc_set_typed o conn parameter op value datatype)
       (guc_set_typed_answer o conn parameter op value datatype) [parameter].
Proof.
  intros w _. eexists. unfold guc_set_typed. run. split; reflexivity.
Qed.

(** One check, when [check_upstream_config] is not strict: a failed
    probe is complained about and makes the configuration not ok; the
    command goes on in both cases. *)
Lemma asks_check (ro : t_runtime_options) (conn : PGconn) (i : Z)
    (complain : M unit) (config_ok : bool) :
  asks ro complain tt [] ->
  asks ro
    (if (i =? 0) || (i =? -1) then
       when (i =? 0) complain;; leave_if false conn;; ret false
     else ret config_ok)
    (negb (failed i) && config_ok) [].
Proof.
  intros Hcomplain. unfold failed.
  destruct ((i =? 0) || (i =? -1)); cbn [negb andb].
  - change (@nil string) with (([] ++ [] ++ [])%list : list string).
    eapply asks_bind; [apply asks_when; exact Hcomplain | ].
    eapply asks_bind; apply asks_ret.
  - apply asks_ret.
Qed.

Lemma leaves_bind_l {A B : Type} (ro : t_runtime_options) (c : M A)
    (k : A -> M B) (code : errcode) (l : list string) :
  leaves ro c code l -> leaves ro (bind c k) code l.
Proof.
  intros Hc w Hro. destruct (Hc w Hro) as (e & H & P).
  exists e. unfold bind. rewrite H. auto.
Qed.

Lemma leaves_bind_r {A B : Type} (ro : t_runtime_options) (c : M A)
    (k : A -> M B) (a : A) (code : errcode) (l1 l2 : list string) :
  asks ro c a l1 -> leaves ro (k a) code l2 ->
  leaves ro (bind c k) code (l1 ++ l2).
Proof.
  intros Hc Hk w Hro.
  destruct (Hc w Hro) as (e1 & H1 & P1).
  destruct (Hk (add_events e1 w) Hro) as (e2 & H2 & P2).
  exists (e1 ++ e2)%list. unfold bind. rewrite H1, H2, add_events_add_events.
  split; [reflexivity | ].
  rewrite parameters_asked_app, P1, P2. reflexivity.
Qed.

Lemma leaves_leave_if (ro : t_runtime_options) (conn : PGconn) :
  leaves ro (leave_if true conn) ERR_BAD_CONFIG [].
Proof.
  intros w _. eexists. unfold leave_if. run. split; reflexivity.
Qed.

(** One check, when [check_upstream_config] is strict: a probe that
    passed lets the command go on, a failed probe ends it. *)
Lemma strict_check_passes (ro : t_runtime_options) (conn : PGconn) (i : Z)
    (complain : M unit) (config_ok : bool) :
  failed i = false ->
  asks ro
    (if (i =? 0) || (i =? -1) then
       when (i =? 0) complain;; leave_if true conn;; ret false
     else ret config_ok)
    config_ok [].
Proof.
  unfold failed. intros ->. apply asks_ret.
Qed.

Lemma strict_check_fails (ro : t_runtime_options) (conn : PGconn) (i : Z)
    (complain : M unit) (config_ok : bool) :
  failed i = true ->
  asks ro complain tt [] ->
  leaves ro
    (if (i =? 0) || (i =? -1) then
       when (i =? 0) complain;; leave_if true conn;; ret false
     else ret config_ok)
    ERR_BAD_CONFIG [].
Proof.
  unfold failed. intros -> Hcomplain.
  change (@nil string) with (([] ++ [])%list : list string).
  eapply leaves_bind_r; [apply asks_when; exact Hcomplain | ].
  apply leaves_bind_l. apply leaves_leave_if.
Qed.

(** With the slots in use the probe of max_replication_slots passes
    exactly when the server has more than one slot. *)
Lemma slot_count_answer (o : outside) (conn : PGconn) (v : string) (n : Z) :
  pg_setting o conn "max_replication_slots" = Setting v ->
  integer_of v = Some n ->
  guc_set_typed_answer o conn "max_replication_slots" ">" "1" "integer"
  = (if n >? 1 then 1 else 0).
Proof.
  intros Hsetting Hn. unfold guc_set_typed_answer.
  rewrite Hsetting, Hn.
  change (integer_of "1") with (Some 1). cbn.
  destruct (n >? 1); reflexivity.
Qed.

Section UpstreamConfig.

Variable o : outside.
Variable progname : string.
Variable options : t_configuration_options.
Variable conn : PGconn.
Variable server_version_num : Z.

Local Abbreviation wal_level_answer :=
  (guc_set_answer o conn "wal_level" "=" "hot_standby").
Local Abbreviation slots_answer :=
  (guc_set_typed_answer o conn "max_replication_slots" ">" "1" "integer").
Local Abbreviation keep_answer ro :=
  (guc_set_typed_answer o conn "wal_keep_segments" ">="
     (wal_keep_segments ro) "integer").
Local Abbreviation archive_answer :=
  (guc_set_answer o conn "archive_mode" "=" "on").
Local Abbreviation hot_standby_answer :=
  (guc_set_answer o conn "hot_standby" "=" "on").
Local Abbreviation senders_answer :=
  (guc_set_typed_answer o conn "max_wal_senders" ">" "0" "integer").

(** When it is not strict, [check_upstream_config] always returns and
    has asked for every parameter, whatever the answers were.  Its result
    is the conjunction of the checks, in which an answer of -1 to the
    probe of max_replication_slots counts as passed. *)
Lemma check_upstream_config_asks_every_parameter (ro : t_runtime_options) :
  asks ro
    (check_upstream_config o progname options conn server_version_num false)
    (negb (failed wal_level_answer)
     && (if use_replication_slots options then
           if server_version_num <? 90400 then false
           else negb (slots_answer =? 0)
         else negb (failed (keep_answer ro)))
     && negb (failed archive_answer)
     && negb (failed hot_standby_answer)
     && negb (failed senders_answer))
    ("wal_level"
     :: (if use_replication_slots options then
           if server_version_num <? 90400 then []
           else ["max_replication_slots"]
         else ["wal_keep_segments"])
     ++ ["archive_mode"; "hot_standby"; "max_wal_senders"])%list.
Proof.
  unfold check_upstream_config.
  assert (Hslots : forall config_ok,
    asks ro
      (check_wal_retention o progname options conn server_version_num false
         config_ok)
      ((if use_replication_slots options then
          if server_version_num <? 90400 then false
          else negb (slots_answer =? 0)
        else negb (failed (keep_answer ro)))
       && config_ok)
      (if use_replication_slots options then
         if server_version_num <? 90400 then []
         else ["max_replication_slots"]
       else ["wal_keep_segments"])).
  { intros config_ok. unfold check_wal_retention.
    destruct (use_replication_slots options);
      [destruct (server_version_num <? 90400) | ].
    - change (@nil string) with (([] ++ [] ++ [])%list : list string).
      eapply asks_bind; [apply asks_log | ].
      eapply asks_bind; apply asks_ret.
    - change ["max_replication_slots"]
        with ((["max_replication_slots"] ++ [])%list : list string).
      eapply asks_bind; [apply asks_guc_set_typed | ]. cbv beta.
      destruct (slots_answer =? 0) eqn:Hzero; cbn [orb negb andb].
      + change (@nil string) with (([] ++ [] ++ [])%list : list string).
        eapply asks_bind; [apply asks_log | ].
        eapply asks_bind; apply asks_ret.
      + destruct (slots_answer =? -1); apply asks_ret.
    - change ["wal_keep_segments"]
        with (([] ++ ["wal_keep_segments"] ++ [])%list : list string).
      eapply asks_bind; [apply asks_get_runtime_options | ]. cbv beta.
      eapply asks_bind; [apply asks_guc_set_typed | ]. cbv beta.
      apply asks_check.
      change (@nil string) with (([] ++ [])%list : list string).
      eapply asks_bind; [apply asks_log | ].
      apply asks_when. apply asks_log. }
  change ("wal_level"
          :: (if use_replication_slots options then
                if server_version_num <? 90400 then []
                else ["max_replication_slots"]
              else ["wal_keep_segments"])
          ++ ["archive_mode"; "hot_standby"; "max_wal_senders"])%list
    with (["wal_level"] ++ []
          ++ (if use_replication_slots options then
                if server_version_num <? 90400 then []
                else ["max_replication_slots"]
              else ["wal_keep_segments"])
          ++ ["archive_mode"] ++ [] ++ ["hot_standby"] ++ []
          ++ ["max_wal_senders"] ++ [] ++ [])%list.
  eapply asks_bind; [apply asks_guc_set | ]. cbv beta.
  eapply asks_bind; [apply asks_check, asks_log | ]. cbv beta.
  eapply asks_bind; [apply Hslots | ]. cbv beta.
  eapply asks_bind; [apply asks_guc_set | ]. cbv beta.
  eapply asks_bind; [apply asks_check, asks_log | ]. cbv beta.
  eapply asks_bind; [apply asks_guc_set | ]. cbv beta.
  eapply asks_bind; [apply asks_check, asks_log | ]. cbv beta.
  eapply asks_bind; [apply asks_guc_set_typed | ]. cbv beta.
  eapply asks_bind; [apply asks_check, asks_log | ]. cbv beta.
  match goal with
  | |- asks _ (ret ?b) ?b' _ => replace b' with b; [apply asks_ret | ]
  end.
  generalize (failed wal_level_answer), (failed archive_answer),
    (failed hot_standby_answer), (failed senders_answer).
  intros b1 b2 b3 b4.
  destruct (use_replication_slots options);
    [destruct (server_version_num <? 90400);
       [ | destruct (slots_answer =? 0)]
    | destruct (failed (keep_answer ro))];
    destruct b1, b2, b3, b4; reflexivity.
Qed.

(** When it is strict, [check_upstream_config] returns true when every
    check passes and leaves with [ERR_BAD_CONFIG] at the first check that
    fails, without asking for the parameters after it; here too an answer
    of -1 to the probe of max_replication_slots counts as passed. *)
Lemma check_upstream_config_strict (ro : t_runtime_options) :
  let slots_ok :=
    if use_replication_slots options then
      if server_version_num <? 90400 then false
      else negb (slots_answer =? 0)
    else negb (failed (keep_answer ro)) in
  let slots_asked :=
    if use_replication_slots options then
      if server_version_num <? 90400 then []
      else ["max_replication_slots"]
    else ["wal_keep_segments"] in
  if negb (failed wal_level_answer) && slots_ok && negb (failed archive_answer)
     && negb (failed hot_standby_answer) && negb (failed senders_answer)
  then
    asks ro
      (check_upstream_config o progname options conn server_version_num true)
      true
      ("wal_level" :: slots_asked
       ++ ["archive_mode"; "hot_standby"; "max_wal_senders"])%list
  else
    leaves ro
      (check_upstream_config o progname options conn server_version_num true)
      ERR_BAD_CONFIG
      ("wal_level"
       :: if failed wal_level_answer then []
          else slots_asked
               ++ if negb slots_ok then []
                  else "archive_mode"
                       :: if failed archive_answer then []
                          else "hot_standby"
                               :: if failed hot_standby_answer then []
                                  else ["max_wal_senders"])%list.
Proof.
  cbv zeta. unfold check_upstream_config.
  (* wal_level *)
  destruct (failed wal_level_answer) eqn:F1; cbn [negb andb].
  { change ["wal_level"] with ((["wal_level"] ++ [])%list : list string).
    eapply leaves_bind_r; [apply asks_guc_set | ]. cbv beta.
    apply leaves_bind_l. apply strict_check_fails; [exact F1 | apply asks_log]. }
  (* the slots, or the segments kept *)
  set (slots_ok :=
         if use_replication_slots options then
           if server_version_num <? 90400 then false
           else negb (slots_answer =? 0)
         else negb (failed (keep_answer ro))).
  set (slots_asked :=
         if use_replication_slots options then
           if server_version_num <? 90400 then []
           else ["max_replication_slots"]
         else ["wal_keep_segments"]).
  set (slots_check :=
         check_wal_retention o progname options conn server_version_num true).
  assert (Hpass : slots_ok = true -> asks ro (slots_check true) true slots_asked).
  { subst slots_ok slots_asked slots_check. unfold check_wal_retention.
    destruct (use_replication_slots options);
      [destruct (server_version_num <? 90400) | ]; intros Hok.
    - discriminate Hok.
    - change ["max_replication_slots"]
        with ((["max_replication_slots"] ++ [])%list : list string).
      eapply asks_bind; [apply asks_guc_set_typed | ]. cbv beta.
      apply negb_true_iff in Hok. rewrite Hok. cbn [orb].
      destruct (slots_answer =? -1); apply asks_ret.
    - change ["wal_keep_segments"]
        with (([] ++ ["wal_keep_segments"] ++ [])%list : list string).
      eapply asks_bind; [apply asks_get_runtime_options | ]. cbv beta.
      eapply asks_bind; [apply asks_guc_set_typed | ]. cbv beta.
      apply strict_check_passes. apply negb_true_iff. exact Hok. }
  assert (Hfail : slots_ok = false ->
                  leaves ro (slots_check true) ERR_BAD_CONFIG slots_asked).
  { subst slots_ok slots_asked slots_check. unfold check_wal_retention.
    destruct (use_replication_slots options);
      [destruct (server_version_num <? 90400) | ]; intros Hok.
    - change (@nil string) with (([] ++ [])%list : list string).
      eapply leaves_bind_r; [apply asks_log | ].
      apply leaves_bind_l. apply leaves_leave_if.
    - change ["max_replication_slots"]
        with ((["max_replication_slots"] ++ [] ++ [])%list : list string).
      eapply leaves_bind_r; [apply asks_guc_set_typed | ]. cbv beta.
      apply negb_false_iff in Hok. rewrite Hok. cbn [orb].
      eapply leaves_bind_r; [apply asks_log | ].
      apply leaves_bind_l. apply leaves_leave_if.
    - change ["wal_keep_segments"]
        with (([] ++ ["wal_keep_segments"] ++ [])%list : list string).
      eapply leaves_bind_r; [apply asks_get_runtime_options | ]. cbv beta.
      eapply leaves_bind_r; [apply asks_guc_set_typed | ]. cbv beta.
      apply strict_check_fails; [apply negb_false_iff; exact Hok | ].
      change (@nil string) with (([] ++ [])%list : list string).
      eapply asks_bind; [apply asks_log | ].
      apply asks_when. apply asks_log. }
  destruct slots_ok eqn:F2; cbn [negb andb].
  2:{ change ("wal_level" :: slots_asked ++ [])%list
        with (["wal_level"] ++ [] ++ slots_asked ++ [])%list.
      rewrite app_nil_r.
      eapply leaves_bind_r; [apply asks_guc_set | ]. cbv beta.
      eapply leaves_bind_r;
        [apply strict_check_passes; exact F1 | ]. cbv beta.
      apply leaves_bind_l. apply Hfail. reflexivity. }
  specialize (Hpass eq_refl). clear Hfail.
  (* archive_mode *)
  destruct (failed archive_answer) eqn:F4; cbn [negb andb].
  { change ("wal_level" :: slots_asked ++ ["archive_mode"])%list
      with (["wal_level"] ++ [] ++ slots_asked ++ ["archive_mode"] ++ [])%list.
    eapply leaves_bind_r; [apply asks_guc_set | ]. cbv beta.
    eapply leaves_bind_r; [apply strict_check_passes; exact F1 | ]. cbv beta.
    eapply leaves_bind_r; [exact Hpass | ]. cbv beta.
    eapply leaves_bind_r; [apply asks_guc_set | ]. cbv beta.
    apply leaves_bind_l. apply strict_check_fails; [exact F4 | apply asks_log]. }
  (* hot_standby *)
  destruct (failed hot_standby_answer) eqn:F5; cbn [negb andb].
  { change ("wal_level" :: slots_asked ++ ["archive_mode"; "hot_standby"])%list
      with (["wal_level"] ++ [] ++ slots_asked ++ ["archive_mode"] ++ []
            ++ ["hot_standby"] ++ [])%list.
    eapply leaves_bind_r; [apply asks_guc_set | ]. cbv beta.
    eapply leaves_bind_r; [apply strict_check_passes; exact F1 | ]. cbv beta.
    eapply leaves_bind_r; [exact Hpass | ]. cbv beta.
    eapply leaves_bind_r; [apply asks_guc_set | ]. cbv beta.
    eapply leaves_bind_r; [apply strict_check_passes; exact F4 | ]. cbv beta.
    eapply leaves_bind_r; [apply asks_guc_set | ]. cbv beta.
    apply leaves_bind_l. apply strict_check_fails; [exact F5 | apply asks_log]. }
  (* max_wal_senders *)
  destruct (failed senders_answer) eqn:F6; cbn [negb andb].
  { change ("wal_level" :: slots_asked
            ++ ["archive_mode"; "hot_standby"; "max_wal_senders"])%list
      with (["wal_level"] ++ [] ++ slots_asked ++ ["archive_mode"] ++ []
            ++ ["hot_standby"] ++ [] ++ ["max_wal_senders"] ++ [])%list.
    eapply leaves_bind_r; [apply asks_guc_set | ]. cbv beta.
    eapply leaves_bind_r; [apply strict_check_passes; exact F1 | ]. cbv beta.
    eapply leaves_bind_r; [exact Hpass | ]. cbv beta.
    eapply leaves_bind_r; [apply asks_guc_set | ]. cbv beta.
    eapply leaves_bind_r; [apply strict_check_passes; exact F4 | ]. cbv beta.
    eapply leaves_bind_r; [apply asks_guc_set | ]. cbv beta.
    eapply leaves_bind_r; [apply strict_check_passes; exact F5 | ]. cbv beta.
    eapply leaves_bind_r; [apply asks_guc_set_typed | ]. cbv beta.
    apply leaves_bind_l. apply strict_check_fails; [exact F6 | apply asks_log]. }
  change ("wal_level" :: slots_asked
          ++ ["archive_mode"; "hot_standby"; "max_wal_senders"])%list
    with (["wal_level"] ++ [] ++ slots_asked ++ ["archive_mode"] ++ []
          ++ ["hot_standby"] ++ [] ++ ["max_wal_senders"] ++ [] ++ [])%list.
  eapply asks_bind; [apply asks_guc_set | ]. cbv beta.
  eapply asks_bind; [apply strict_check_passes; exact F1 | ]. cbv beta.
  eapply asks_bind; [exact Hpass | ]. cbv beta.
  eapply asks_bind; [apply asks_guc_set | ]. cbv beta.
  eapply asks_bind; [apply strict_check_passes; exact F4 | ]. cbv beta.
  eapply asks_bind; [apply asks_guc_set | ]. cbv beta.
  eapply asks_bind; [apply strict_check_passes; exact F5 | ]. cbv beta.
  eapply asks_bind; [apply asks_guc_set_typed | ]. cbv beta.
  eapply asks_bind; [apply strict_check_passes; exact F6 | ]. cbv beta.
  apply asks_ret.
Qed.

End UpstreamConfig.

(** * The claims on the scenarios *)

(** C1: with replication slots in use on a 9.4 server whose
    max_replication_slots is 1, [check_upstream_config] asks
    [max_replication_slots > 1]: the check fails, the configuration is
    reported as not ok and, in strict mode, the command leaves.  With 2
    slots the check passes. *)
Theorem one_replication_slot_is_refused :
  let one_slot := cluster_outside node1_primary all_9_4 (Setting "1") in
  let two_slots := cluster_outside node1_primary all_9_4 (Setting "2") in
  let run o strict :=
    check_upstream_config o "repmgr" (node2_options true) node1 90400 strict
      first_world in
  fst (run one_slot false) = Returns false
  /\ trace (snd (run one_slot false))
     = [ Asked_guc node1 "wal_level" 1;
         Asked_guc node1 "max_replication_slots" 0;
         Log LOG_ERR ("repmgr needs parameter 'max_replication_slots' must be set to at least 1 to enable replication slots" ++ nl);
         Asked_guc node1 "archive_mode" 1;
         Asked_guc node1 "hot_standby" 1;
         Asked_guc node1 "max_wal_senders" 1 ]
  /\ fst (run one_slot true) = Exits ERR_BAD_CONFIG
  /\ fst (run two_slots false) = Returns true.
Proof.
  vm_compute. repeat split.
Qed.

(** C4: with replication slots in use on a 9.4 server, a probe of
    max_replication_slots that could not be asked (-1) is not counted as
    a failed check: with every other check passing the result is true,
    and in strict mode the command does not leave.  The same answer to
    the probe of wal_keep_segments, when slots are not in use, makes the
    result false and ends the command in strict mode. *)
Theorem failed_slot_probe_is_not_counted :
  let lost := cluster_outside node1_primary all_9_4 QueryFailed in
  let keep_lost :=
    mkOutside (fun _ _ => true) node1_primary all_9_4 (fun _ => "9.x")
              (fun conn parameter =>
                 if String.eqb parameter "wal_keep_segments" then QueryFailed
                 else hot_standby_settings (Setting "5") conn parameter)
              (fun _ _ => true) (fun _ => "")
              (fun _ _ => true) (fun _ => "node1") (fun _ => "5432")
              (fun _ => "repmgr") (fun _ => 0) None (fun _ => true)
              (fun _ _ => true) (fun _ => true) (fun _ _ d => d) in
  let run o slots strict :=
    check_upstream_config o "repmgr" (node2_options slots) node1 90400 strict
      first_world in
  fst (run lost true false) = Returns true
  /\ trace (snd (run lost true false))
     = [ Asked_guc node1 "wal_level" 1;
         Asked_guc node1 "max_replication_slots" (-1);
         Asked_guc node1 "archive_mode" 1;
         Asked_guc node1 "hot_standby" 1;
         Asked_guc node1 "max_wal_senders" 1 ]
  /\ fst (run lost true true) = Returns true
  /\ fst (run keep_lost false false) = Returns false
  /\ fst (run keep_lost false true) = Exits ERR_BAD_CONFIG.
Proof.
  vm_compute. repeat split.
Qed.

(** The pair of version numbers that the block [/* master and standby
    version should match */] accepts: the command goes on exactly when
    the two numbers are equal after the integer division by 100 of C, and
    leaves with [ERR_BAD_CONFIG] for any other pair.  For version numbers
    that are not negative that division is the one that rounds down.
    90401 and 90402 are accepted, 90300 and 90400 are not. *)
Lemma versions_match_iff :
  (forall (progname : string) (conn master_conn : PGconn) (m s : Z)
          (mv sv : string) (w : world),
      let run := versions_should_match progname conn master_conn m mv s sv w in
      (fst run = Returns tt <-> Z.quot m 100 = Z.quot s 100)
      /\ (fst run = Exits ERR_BAD_CONFIG <-> Z.quot m 100 <> Z.quot s 100))
  /\ (forall m s : Z, versions_match m s = true <-> Z.quot m 100 = Z.quot s 100)
  /\ (forall m s : Z,
        0 <= m -> 0 <= s -> (versions_match m s = true <-> m / 100 = s / 100))
  /\ versions_match 90401 90402 = true
  /\ versions_match 90300 90400 = false.
Proof.
  split; [ | split; [ | split; [ | split; reflexivity]]].
  - intros progname conn master_conn m s mv sv w.
    unfold versions_should_match, versions_match. cbv zeta.
    destruct (Z.eqb_spec (Z.quot m 100) (Z.quot s 100)) as [Heq | Hneq];
      cbn [negb]; run.
    + split; split; intros H; try reflexivity; try exact Heq.
      * discriminate H.
      * contradiction.
    + split; split; intros H; try reflexivity; try exact Hneq.
      * discriminate H.
      * contradiction.
  - intros m s. unfold versions_match. apply Z.eqb_eq.
  - intros m s Hm Hs. unfold versions_match.
    rewrite !Z.quot_div_nonneg by lia. apply Z.eqb_eq.
Qed.

(** C2: the major-version test of standby register and standby follow
    is not made on the version of the primary and the version of the
    standby.  Under the comment "Verify that master is a supported server
    version" both commands read the number they call the master's from
    the connection to the standby
    ([check_server_version(conn, "master", ...)]), so the pair handed to
    the test is the version of the standby, twice, and a pair of equal
    numbers always passes.  With a primary on 9.3.0 and a standby on
    9.4.0, a pair that the test refuses when it is handed to it, the
    standby is registered in the registry of the primary, and it follows
    the primary: the server is restarted.  Neither command writes an
    error. *)
Theorem mixed_versions_are_not_refused :
  let o := cluster_outside node1_primary mixed_versions (Setting "5") in
  let register :=
    do_standby_register o 90300 "9.3" (-1) 1024 "repmgr" (node2_options false)
      "" "repmgr_test" first_world in
  let follow :=
    do_standby_follow o 90300 "9.3" 1024 "repmgr" (node2_options false)
      false "" "" 1 first_world in
  (forall (progname : string) (conn master_conn : PGconn) (v : Z)
          (mv sv : string) (w : world),
      versions_should_match progname conn master_conn v mv v sv w
      = (Returns tt, w))
  /\ server_version_num o node1 = 90300
  /\ server_version_num o node2 = 90400
  /\ versions_match 90300 90400 = false
  /\ fst (versions_should_match "repmgr" node2 node1 90300 "9.3.0" 90400 "9.4.0"
            first_world) = Exits ERR_BAD_CONFIG
  /\ fst register = Returns tt
  /\ map col_id (repl_nodes (dbs (snd register) node1)) = [1; 2]
  /\ errors_logged (trace (snd register)) = []
  /\ fst follow = Returns tt
  /\ scripts_run (trace (snd follow)) = ["pg_ctl  -w -D /data -m fast restart"]
  /\ errors_logged (trace (snd follow)) = [].
Proof.
  cbv zeta. split.
  - intros progname conn master_conn v mv sv w.
    unfold versions_should_match, versions_match.
    rewrite Z.eqb_refl. reflexivity.
  - vm_compute. repeat split.
Qed.

(** The scenario of section 8.  The standby node2 is registered with no
    upstream node given: its record points to node 1.  Promoting node2
    while node1 can be reached is refused.  With node1 stopped, node2 is
    promoted, and the promotion is confirmed at the probe at which node2
    reports Primary. *)
Example registered_then_promoted :
  let o := cluster_outside node1_primary all_9_4 (Setting "5") in
  let node1_stopped (conn : string) (m : nat) :=
    if String.eqb conn node1 then Unreachable
    else if (m <? 5)%nat then Standby else Primary in
  let o' := cluster_outside node1_stopped all_9_4 (Setting "5") in
  let registered_world :=
    snd (do_standby_register o 90300 "9.3" (-1) 1024 "repmgr" (node2_options false)
           "" "repmgr_test" first_world) in
  let promote o :=
    do_standby_promote o 90300 "9.3" 1024 "repmgr" (node2_options false) ""
      first_world in
  map col_upstream_node_id (repl_nodes (dbs registered_world node1))
  = [None; Some 1]
  /\ fst (promote o) = Exits ERR_BAD_CONFIG
  /\ scripts_run (trace (snd (promote o))) = []
  /\ fst (promote o') = Returns tt
  /\ scripts_run (trace (snd (promote o'))) = ["pg_ctl -D /data promote"]
  /\ probes_of node2 (trace (snd (promote o'))) = [1; 1; 1; 1; 1; 0]
  /\ clock (snd (promote o')) = 8
  /\ In (promoted_report "repmgr") (trace (snd (promote o'))).
Proof.
  vm_compute. repeat split.
  repeat (first [left; reflexivity | right]).
Qed.

(** A name with a quote in it.  The quote ends the value in the text of
    the VALUES list, and the text is not read as the row that
    [create_node_record] wrote: what is stored is for the server to say.
    A server that reads the rest of the name as SQL, and what follows the
    two dashes as a comment, stores the name n, the conninfo host=evil
    and the priority 7. *)
Example a_quote_ends_the_name :
  let name := "n', 'host=evil', NULL, 7) --" in
  let stored := mkNode 2 "standby" (Some 1) "test" "n" "host=evil" None 7 true in
  let o :=
    with_sql_effect
      (fun _ _ d => mkDb (schema_objects d) (repl_nodes d ++ [stored])
                         (repl_monitor d))
      (cluster_outside node1_primary all_9_4 (Setting "5")) in
  let values :=
    "(2, 'standby', 1, 'test', 'n', 'host=evil', NULL, 7) --', 'host=node2', NULL, 100) " in
  let run :=
    create_node_record o (-1) 1024 (node2_options false) "" node1
      (Some "standby register") 2 "standby" (-1) "test" name node2 100
      first_world in
  plain name = false
  /\ statements_sent (trace (snd run)) = [INSERT_INTO_repl_nodes values]
  /\ row_of_values values = None
  /\ fst run = Returns true
  /\ repl_nodes (dbs (snd run) node1) = [node1_row; stored].
Proof.
  vm_compute. repeat split.
Qed.

(** C3, as the spec words it, fails: with no master port given the file
    written has the field port (port=5432). *)
Lemma empty_port_is_written :
  ~ empty_fields_are_omitted
      (cluster_outside node1_primary all_9_4 (Setting "5")) 1024 "repmgr"
      (node2_options false) false "" "/data" first_world.
Proof.
  intros H.
  edestruct H as [Hport _]; [vm_compute; reflexivity | vm_compute; reflexivity | ].
  specialize (Hport eq_refl). vm_compute in Hport. discriminate Hport.
Qed.

(** A PGPASSWORD that is set to the empty text is written, as an empty
    password: [write_primary_conninfo] asks whether the password is there
    ([password != NULL]) where it asks of the host, the user and the name
    whether they are empty. *)
Example empty_password_is_written :
  let o :=
    with_password (Some "") (cluster_outside node1_primary all_9_4 (Setting "5")) in
  let run :=
    create_recovery_file o 1024 "repmgr" (node2_options false) false "" "/data"
      first_world in
  fst run = Returns true
  /\ files (snd run) "/data/recovery.conf"
     = Some ("standby_mode = 'on'" ++ nl
             ++ "primary_conninfo = 'port=5432 host=node1 user=repmgr password= application_name=node2'" ++ nl
             ++ "recovery_target_timeline = 'latest'" ++ nl).
Proof.
  vm_compute. split; reflexivity.
Qed.

(** * The theorems at work *)

Lemma recovery_file_contents_witness :
  let o := cluster_outside node1_primary all_9_4 (Setting "5") in
  let run :=
    create_recovery_file o 1024 "repmgr" (node2_options true) false
      "repmgr_slot_2" "/data" first_world in
  fst run = Returns true
  /\ files (snd run) "/data/recovery.conf"
     = Some ("standby_mode = 'on'" ++ nl
             ++ "primary_conninfo = 'port=5432 host=node1 user=repmgr application_name=node2'" ++ nl
             ++ "recovery_target_timeline = 'latest'" ++ nl
             ++ "primary_slot_name = repmgr_slot_2" ++ nl).
Proof.
  split; [reflexivity | ].
  apply (recovery_file_contents
           (cluster_outside node1_primary all_9_4 (Setting "5")) 1024 "repmgr"
           (node2_options true) false "repmgr_slot_2" "/data" first_world).
  - discriminate.
  - reflexivity.
  - reflexivity.
Defined.

Lemma standby_promote_refused_witness :
  let o := cluster_outside node1_primary all_9_4 (Setting "5") in
  let run :=
    do_standby_promote o 90300 "9.3" 1024 "repmgr" (node2_options false) ""
      first_world in
  fst run = Exits ERR_BAD_CONFIG
  /\ scripts_run (trace (snd run)) = scripts_run (trace first_world).
Proof.
  apply (proj1 (standby_promote_refused
                  (cluster_outside node1_primary all_9_4 (Setting "5"))
                  90300 "9.3" 1024 "repmgr" (node2_options false) ""
                  first_world)).
  - reflexivity.
  - vm_compute. discriminate.
  - right. exists node1_row. repeat split. left. reflexivity.
Defined.

Lemma promote_polling_is_bounded_witness :
  let o := cluster_outside node2_stays_standby all_9_4 (Setting "5") in
  exists polled w',
    promote_confirmation o "repmgr" (node2_options false) 1 first_world
    = (Returns tt, w')
    /\ trace w' =
         ([Log LOG_INFO ("repmgr" ++ " reconnecting to promoted server" ++ nl);
           Connect node2]
          ++ polled
          ++ [still_standby_report "repmgr"; PQfinish_ev node2])%list
    /\ List.length (probes_of node2 polled) = 30%nat
    /\ clock w' - clock first_world <= 60.
Proof.
  destruct (promote_polling_is_bounded
              (cluster_outside node2_stays_standby all_9_4 (Setting "5"))
              "repmgr" (node2_options false) 1 first_world eq_refl)
    as (polled & final & w' & Hrun & Ht & _ & _ & Hclock & _ & _ & _ & _ & Hnever).
  assert (Hquiet : forall j, (j < 30)%nat ->
                             node2_stays_standby node2 (0 + j) <> Primary)
    by (intros j _ H; discriminate H).
  destruct (Hnever Hquiet) as (Hlen & _ & Hstill).
  exists polled, w'. split; [exact Hrun | ].
  split; [rewrite <- (Hstill eq_refl); exact Ht | ].
  split; [exact Hlen | exact Hclock].
Defined.

Lemma unreachable_probe_keeps_polling_witness :
  let o := cluster_outside (fun _ _ => Unreachable) all_9_4 (Setting "5") in
  exists polled w',
    promote_confirmation o "repmgr" (node2_options false) 1 first_world
    = (Returns tt, w')
    /\ trace w' =
         ([Log LOG_INFO ("repmgr" ++ " reconnecting to promoted server" ++ nl);
           Connect node2]
          ++ polled
          ++ [connection_lost_report "repmgr"; PQfinish_ev node2])%list
    /\ List.length (probes_of node2 polled) = 30%nat
    /\ connections_opened polled = [].
Proof.
  destruct (unreachable_probe_keeps_polling
              (cluster_outside (fun _ _ => Unreachable) all_9_4 (Setting "5"))
              "repmgr" (node2_options false) 1 first_world eq_refl)
    as (polled & final & p & w' & Hrun & Ht & Hprobes & Hp & Hco & _ & Hearly & Hlost).
  change promote_check_rounds with 30%nat in *.
  assert (Hp30 : p = 30%nat).
  { destruct (Nat.lt_ge_cases p 30) as [Hlt | Hge]; [ | lia].
    destruct (Hearly Hlt) as (j & _ & H). discriminate H. }
  assert (Hfinal : final = connection_lost_report "repmgr").
  { apply Hlost. split; [exact Hp30 | ]. split; [ | reflexivity].
    intros j _ H. discriminate H. }
  exists polled, w'. split; [exact Hrun | ].
  split; [rewrite <- Hfinal; exact Ht | ].
  split; [ | exact Hco].
  change (conninfo (node2_options false)) with node2 in Hprobes.
  rewrite Hprobes, length_map, length_seq. exact Hp30.
Defined.


Lemma master_register_existing_schema_without_force_witness :
  let o := cluster_outside node1_primary all_9_4 (Setting "5") in
  exists w',
    do_master_register o 90300 "9.3" (-1) 1024 "repmgr" node1_options ""
      "repmgr_test" "repmgr_test" first_world = (Exits ERR_BAD_CONFIG, w')
    /\ dbs w' = dbs first_world
    /\ statements_sent (trace w') = [].
Proof.
  destruct (master_register_existing_schema_without_force
              (cluster_outside node1_primary all_9_4 (Setting "5"))
              90300 "9.3" (-1) 1024 "repmgr" node1_options "" "repmgr_test"
              "repmgr_test" first_world)
    as (w' & Hrun & Hdbs & Htrace).
  - reflexivity.
  - vm_compute. discriminate.
  - reflexivity.
  - left. reflexivity.
  - reflexivity.
  - exists w'. split; [exact Hrun | ]. split; [exact Hdbs | ].
    rewrite Htrace. reflexivity.
Defined.

Lemma cluster_cleanup_ignores_vacuum_witness :
  let refuses_vacuum :=
    mkOutside (fun _ _ => true) node1_primary all_9_4 (fun _ => "9.x")
              (hot_standby_settings (Setting "5"))
              (fun _ q => match q with
                          | VACUUM_repl_monitor => false
                          | _ => true
                          end)
              (fun _ => "") (fun _ _ => true) (fun _ => "node1")
              (fun _ => "5432") (fun _ => "repmgr") (fun _ => 0) None
              (fun _ => true) (fun _ _ => true) (fun _ => true)
              (fun _ _ d => d) in
  exists w',
    do_cluster_cleanup refuses_vacuum "repmgr" (node2_options false) first_world
    = (Returns tt, w')
    /\ In (PQexec_ev node1 VACUUM_repl_monitor false) (trace w').
Proof.
  cbv zeta.
  match goal with
  | |- exists w', do_cluster_cleanup ?o _ _ _ = _ /\ _ =>
      destruct (cluster_cleanup_ignores_vacuum o "repmgr" (node2_options false)
                  first_world node1)
        as (w' & Hrun & _ & Hvacuum)
  end.
  - reflexivity.
  - reflexivity.
  - reflexivity.
  - exists w'. split; [exact Hrun | exact Hvacuum].
Defined.

(** * More theorems on [repmgr.c] *)

(** ** The command line *)

Lemma strcasecmp_eq_lowercase (a b : string) :
  strcasecmp_eq a b = String.eqb (lowercase a) (lowercase b).
Proof.
  revert b. induction a as [| x a IH]; intros [| y b]; cbn [strcasecmp_eq lowercase];
    try reflexivity.
  cbn [String.eqb]. rewrite IH.
  destruct (Ascii.eqb (tolower x) (tolower y)); reflexivity.
Qed.

(** X1: the nested tests of [main] on the server mode and the server
    command give an action other than [NO_ACTION] exactly for the eight
    pairs of the command grammar, read without regard to case, and give
    the action of the pair. *)
Theorem action_of_follows_the_grammar (server_mode server_cmd : string)
    (action : command_action) :
  (exists mode cmd,
      In (mode, cmd, action) command_grammar
      /\ lowercase server_mode = mode
      /\ lowercase server_cmd = cmd)
  <-> action_of server_mode server_cmd = action /\ action <> NO_ACTION.
Proof.
  unfold action_of. rewrite !strcasecmp_eq_lowercase.
  change (lowercase "MASTER") with "master".
  change (lowercase "STANDBY") with "standby".
  change (lowercase "CLUSTER") with "cluster".
  change (lowercase "WITNESS") with "witness".
  change (lowercase "REGISTER") with "register".
  change (lowercase "CLONE") with "clone".
  change (lowercase "PROMOTE") with "promote".
  change (lowercase "FOLLOW") with "follow".
  change (lowercase "SHOW") with "show".
  change (lowercase "CLEANUP") with "cleanup".
  change (lowercase "CREATE") with "create".
  split.
  - intros (mode & cmd & Hin & Hm & Hc).
    rewrite Hm, Hc. clear Hm Hc.
    cbn in Hin.
    repeat (destruct Hin as [Hin | Hin];
            [inversion Hin; subst mode cmd action; clear Hin;
             split; [reflexivity | discriminate] | ]).
    contradiction.
  - intros [Hact Hno].
    exists (lowercase server_mode), (lowercase server_cmd).
    split; [ | split; reflexivity].
    revert Hact.
    repeat match goal with
           | |- context [String.eqb ?a ?b] =>
               destruct (String.eqb_spec a b) as [-> | ?]
           end;
      intros <-; try (contradiction Hno; reflexivity);
      cbn; auto 10.
Qed.

Section Parameters.

Variable MAXLEN : nat.
Variable progname : string.
Variable runtime_rest : t_runtime_options_rest.

Lemma no_parameters_wanted_spec (command : string) (w : world) :
  exists added,
    no_parameters_wanted progname runtime_rest command w
    = (Returns (no_parameters_given (runtime_options w) runtime_rest),
       add_events added w)
    /\ forallb is_log added = true.
Proof.
  unfold no_parameters_wanted, no_parameters_given, usage. run.
  destruct (is_empty (host (runtime_options w))),
    (is_empty (masterport (runtime_options w))),
    (is_empty (username (runtime_options w))),
    (is_empty (dbname runtime_rest)),
    (is_empty (dest_dir runtime_rest)); cbn [negb orb andb]; run;
    first [ eexists; rewrite <- ?app_assoc; split; reflexivity
          | exists []; unfold add_events; rewrite app_nil_r; destruct w;
            split; reflexivity ].
Qed.

(** What [check_parameters_for_action] gives, for every action. *)
Lemma check_parameters_for_action_gives (action : command_action)
    (need_a_node : bool) (w : world) :
  exists added,
    check_parameters_for_action progname runtime_rest action need_a_node w
    = (Returns (negb (wants_no_parameters action)
                || no_parameters_given (runtime_options w) runtime_rest,
                need_a_node && negb (is_action action STANDBY_CLONE)),
       add_events added w)
    /\ forallb is_log added = true.
Proof.
  assert (Hnone : forall (a : bool * bool),
             exists added : list event,
               ret a w = (Returns a, add_events added w)
               /\ forallb is_log added = true).
  { intros a. exists []. unfold ret, add_events. rewrite app_nil_r.
    destruct w; auto. }
  destruct action; cbn [check_parameters_for_action wants_no_parameters negb orb
                        is_action andb];
    rewrite ?andb_true_r, ?andb_false_r; try apply Hnone.
  all: match goal with
       | |- context [no_parameters_wanted _ _ ?c] =>
           destruct (no_parameters_wanted_spec c w) as (added & Hrun & Hlog)
       end;
    exists added; unfold bind at 1; rewrite Hrun; unfold ret;
    rewrite ?app_nil_r; auto.
Qed.

(** X2: [check_parameters_for_action] never leaves the program and does
    nothing but write messages.  It refuses the parameters exactly when
    the action is one of MASTER REGISTER, STANDBY REGISTER, STANDBY
    PROMOTE and STANDBY FOLLOW and a host, a port, a user name, a
    database name or a destination directory was given; [need_a_node]
    is cleared by STANDBY CLONE and kept by every other action. *)
Theorem parameters_are_refused_for_registry_actions (action : command_action)
    (need_a_node : bool) (w : world) :
  exists added,
    check_parameters_for_action progname runtime_rest action need_a_node w
    = (Returns (negb (wants_no_parameters action)
                || no_parameters_given (runtime_options w) runtime_rest,
                need_a_node && negb (is_action action STANDBY_CLONE)),
       add_events added w)
    /\ forallb is_log added = true.
Proof.
  exact (check_parameters_for_action_gives action need_a_node w).
Qed.

(** The end of [main_action]: no argument is left. *)
Lemma checked_action_returns (action a : command_action) (need : bool) (w w' : world) :
  (' (ok, need_a_node) <- check_parameters_for_action progname runtime_rest action true;;
   if negb ok then exit ERR_BAD_CONFIG else ret (action, need_a_node)) w
  = (Returns (a, need), w') ->
  a = action
  /\ need = negb (is_action action STANDBY_CLONE)
  /\ (wants_no_parameters action = true ->
      no_parameters_given (runtime_options w) runtime_rest = true)
  /\ runtime_options w' = runtime_options w.
Proof.
  destruct (check_parameters_for_action_gives action true w) as (added & Hrun & _).
  unfold bind at 1. rewrite Hrun.
  destruct (wants_no_parameters action); cbn [negb orb andb].
  - destruct (no_parameters_given (runtime_options w) runtime_rest);
      cbn [negb]; intros H; inversion H; subst; auto.
  - intros H; inversion H; subst. split; [reflexivity | ].
    split; [reflexivity | ]. split; [discriminate | reflexivity].
Qed.

(** X3: when [main] accepts its arguments, they are a server mode and a
    server command that stand for an action, and nothing else; only
    STANDBY CLONE may be followed by one more argument, the node, which
    then becomes the host, and only when no host was given with -h.  A
    node after STANDBY FOLLOW is not accepted.  The actions that take no
    parameter are accepted only when none was given, and only STANDBY
    CLONE goes on without the configuration of a node. *)
Theorem main_action_accepts (args : list string) (action : command_action)
    (need_a_node : bool) (w w' : world) :
  main_action MAXLEN progname runtime_rest args w
  = (Returns (action, need_a_node), w') ->
  exists server_mode server_cmd,
    action = action_of server_mode server_cmd
    /\ action <> NO_ACTION
    /\ need_a_node = negb (is_action action STANDBY_CLONE)
    /\ (wants_no_parameters action = true ->
        no_parameters_given (runtime_options w) runtime_rest = true)
    /\ (args = [server_mode; server_cmd]
        /\ runtime_options w' = runtime_options w
        \/ exists node_arg,
             args = [server_mode; server_cmd; node_arg]
             /\ action = STANDBY_CLONE
             /\ is_empty (host (runtime_options w)) = true
             /\ runtime_options w'
                = mkRuntime (strncpy_MAXLEN MAXLEN node_arg)
                    (masterport (runtime_options w))
                    (username (runtime_options w))
                    (wal_keep_segments (runtime_options w))
                    (min_recovery_apply_delay (runtime_options w))
                    (force (runtime_options w))
                    (wait_for_master (runtime_options w))
                    (keep_history (runtime_options w))).
Proof.
  unfold main_action, usage.
  destruct args as [| server_mode args].
  { run. intros H. discriminate H. }
  destruct (negb (strcasecmp_eq server_mode "STANDBY")
            && negb (strcasecmp_eq server_mode "MASTER")
            && negb (strcasecmp_eq server_mode "WITNESS")
            && negb (strcasecmp_eq server_mode "CLUSTER")).
  { run. intros H. discriminate H. }
  destruct args as [| server_cmd args].
  { run. intros H. discriminate H. }
  unfold bind at 1. unfold ret at 1.
  unfold bind at 1. unfold ret at 1.
  intros H. exists server_mode, server_cmd.
  destruct (action_of server_mode server_cmd) eqn:Haction;
    cbn [is_action] in H;
    try (run_in H; discriminate H).
  all: try (destruct args as [| extra args]; [ | run_in H; discriminate H];
            unfold bind at 1 in H; unfold ret at 1 in H;
            unfold bind at 1 in H; unfold ret at 1 in H;
            apply checked_action_returns in H as (-> & -> & Hno & Hro);
            split; [reflexivity | ]; split; [discriminate | ];
            split; [reflexivity | ]; split; [exact Hno | ];
            left; split; [reflexivity | exact Hro]).
  (* STANDBY CLONE *)
  destruct args as [| node_arg args].
  - unfold bind at 1 in H. unfold ret at 1 in H.
    unfold bind at 1 in H. unfold ret at 1 in H.
    apply checked_action_returns in H as (-> & -> & Hno & Hro).
    split; [reflexivity | ]. split; [discriminate | ].
    split; [reflexivity | ]. split; [exact Hno | ].
    left. split; [reflexivity | exact Hro].
  - unfold bind at 1 in H. unfold ret at 1 in H.
    unfold bind at 1 in H.
    destruct (is_empty (host (runtime_options w))) eqn:Hhost.
    2:{ run_in H. rewrite Hhost in H. cbn [negb] in H. discriminate H. }
    destruct args as [| extra args].
    2:{ run_in H. rewrite Hhost in H. cbn [negb] in H. discriminate H. }
    match type of H with
    | match ?c w with _ => _ end = _ =>
        assert (Hset : c w
                = (Returns [],
                   mkWorld (moment w) (clock w)
                     (mkRuntime (strncpy_MAXLEN MAXLEN node_arg)
                        (masterport (runtime_options w))
                        (username (runtime_options w))
                        (wal_keep_segments (runtime_options w))
                        (min_recovery_apply_delay (runtime_options w))
                        (force (runtime_options w))
                        (wait_for_master (runtime_options w))
                        (keep_history (runtime_options w)))
                     (dbs w) (files w) (trace w)))
          by (run; rewrite Hhost; reflexivity);
        rewrite Hset in H; clear Hset
    end.
    apply checked_action_returns in H as (-> & -> & Hno & Hro).
    split; [reflexivity | ]. split; [discriminate | ].
    split; [reflexivity | ]. split; [intros Hf; discriminate Hf | ].
    right. exists node_arg. split; [reflexivity | ].
    split; [reflexivity | ]. split; [reflexivity | exact Hro].
Qed.

End Parameters.

Lemma main_action_accepts_witness :
  let run :=
    main_action 1024 "repmgr" no_runtime_rest ["standby"; "clone"; "node1"]
      started_world in
  fst run = Returns (STANDBY_CLONE, false)
  /\ host (runtime_options (snd run)) = "node1"
  /\ exists server_mode server_cmd,
       STANDBY_CLONE = action_of server_mode server_cmd
       /\ ["standby"; "clone"; "node1"] <> [server_mode; server_cmd].
Proof.
  split; [reflexivity | ]. split; [reflexivity | ].
  destruct (main_action_accepts 1024 "repmgr" no_runtime_rest
              ["standby"; "clone"; "node1"] STANDBY_CLONE false started_world
              (snd (main_action 1024 "repmgr" no_runtime_rest
                      ["standby"; "clone"; "node1"] started_world))
              eq_refl)
    as (server_mode & server_cmd & Haction & _ & _ & _ & Hargs).
  exists server_mode, server_cmd. split; [exact Haction | ].
  destruct Hargs as [[Hargs _] | (node_arg & Hargs & _)];
    [discriminate Hargs | ].
  inversion Hargs. discriminate.
Defined.

(** ** The programs run for STANDBY CLONE *)

Lemma string_length_app (a b : string) :
  String.length (a ++ b) = (String.length a + String.length b)%nat.
Proof.
  induction a as [| x a IH]; cbn; [reflexivity | ].
  rewrite IH. reflexivity.
Qed.

Lemma maxlen_snprintf_fits (MAXLEN : nat) (text : string) (w : world) :
  (String.length text < MAXLEN)%nat ->
  maxlen_snprintf MAXLEN text w = (Returns text, w).
Proof.
  intros H. unfold maxlen_snprintf.
  apply Nat.ltb_lt in H. rewrite H. reflexivity.
Qed.

Section Commands.

Variable o : outside.
Variable MAXLEN : nat.
Variable options_rest : t_configuration_options_rest.
Variable runtime_rest : t_runtime_options_rest.
Variable pg_bindir : string.

(** X4: [test_ssh_connection] tries /bin/true on the remote host and
    tries /usr/bin/true only when the first attempt failed; it returns 0
    when one of the two succeeded and the status of the second attempt
    otherwise.  It runs no other script and changes no database and no
    file. *)
Theorem test_ssh_connection_stops_at_first_success
    (host remote_user : string) (w : world) :
  let first := ssh_probe options_rest host remote_user "/bin/true" in
  let second := ssh_probe options_rest host remote_user "/usr/bin/true" in
  (String.length first < MAXLEN)%nat ->
  (String.length second < MAXLEN)%nat ->
  exists w',
    test_ssh_connection o MAXLEN options_rest host remote_user w
    = (Returns (if system_rc o first =? 0 then 0 else system_rc o second), w')
    /\ scripts_run (trace w')
       = (scripts_run (trace w)
          ++ if system_rc o first =? 0 then [first] else [first; second])%list
    /\ dbs w' = dbs w
    /\ files w' = files w.
Proof.
  cbv zeta. intros Hfirst Hsecond.
  assert (Hscript : forall truebin,
             (if is_empty remote_user then
                maxlen_snprintf MAXLEN
                  ("ssh -o Batchmode=yes " ++ ssh_options options_rest ++ " " ++ host
                   ++ " " ++ truebin)
              else
                maxlen_snprintf MAXLEN
                  ("ssh -o Batchmode=yes " ++ ssh_options options_rest ++ " " ++ host
                   ++ " -l " ++ remote_user ++ " " ++ truebin))
             = maxlen_snprintf MAXLEN (ssh_probe options_rest host remote_user truebin)).
  { intros truebin. unfold ssh_probe. destruct (is_empty remote_user).
    - reflexivity.
    - rewrite (string_app_assoc " -l "). reflexivity. }
  unfold test_ssh_connection.
  cbn [try_truebin_paths Z.eqb negb]. rewrite !Hscript. clear Hscript.
  set (first := ssh_probe options_rest host remote_user "/bin/true") in *.
  set (second := ssh_probe options_rest host remote_user "/usr/bin/true") in *.
  unfold bind at 1. unfold bind at 1. unfold bind at 1.
  rewrite (maxlen_snprintf_fits _ _ _ Hfirst).
  unfold bind at 1. unfold log_debug at 1, emit at 1.
  unfold bind at 1. unfold system at 1.
  cbn [moment clock dbs files trace runtime_options].
  destruct (system_rc o first =? 0) eqn:Hrc; cbn [negb].
  - apply Z.eqb_eq in Hrc. rewrite Hrc. run. eexists.
    split; [reflexivity | ]. cbn [trace dbs files].
    rewrite !scripts_run_app. cbn [scripts_run app]. rewrite ?app_nil_r, <- ?app_assoc. auto.
  - unfold bind at 1. unfold bind at 1.
    match goal with
    | |- context [maxlen_snprintf MAXLEN second ?w1] =>
        rewrite (maxlen_snprintf_fits MAXLEN second w1 Hsecond)
    end.
    run. unfold system. cbn [moment clock dbs files trace runtime_options].
    destruct (system_rc o second =? 0) eqn:Hrc2; cbn [negb]; run;
      eexists; (split; [reflexivity | ]); cbn [trace dbs files];
      rewrite !scripts_run_app; cbn [scripts_run app]; rewrite ?app_nil_r, <- ?app_assoc; auto.
Qed.


(** X5: [copy_remote_files] runs one rsync command and returns its
    status unchanged.  The command has the flags of the configuration
    file, or --archive --checksum --compress --progress --rsh=ssh when
    there are none; --delete after them exactly when the force flag is
    set; the remote user before the host exactly when one is given.  A
    status other than 0 is reported and nothing else is done. *)
Theorem copy_remote_files_runs_one_rsync
    (host remote_user remote_path local_path : string) (w : world) :
  let script :=
    rsync_command options_rest (force (runtime_options w)) host remote_user
      remote_path local_path in
  (String.length script < MAXLEN)%nat ->
  copy_remote_files o MAXLEN options_rest host remote_user remote_path local_path w
  = (Returns (system_rc o script),
     add_events
       (if system_rc o script =? 0 then []
        else [Log LOG_ERR
                ("Can't rsync from remote file ("
                 ++ (if is_empty remote_user then host else remote_user ++ "@" ++ host)
                 ++ ":" ++ remote_path ++ ")" ++ nl)])
       (after_script script
          (add_events [Log LOG_INFO ("rsync command line:  '" ++ script ++ "'" ++ nl)] w))).
Proof.
  cbv zeta. unfold rsync_command, copy_remote_files. intros Hfits.
  set (flags := if is_empty (rsync_options options_rest)
                then "--archive --checksum --compress --progress --rsh=ssh"
                else rsync_options options_rest) in *.
  set (host_string := if is_empty remote_user then host
                      else remote_user ++ "@" ++ host) in *.
  assert (Hflags : (String.length flags < MAXLEN)%nat).
  { rewrite !string_length_app in Hfits. lia. }
  assert (Hhost : (String.length host_string < MAXLEN)%nat).
  { rewrite !string_length_app in Hfits. lia. }
  unfold bind at 1.
  replace ((if is_empty (rsync_options options_rest)
            then maxlen_snprintf MAXLEN
                   "--archive --checksum --compress --progress --rsh=ssh"
            else maxlen_snprintf MAXLEN (rsync_options options_rest)) w)
    with (maxlen_snprintf MAXLEN flags w)
    by (subst flags; destruct (is_empty (rsync_options options_rest)); reflexivity).
  rewrite (maxlen_snprintf_fits _ _ _ Hflags).
  unfold bind at 1. unfold get_runtime_options at 1.
  unfold bind at 1.
  replace ((if is_empty remote_user then maxlen_snprintf MAXLEN host
            else maxlen_snprintf MAXLEN (remote_user ++ "@" ++ host)) w)
    with (maxlen_snprintf MAXLEN host_string w)
    by (subst host_string; destruct (is_empty remote_user); reflexivity).
  rewrite (maxlen_snprintf_fits _ _ _ Hhost).
  unfold bind at 1.
  replace ((if force (runtime_options w) then flags ++ " --delete" else flags))
    with (flags ++ (if force (runtime_options w) then " --delete" else ""))
    by (destruct (force (runtime_options w));
        [reflexivity | apply string_app_nil_r]).
  rewrite string_app_assoc.
  rewrite (maxlen_snprintf_fits _ _ _ Hfits).
  unfold system, after_script. run.
  destruct (system_rc o _ =? 0); cbn [negb]; run;
    rewrite ?app_nil_r; reflexivity.
Qed.

Lemma optional_parameter_appended (params flag value : string) :
  (if negb (is_empty value) then params ++ flag ++ value else params)
  = params ++ optional_parameter flag value.
Proof.
  unfold optional_parameter. destruct (is_empty value); cbn [negb];
    [rewrite string_app_nil_r | ]; reflexivity.
Qed.

(** X6: [run_basebackup] runs one pg_basebackup command, taken
    from the directory of the PostgreSQL programs, and returns its status
    unchanged.  The host, the port, the user and the destination
    directory are passed with -h, -p, -U and -D, in this order, each only
    when it is not empty; then every tablespace mapping with -T, in the
    order of the configuration file; then the options of the
    configuration file. *)
Theorem run_basebackup_runs_one_command (w : world) :
  let script :=
    basebackup_command pg_bindir (runtime_options w) runtime_rest options_rest in
  (String.length script < MAXLEN)%nat ->
  exists added,
    run_basebackup o MAXLEN options_rest runtime_rest pg_bindir w
    = (Returns (system_rc o script), add_events added (after_script script
         (add_events [Log LOG_INFO ("Executing: '" ++ script ++ "'" ++ nl)] w)))
    /\ forallb is_log added = true.
Proof.
  cbv zeta. unfold run_basebackup, make_pg_path. intros Hfits.
  unfold bind at 1. unfold get_runtime_options at 1.
  assert (Hpath : (String.length (pg_bindir ++ "pg_basebackup") < MAXLEN)%nat).
  { unfold basebackup_command in Hfits.
    rewrite !string_length_app in Hfits. rewrite string_length_app. lia. }
  unfold bind at 1. rewrite (maxlen_snprintf_fits _ _ _ Hpath).
  unfold bind at 1.
  rewrite !optional_parameter_appended.
  match goal with
  | |- context [maxlen_snprintf MAXLEN ?text w] =>
      replace text
        with (basebackup_command pg_bindir (runtime_options w) runtime_rest
                options_rest)
        by (unfold basebackup_command; cbn [append];
            repeat rewrite string_app_assoc; reflexivity)
  end.
  fold (basebackup_command pg_bindir (runtime_options w) runtime_rest options_rest)
    in Hfits |- *.
  rewrite (maxlen_snprintf_fits _ _ _ Hfits).
  unfold system, after_script. run.
  eexists. split; [reflexivity | reflexivity].
Qed.

End Commands.


Lemma test_ssh_connection_stops_at_first_success_witness :
  let o := with_scripts no_bin_true (cluster_outside node1_primary all_9_4 (Setting "5")) in
  let run := test_ssh_connection o 1024 no_options_rest "node1" "" started_world in
  fst run = Returns 0
  /\ scripts_run (trace (snd run))
     = ["ssh -o Batchmode=yes  node1 /bin/true";
        "ssh -o Batchmode=yes  node1 /usr/bin/true"].
Proof.
  destruct (test_ssh_connection_stops_at_first_success
              (with_scripts no_bin_true
                 (cluster_outside node1_primary all_9_4 (Setting "5")))
              1024 no_options_rest "node1" "" started_world)
    as (w' & Hrun & Hscripts & _).
  - apply Nat.ltb_lt. reflexivity.
  - apply Nat.ltb_lt. reflexivity.
  - cbv zeta. rewrite Hrun. cbn [fst snd]. rewrite Hscripts.
    split; reflexivity.
Defined.

Lemma copy_remote_files_runs_one_rsync_witness :
  let o := cluster_outside node1_primary all_9_4 (Setting "5") in
  let run :=
    copy_remote_files o 1024 no_options_rest "node1" "postgres"
      "/etc/postgresql/pg_hba.conf" "/data" started_world in
  fst run = Returns 0
  /\ scripts_run (trace (snd run))
     = ["rsync --archive --checksum --compress --progress --rsh=ssh postgres@node1:/etc/postgresql/pg_hba.conf /data"].
Proof.
  cbv zeta.
  rewrite (copy_remote_files_runs_one_rsync
             (cluster_outside node1_primary all_9_4 (Setting "5")) 1024
             no_options_rest "node1" "postgres" "/etc/postgresql/pg_hba.conf"
             "/data" started_world);
    [split; reflexivity | apply Nat.ltb_lt; reflexivity].
Defined.

Lemma run_basebackup_runs_one_command_witness :
  let o := cluster_outside node1_primary all_9_4 (Setting "5") in
  let options_rest := mkOptionsRest "" "" "" [("/old", "/new")] in
  let run :=
    run_basebackup o 1024 options_rest (mkRuntimeRest "" "/data" "") "/usr/bin/"
      first_world in
  fst run = Returns 0
  /\ scripts_run (trace (snd run))
     = ["/usr/bin/pg_basebackup -l " ++ dq ++ "repmgr base backup" ++ dq
        ++ "  -h node1 -U repmgr -D /data -T /old=/new "].
Proof.
  destruct (run_basebackup_runs_one_command
              (cluster_outside node1_primary all_9_4 (Setting "5")) 1024
              (mkOptionsRest "" "" "" [("/old", "/new")])
              (mkRuntimeRest "" "/data" "") "/usr/bin/" first_world)
    as (added & Hrun & Hlog).
  - apply Nat.ltb_lt. reflexivity.
  - cbv zeta. rewrite Hrun. cbn [fst snd]. split; [reflexivity | ].
    unfold add_events, after_script. cbn [trace].
    rewrite !scripts_run_app. clear Hrun.
    assert (Hlogs : forall l, forallb is_log l = true -> scripts_run l = []).
    { induction l as [| e l IH]; [reflexivity | ].
      destruct e; cbn; try discriminate; exact IH. }
    rewrite (Hlogs added Hlog). reflexivity.
Defined.

(** ** CLUSTER SHOW *)

Lemma printed_app (a b : list event) :
  printed (a ++ b) = printed a ++ printed b.
Proof.
  induction a as [| e a IH]; [reflexivity | ].
  destruct e as [level text | | | | | | | | ]; cbn [app printed]; try exact IH.
  destruct level; try exact IH.
  rewrite IH, string_app_assoc. reflexivity.
Qed.

Lemma connections_opened_app (a b : list event) :
  connections_opened (a ++ b)
  = (connections_opened a ++ connections_opened b)%list.
Proof.
  induction a as [| e a IH]; [reflexivity | ].
  destruct e; cbn; rewrite IH; reflexivity.
Qed.

Lemma connections_closed_app (a b : list event) :
  connections_closed (a ++ b)
  = (connections_closed a ++ connections_closed b)%list.
Proof.
  induction a as [| e a IH]; [reflexivity | ].
  destruct e; cbn; rewrite IH; reflexivity.
Qed.

Lemma statements_went_to_app (a b : list event) :
  statements_went_to (a ++ b)
  = (statements_went_to a ++ statements_went_to b)%list.
Proof.
  induction a as [| e a IH]; [reflexivity | ].
  destruct e; cbn; rewrite IH; reflexivity.
Qed.

Lemma servers_probed_app (a b : list event) :
  servers_probed (a ++ b) = (servers_probed a ++ servers_probed b)%list.
Proof.
  induction a as [| e a IH]; [reflexivity | ].
  destruct e; cbn; rewrite IH; reflexivity.
Qed.

Section Show.

Variable o : outside.
Variable progname : string.
Variable options : t_configuration_options.
Variable select_ok : PGconn -> bool.

(** The loop of [do_cluster_show] over the nodes. *)
Lemma show_nodes_spec (rows : list node_row) (w : world) :
  exists added,
    show_nodes o rows w = (Returns tt, add_events added w)
    /\ printed added = String.concat "" (map (show_line o (moment w)) rows)
    /\ connections_opened added = map col_conninfo rows
    /\ connections_closed added = map col_conninfo rows
    /\ servers_probed added
       = map col_conninfo (filter (asked_by_show o (moment w)) rows)
    /\ statements_sent added = []
    /\ scripts_run added = [].
Proof.
  revert w. induction rows as [| r rest IH]; intros w.
  - exists []. cbn. unfold ret, add_events. rewrite app_nil_r.
    destruct w; repeat split; reflexivity.
  - cbn [show_nodes]. unfold establish_db_connection, PQstatus_ok, is_standby. run.
    assert (Hstep : forall (role : string) (probe : list event),
               role = node_role o (moment w) r ->
               servers_probed probe
               = (if asked_by_show o (moment w) r then [col_conninfo r] else []) ->
               printed probe = "" -> connections_opened probe = [] ->
               connections_closed probe = [] -> statements_sent probe = [] ->
               scripts_run probe = [] ->
               exists added,
                 show_nodes o rest
                   (add_events
                      ([Connect (col_conninfo r)] ++ probe
                       ++ [Log STDOUT (left_justified_10 role);
                           Log STDOUT ("| " ++ col_conninfo r ++ nl);
                           PQfinish_ev (col_conninfo r)]) w)
                 = (Returns tt, add_events added w)
                 /\ printed added
                    = String.concat "" (map (show_line o (moment w)) (r :: rest))
                 /\ connections_opened added = map col_conninfo (r :: rest)
                 /\ connections_closed added = map col_conninfo (r :: rest)
                 /\ servers_probed added
                    = map col_conninfo (filter (asked_by_show o (moment w)) (r :: rest))
                 /\ statements_sent added = []
                 /\ scripts_run added = []).
    { intros role probe Hrole Hprobe Hp Ho Hc Hs Hr.
      match goal with
      | |- context [show_nodes o rest ?w1] =>
          destruct (IH w1) as (added & Hrun & Hprinted & Hopened & Hclosed & Hasked & Hsent & Hscripts)
      end.
      cbn [moment add_events] in Hprinted, Hasked.
      rewrite add_events_add_events in Hrun.
      eexists. split; [exact Hrun | ].
      rewrite !printed_app, !connections_opened_app, !connections_closed_app,
        !servers_probed_app, !statements_sent_app, !scripts_run_app.
      rewrite Hprinted, Hopened, Hclosed, Hasked, Hsent, Hscripts, Hprobe, Hp, Ho,
        Hc, Hs, Hr.
      cbn [printed connections_opened connections_closed servers_probed
           statements_sent scripts_run app map filter].
      unfold show_line at 2. rewrite <- Hrole.
      split.
      { cbn [String.concat append].
        destruct rest as [| r' rest'].
        - cbn [map String.concat]. rewrite !string_app_assoc, ?string_app_nil_r.
          reflexivity.
        - cbn [map]. rewrite !string_app_assoc. reflexivity. }
      split; [reflexivity | ]. split; [reflexivity | ].
      split; [ | split; reflexivity].
      destruct (asked_by_show o (moment w) r); reflexivity. }
    unfold node_role, asked_by_show in Hstep.
    destruct (connects o (col_conninfo r) (moment w)) eqn:Hconn;
      cbn [negb andb] in Hstep |- *; run; rewrite Hconn; cbn [negb].
    + destruct (String.eqb (col_type r) "witness") eqn:Hwitness; cbn [negb] in Hstep |- *.
      * run.
        destruct (Hstep "  witness" [] eq_refl eq_refl eq_refl eq_refl eq_refl eq_refl
                    eq_refl) as (added & Hrun & Hrest).
        exists added. split; [ | exact Hrest].
        refine (eq_trans _ Hrun). unfold add_events. cbn.
        rewrite <- ?app_assoc. reflexivity.
      * run.
        destruct (recovery o (col_conninfo r) (moment w)) eqn:Hrec;
          cbn [Z.eqb Pos.eqb negb]; run.
        -- destruct (Hstep "  standby" [Asked_is_standby (col_conninfo r) 1]
                       eq_refl eq_refl eq_refl eq_refl eq_refl eq_refl eq_refl)
             as (added & Hrun & Hrest).
           exists added. split; [ | exact Hrest].
           refine (eq_trans _ Hrun). unfold add_events. cbn.
           rewrite <- ?app_assoc. reflexivity.
        -- destruct (Hstep "* master" [Asked_is_standby (col_conninfo r) 0]
                       eq_refl eq_refl eq_refl eq_refl eq_refl eq_refl eq_refl)
             as (added & Hrun & Hrest).
           exists added. split; [ | exact Hrest].
           refine (eq_trans _ Hrun). unfold add_events. cbn.
           rewrite <- ?app_assoc. reflexivity.
        -- destruct (Hstep "  standby" [Asked_is_standby (col_conninfo r) (-1)]
                       eq_refl eq_refl eq_refl eq_refl eq_refl eq_refl eq_refl)
             as (added & Hrun & Hrest).
           exists added. split; [ | exact Hrest].
           refine (eq_trans _ Hrun). unfold add_events. cbn.
           rewrite <- ?app_assoc. reflexivity.
    + destruct (Hstep "  FAILED" [] eq_refl eq_refl eq_refl eq_refl eq_refl eq_refl
                  eq_refl) as (added & Hrun & Hrest).
      exists added. split; [ | exact Hrest].
      refine (eq_trans _ Hrun). unfold add_events. cbn.
      rewrite <- ?app_assoc. reflexivity.
Qed.


Lemma do_cluster_show_spec (w : world) :
  connects o (conninfo options) (moment w) = true ->
  select_ok (conninfo options) = true ->
  exists added,
    do_cluster_show o progname options select_ok w
    = (Returns tt, add_events added w)
    /\ printed added
       = ("Role      | Connection String " ++ nl)
         ++ String.concat ""
              (map (show_line o (moment w)) (repl_nodes (dbs w (conninfo options))))
    /\ connections_opened added
       = conninfo options :: map col_conninfo (repl_nodes (dbs w (conninfo options)))
    /\ connections_closed added
       = conninfo options :: map col_conninfo (repl_nodes (dbs w (conninfo options)))
    /\ servers_probed added
       = map col_conninfo
           (filter (asked_by_show o (moment w)) (repl_nodes (dbs w (conninfo options))))
    /\ statements_sent added = [SELECT_FROM_repl_nodes]
    /\ statements_went_to added = [conninfo options]
    /\ scripts_run added = [].
Proof.
  intros Hconn Hselect.
  unfold do_cluster_show, establish_db_connection. run. rewrite Hconn. run.
  rewrite Hselect. cbn [negb]. run.
  match goal with
  | |- context [show_nodes o ?rows ?w1] =>
      destruct (show_nodes_spec rows w1)
        as (added & Hrun & Hprinted & Hopened & Hclosed & Hasked & Hsent & Hscripts)
  end.
  cbn [moment] in Hprinted, Hasked.
  assert (Hto : statements_went_to added = []).
  { clear - Hsent. induction added as [| e added IH]; [reflexivity | ].
    destruct e; cbn in Hsent |- *; try (apply IH; exact Hsent). discriminate Hsent. }
  exists ([Log LOG_INFO (progname ++ " connecting to database" ++ nl);
           Connect (conninfo options);
           PQexec_ev (conninfo options) SELECT_FROM_repl_nodes true;
           PQfinish_ev (conninfo options);
           Log STDOUT ("Role      | Connection String " ++ nl)] ++ added)%list.
  split.
  { refine (eq_trans Hrun _). unfold add_events. cbn [trace moment clock dbs files runtime_options].
    rewrite <- !app_assoc. reflexivity. }
  rewrite printed_app, connections_opened_app, connections_closed_app,
    servers_probed_app, statements_sent_app, statements_went_to_app, scripts_run_app.
  rewrite Hprinted, Hopened, Hclosed, Hasked, Hsent, Hto, Hscripts.
  cbn [printed connections_opened connections_closed servers_probed
       statements_sent statements_went_to scripts_run app].
  rewrite string_app_nil_r.
  repeat split; reflexivity.
Qed.

(** X7: when its own database can be reached and answers the query,
    [do_cluster_show] prints the heading and then one line for every
    record of the registry, in registry order and whatever the cluster of
    the record: the role in ten columns, then the connection string.  The
    role is FAILED for a node that cannot be reached, witness for a
    record of that type, and else master when the node answers that it is
    not in recovery and standby when it answers anything else, a lost
    connection included. *)
Theorem cluster_show_prints_every_node (w : world) :
  connects o (conninfo options) (moment w) = true ->
  select_ok (conninfo options) = true ->
  exists added,
    do_cluster_show o progname options select_ok w
    = (Returns tt, add_events added w)
    /\ printed added
       = ("Role      | Connection String " ++ nl)
         ++ String.concat ""
              (map (show_line o (moment w)) (repl_nodes (dbs w (conninfo options)))).
Proof.
  intros Hconn Hselect.
  destruct (do_cluster_show_spec w Hconn Hselect) as (added & Hrun & Hprinted & _).
  exists added. split; assumption.
Qed.

(** X8: [do_cluster_show] opens one connection to its own
    database and one to every record of the registry, and closes each of
    them, in the same order.  It sends one statement, the SELECT that
    reads the registry, on the connection to its own database.  It asks
    only the nodes that can be reached and are not witnesses whether they
    are standbys; it runs no script and leaves every database and file as
    it was. *)
Theorem cluster_show_closes_every_connection (w : world) :
  connects o (conninfo options) (moment w) = true ->
  select_ok (conninfo options) = true ->
  exists added,
    do_cluster_show o progname options select_ok w
    = (Returns tt, add_events added w)
    /\ connections_opened added
       = conninfo options :: map col_conninfo (repl_nodes (dbs w (conninfo options)))
    /\ connections_closed added = connections_opened added
    /\ statements_sent added = [SELECT_FROM_repl_nodes]
    /\ statements_went_to added = [conninfo options]
    /\ servers_probed added
       = map col_conninfo
           (filter (asked_by_show o (moment w)) (repl_nodes (dbs w (conninfo options))))
    /\ scripts_run added = [].
Proof.
  intros Hconn Hselect.
  destruct (do_cluster_show_spec w Hconn Hselect)
    as (added & Hrun & _ & Hopened & Hclosed & Hasked & Hsent & Hto & Hscripts).
  exists added. rewrite Hopened, Hclosed. repeat split; assumption.
Qed.

End Show.


Lemma cluster_show_prints_every_node_witness :
  let o := cluster_outside node1_primary all_9_4 (Setting "5") in
  let run := do_cluster_show o "repmgr" node1_options (fun _ => true) three_nodes_world in
  fst run = Returns tt
  /\ printed (trace (snd run))
     = "Role      | Connection String " ++ nl
       ++ "* master  | host=node1" ++ nl
       ++ "  standby | host=node2" ++ nl
       ++ "  witness | host=node3" ++ nl.
Proof.
  destruct (cluster_show_prints_every_node
              (cluster_outside node1_primary all_9_4 (Setting "5")) "repmgr"
              node1_options (fun _ => true) three_nodes_world eq_refl eq_refl)
    as (added & Hrun & Hprinted).
  cbv zeta. rewrite Hrun. cbn [fst snd]. split; [reflexivity | ].
  unfold add_events. cbn [trace three_nodes_world app]. exact Hprinted.
Defined.

Lemma cluster_show_closes_every_connection_witness :
  let o := cluster_outside node1_primary all_9_4 (Setting "5") in
  let run := do_cluster_show o "repmgr" node1_options (fun _ => true) three_nodes_world in
  fst run = Returns tt
  /\ connections_closed (trace (snd run)) = [node1; node1; node2; node3]
  /\ statements_sent (trace (snd run)) = [SELECT_FROM_repl_nodes]
  /\ servers_probed (trace (snd run)) = [node1; node2].
Proof.
  destruct (cluster_show_closes_every_connection
              (cluster_outside node1_primary all_9_4 (Setting "5")) "repmgr"
              node1_options (fun _ => true) three_nodes_world eq_refl eq_refl)
    as (added & Hrun & Hopened & Hclosed & Hsent & _ & Hprobed & _).
  cbv zeta. rewrite Hrun. cbn [fst snd]. split; [reflexivity | ].
  unfold add_events. cbn [trace three_nodes_world app].
  rewrite Hclosed, Hopened, Hsent, Hprobed. repeat split; reflexivity.
Defined.

(** ** The check of the upstream configuration *)

(** ** Commands that only write messages and ask for parameters *)

Lemma only_ret (P : event -> bool) {A : Type} (a : A) : only P (ret a).
Proof.
  intros w. exists []. unfold ret, add_events. cbn. rewrite app_nil_r.
  destruct w; auto.
Qed.

Lemma only_bind (P : event -> bool) {A B : Type} (c : M A) (k : A -> M B) :
  only P c -> (forall a, only P (k a)) -> only P (bind c k).
Proof.
  intros Hc Hk w. destruct (Hc w) as (e1 & H1 & P1). unfold bind.
  destruct (c w) as [[a | code | ] w1]; cbn [snd] in H1; subst w1.
  - destruct (Hk a (add_events e1 w)) as (e2 & H2 & P2).
    exists (e1 ++ e2)%list. rewrite H2, add_events_add_events.
    split; [reflexivity | ]. rewrite forallb_app, P1, P2. reflexivity.
  - exists e1. auto.
  - exists e1. auto.
Qed.

Lemma only_emit (P : event -> bool) (e : event) : P e = true -> only P (emit e).
Proof.
  intros He w. exists [e]. cbn. rewrite He. auto.
Qed.

Lemma only_get_runtime_options (P : event -> bool) : only P get_runtime_options.
Proof.
  intros w. exists []. unfold get_runtime_options, add_events. cbn.
  rewrite app_nil_r. destruct w; auto.
Qed.

Ltac only_step :=
  first
    [ apply only_ret
    | apply only_get_runtime_options
    | apply only_emit; reflexivity
    | apply only_bind; [ | intros ? ]
    | match goal with
      | |- only _ (if ?b then _ else _) => destruct b
      | |- only _ (when ?b _) => destruct b; unfold when
      end ].

Lemma check_upstream_config_only_checks (o : outside) (progname : string)
    (options : t_configuration_options) (conn : PGconn) (server_version_num : Z) :
  only is_check_event
       (check_upstream_config o progname options conn server_version_num false).
Proof.
  unfold check_upstream_config, check_wal_retention, guc_set, guc_set_typed,
    leave_if, log_err, log_notice.
  repeat only_step.
Qed.

Lemma check_events_are_quiet (added : list event) :
  forallb is_check_event added = true ->
  printed added = "" /\ connections_closed added = [].
Proof.
  induction added as [| e added IH]; [auto | ].
  cbn [forallb]. intros H. apply andb_prop in H as [He H].
  destruct (IH H) as [Hp Hc].
  destruct e as [level text | | | | | | | | ]; try discriminate He;
    [destruct level; try discriminate He | ]; cbn; auto.
Qed.

(** The answers of a probe are 1, 0 and -1. *)
Lemma guc_set_answer_cases (o : outside) (conn : PGconn)
    (parameter op value : string) :
  let a := guc_set_answer o conn parameter op value in
  a = 1 \/ a = 0 \/ a = -1.
Proof.
  cbv zeta. unfold guc_set_answer.
  destruct (pg_setting o conn parameter); auto.
  destruct (String.eqb op "="); auto.
  destruct (String.eqb value0 value); auto.
Qed.

Lemma guc_set_typed_answer_cases (o : outside) (conn : PGconn)
    (parameter op value datatype : string) :
  let a := guc_set_typed_answer o conn parameter op value datatype in
  a = 1 \/ a = 0 \/ a = -1.
Proof.
  cbv zeta. unfold guc_set_typed_answer.
  destruct (pg_setting o conn parameter); auto.
  destruct (String.eqb datatype "integer"); auto.
  destruct (integer_of value0); auto.
  destruct (integer_of value); auto.
  destruct (holds op z z0) as [[ | ] | ]; auto.
Qed.

Lemma not_failed_passes (a : Z) :
  a = 1 \/ a = 0 \/ a = -1 -> negb (failed a) = passes a.
Proof.
  intros [-> | [-> | ->]]; reflexivity.
Qed.

Lemma not_zero_passes_or_not_made (a : Z) :
  a = 1 \/ a = 0 \/ a = -1 -> negb (a =? 0) = passes a || (a =? -1).
Proof.
  intros [-> | [-> | ->]]; reflexivity.
Qed.

(** The value that [check_upstream_config] computes is true when every
    check passes, and also when the only check that does not pass is a
    probe of max_replication_slots that could not be made. *)
Lemma computed_config_ok_spec (o : outside) (options : t_configuration_options)
    (ro : t_runtime_options) (conn : PGconn) (server_version_num : Z) :
  computed_config_ok o options ro conn server_version_num
  = every_check_passes o options ro conn server_version_num
    || (other_checks_pass o conn
        && slot_probe_not_made o options conn server_version_num).
Proof.
  unfold computed_config_ok, every_check_passes, other_checks_pass,
    wal_retention_passes, slot_probe_not_made.
  rewrite !not_failed_passes
    by first [apply guc_set_answer_cases | apply guc_set_typed_answer_cases].
  rewrite not_zero_passes_or_not_made by apply guc_set_typed_answer_cases.
  destruct (use_replication_slots options), (server_version_num <? 90400);
    repeat match goal with
           | |- context [passes ?a] => destruct (passes a)
           end;
    try match goal with
        | |- context [?a =? -1] => destruct (a =? -1)
        end; reflexivity.
Qed.

Section CheckUpstream.

Variable o : outside.
Variable MIN_SUPPORTED_VERSION_NUM : Z.
Variable MIN_SUPPORTED_VERSION : string.
Variable progname : string.
Variable options : t_configuration_options.
Variable runtime_rest : t_runtime_options_rest.
Variable server_of_params : list (string * string) -> PGconn.

(** X9: once it has reached the upstream server,
    [do_check_upstream_config] never leaves with an error status: it
    returns whatever the server answers, also when the server is older
    than the oldest supported version, in which case the checks are made
    with the version -1.  It asks for every parameter of
    [check_upstream_config] and closes the connection.  It prints that no
    problem was found when every check passed, and also when the only
    check that did not pass is a probe of max_replication_slots that
    could not be made; in every other case it does not print it. *)
Theorem check_upstream_config_command_reports (w : world) :
  let upstream :=
    server_of_params [("host", host (runtime_options w));
                      ("port", masterport (runtime_options w));
                      ("dbname", dbname runtime_rest)] in
  let version := version_handed_on o MIN_SUPPORTED_VERSION_NUM upstream in
  connects o upstream (moment w) = true ->
  exists added,
    do_check_upstream_config o MIN_SUPPORTED_VERSION_NUM MIN_SUPPORTED_VERSION
      progname options runtime_rest server_of_params w
    = (Returns tt, add_events added w)
    /\ parameters_asked added = upstream_parameters options version
    /\ printed added
       = (if every_check_passes o options (runtime_options w) upstream version
             || (other_checks_pass o upstream
                 && slot_probe_not_made o options upstream version)
          then "No configuration problems found with the upstream server" ++ nl
          else "")
    /\ connections_closed added = [upstream].
Proof.
  cbv zeta. intros Hconn. rewrite <- computed_config_ok_spec.
  set (upstream := server_of_params _) in *.
  assert (Hcheck : forall (before : list event),
             parameters_asked before = [] -> printed before = "" ->
             connections_closed before = [] ->
             exists added,
               (config_ok <- check_upstream_config o progname options upstream
                               (version_handed_on o MIN_SUPPORTED_VERSION_NUM upstream)
                               false;;
                when config_ok
                  (emit (Log STDOUT
                           ("No configuration problems found with the upstream server"
                            ++ nl)));;
                PQfinish upstream) (add_events before w)
               = (Returns tt, add_events added w)
               /\ parameters_asked added
                  = upstream_parameters options
                      (version_handed_on o MIN_SUPPORTED_VERSION_NUM upstream)
               /\ printed added
                  = (if computed_config_ok o options (runtime_options w) upstream
                          (version_handed_on o MIN_SUPPORTED_VERSION_NUM upstream)
                     then "No configuration problems found with the upstream server" ++ nl
                     else "")
               /\ connections_closed added = [upstream]).
  { intros before Hb1 Hb2 Hb3.
    set (version := version_handed_on o MIN_SUPPORTED_VERSION_NUM upstream).
    destruct (check_upstream_config_asks_every_parameter o progname options upstream
                version (runtime_options w) (add_events before w) eq_refl)
      as (asked & Hrun & Hasked).
    destruct (check_upstream_config_only_checks o progname options upstream version
                (add_events before w))
      as (asked' & Hsnd & Hquiet).
    rewrite Hrun in Hsnd. cbn [snd] in Hsnd.
    assert (asked' = asked) as ->.
    { unfold add_events in Hsnd. inversion Hsnd as [Htrace].
      apply app_inv_head in Htrace. symmetry. exact Htrace. }
    destruct (check_events_are_quiet asked Hquiet) as [Hp Hc].
    unfold bind at 1. rewrite Hrun.
    fold (computed_config_ok o options (runtime_options w) upstream version).
    fold (upstream_parameters options version) in Hasked.
    destruct (computed_config_ok o options (runtime_options w) upstream version);
      run; eexists; rewrite <- ?app_assoc;
      (split; [reflexivity | ]);
      rewrite !parameters_asked_app, !printed_app, !connections_closed_app,
        Hb1, Hb2, Hb3, Hasked, Hp, Hc; cbn;
      rewrite ?app_nil_r; repeat split; reflexivity. }
  unfold do_check_upstream_config, establish_db_connection_by_params,
    establish_db_connection, check_server_version, get_server_version.
  unfold version_handed_on in Hcheck |- *.
  run. cbn [combine]. fold upstream. rewrite Hconn.
  destruct (server_version_num o upstream <? MIN_SUPPORTED_VERSION_NUM); run.
  - destruct (server_version_num o upstream >? 0); run.
    + destruct (Hcheck
                  [Log LOG_INFO (progname ++ " connecting to upstream server" ++ nl);
                   Connect upstream;
                   Log LOG_INFO (progname ++ " connected to upstream server, checking its state" ++ nl);
                   Log LOG_ERR (progname ++ " needs upstream server to be PostgreSQL "
                                ++ MIN_SUPPORTED_VERSION ++ " or better" ++ nl)]
                  eq_refl eq_refl eq_refl) as (added & Hrun & Hrest).
      exists added. split; [ | exact Hrest].
      rewrite <- ?app_assoc. cbn [app]. exact Hrun.
    + destruct (Hcheck
                  [Log LOG_INFO (progname ++ " connecting to upstream server" ++ nl);
                   Connect upstream;
                   Log LOG_INFO (progname ++ " connected to upstream server, checking its state" ++ nl)]
                  eq_refl eq_refl eq_refl) as (added & Hrun & Hrest).
      exists added. split; [ | exact Hrest].
      rewrite <- ?app_assoc. cbn [app]. exact Hrun.
  - destruct (Hcheck
                [Log LOG_INFO (progname ++ " connecting to upstream server" ++ nl);
                 Connect upstream;
                 Log LOG_INFO (progname ++ " connected to upstream server, checking its state" ++ nl)]
                eq_refl eq_refl eq_refl) as (added & Hrun & Hrest).
    exists added. split; [ | exact Hrest].
    rewrite <- ?app_assoc. cbn [app]. exact Hrun.
Qed.

End CheckUpstream.


Lemma check_upstream_config_command_reports_witness :
  let old := cluster_outside node1_primary mixed_versions (Setting "5") in
  let lost := cluster_outside node1_primary all_9_4 QueryFailed in
  let run o :=
    do_check_upstream_config o 90400 "9.4" "repmgr" (node2_options true)
      no_runtime_rest server_of_host first_world in
  (fst (run old) = Returns tt
   /\ parameters_asked (trace (snd (run old)))
      = ["wal_level"; "archive_mode"; "hot_standby"; "max_wal_senders"]
   /\ printed (trace (snd (run old))) = "")
  /\ (fst (run lost) = Returns tt
      /\ parameters_asked (trace (snd (run lost)))
         = ["wal_level"; "max_replication_slots"; "archive_mode"; "hot_standby";
            "max_wal_senders"]
      /\ printed (trace (snd (run lost)))
         = "No configuration problems found with the upstream server" ++ nl).
Proof.
  cbv zeta. split.
  - destruct (check_upstream_config_command_reports
                (cluster_outside node1_primary mixed_versions (Setting "5")) 90400
                "9.4" "repmgr" (node2_options true) no_runtime_rest server_of_host
                first_world eq_refl)
      as (added & Hrun & Hasked & Hprinted & _).
    rewrite Hrun. cbn [fst snd]. unfold add_events.
    cbn [trace first_world app]. rewrite Hasked, Hprinted.
    split; [reflexivity | ]. split; reflexivity.
  - destruct (check_upstream_config_command_reports
                (cluster_outside node1_primary all_9_4 QueryFailed) 90400
                "9.4" "repmgr" (node2_options true) no_runtime_rest server_of_host
                first_world eq_refl)
      as (added & Hrun & Hasked & Hprinted & _).
    rewrite Hrun. cbn [fst snd]. unfold add_events.
    cbn [trace first_world app]. rewrite Hasked, Hprinted.
    split; [reflexivity | ]. split; reflexivity.
Defined.

(** ** The directory of the PostgreSQL programs *)

Lemma strncpy_MAXLEN_fits (MAXLEN : nat) (s : string) :
  (String.length s < MAXLEN)%nat -> strncpy_MAXLEN MAXLEN s = s.
Proof.
  unfold strncpy_MAXLEN. revert MAXLEN.
  induction s as [| c s IH]; intros [| n] H; cbn in H |- *; try reflexivity; try lia.
  rewrite IH; [reflexivity | lia].
Qed.

Lemma get_last_of_app (s : string) (c : ascii) :
  String.get (String.length s) (s ++ String c "") = Some c.
Proof.
  induction s as [| x s IH]; cbn; [reflexivity | exact IH].
Qed.

Lemma ends_with_slash_app (s : string) : ends_with_slash (s ++ "/") = true.
Proof.
  unfold ends_with_slash. rewrite string_length_app. cbn [String.length].
  replace (String.length s + 1 - 1)%nat with (String.length s) by lia.
  rewrite get_last_of_app. reflexivity.
Qed.

(** X10: the directory of the PostgreSQL programs is the one given
    on the command line, or else the one of the configuration file.
    When neither is given it stays empty; otherwise [main] makes it end
    with a slash: a directory that ends with a slash is kept as it is,
    with however many slashes it ends, and one slash is added to any
    other. *)
Theorem pg_bindir_ends_with_a_slash (MAXLEN : nat)
    (runtime_pg_bindir options_pg_bindir pg_bindir : string) (w w' : world) :
  let chosen :=
    if is_empty runtime_pg_bindir then options_pg_bindir else runtime_pg_bindir in
  (String.length runtime_pg_bindir < MAXLEN)%nat ->
  (String.length options_pg_bindir < MAXLEN)%nat ->
  main_pg_bindir MAXLEN runtime_pg_bindir options_pg_bindir w
  = (Returns pg_bindir, w') ->
  w' = w
  /\ (if is_empty chosen then pg_bindir = ""
      else ends_with_slash pg_bindir = true
           /\ pg_bindir = (if ends_with_slash chosen then chosen else chosen ++ "/")).
Proof.
  cbv zeta. intros Hr Hc. unfold main_pg_bindir.
  rewrite (strncpy_MAXLEN_fits _ _ Hc).
  assert (Hlen : forall s, (String.length s =? 0)%nat = is_empty s)
    by (intros [| c s]; reflexivity).
  rewrite !Hlen.
  set (chosen := if is_empty runtime_pg_bindir then options_pg_bindir
                 else runtime_pg_bindir).
  assert (Hchosen : (String.length chosen < MAXLEN)%nat)
    by (subst chosen; destruct (is_empty runtime_pg_bindir); assumption).
  destruct (is_empty chosen) eqn:Hempty; cbn [negb].
  - intros H. inversion H. auto.
  - unfold ends_with_slash at 2.
    rewrite (strncpy_MAXLEN_fits _ _ Hchosen).
    destruct (String.get (String.length chosen - 1) chosen) as [c | ] eqn:Hget.
    + destruct (Ascii.eqb_spec c "/") as [-> | Hne].
      * intros H. inversion H. subst. split; [reflexivity | ].
        split; [ | reflexivity]. unfold ends_with_slash. rewrite Hget. reflexivity.
      * assert (Hno : forall (A : Type) (a b : A),
                   match c with
                   | "/"%char => a
                   | _ => b
                   end = b).
        { intros A a b.
          destruct c as [[] [] [] [] [] [] [] []]; try reflexivity.
          contradiction Hne. reflexivity. }
        rewrite !Hno. intros H.
        unfold maxlen_snprintf in H.
        destruct (String.length (chosen ++ "/") <? MAXLEN)%nat; inversion H; subst.
        split; [reflexivity | ]. split; [apply ends_with_slash_app | reflexivity].
    + intros H. unfold maxlen_snprintf in H.
      destruct (String.length (chosen ++ "/") <? MAXLEN)%nat; inversion H; subst.
      split; [reflexivity | ]. split; [apply ends_with_slash_app | reflexivity].
Qed.

Lemma pg_bindir_ends_with_a_slash_witness :
  main_pg_bindir 1024 "" "/usr/lib/postgresql/9.4/bin" first_world
  = (Returns "/usr/lib/postgresql/9.4/bin/", first_world)
  /\ main_pg_bindir 1024 "/usr/bin//" "" first_world
     = (Returns "/usr/bin//", first_world)
  /\ ends_with_slash "/usr/lib/postgresql/9.4/bin/" = true
  /\ ends_with_slash "/usr/bin//" = true.
Proof.
  split; [reflexivity | ]. split; [reflexivity | ]. split.
  - apply (pg_bindir_ends_with_a_slash 1024 "" "/usr/lib/postgresql/9.4/bin"
             "/usr/lib/postgresql/9.4/bin/" first_world first_world).
    + apply Nat.ltb_lt. reflexivity.
    + apply Nat.ltb_lt. reflexivity.
    + reflexivity.
  - apply (pg_bindir_ends_with_a_slash 1024 "/usr/bin//" "" "/usr/bin//"
             first_world first_world).
    + apply Nat.ltb_lt. reflexivity.
    + apply Nat.ltb_lt. reflexivity.
    + reflexivity.
Defined.

(** ** The strict check of the upstream configuration *)

Section StrictCheck.

Variable o : outside.
Variable progname : string.
Variable options : t_configuration_options.

(** X11: with [exit_on_error] set, [check_upstream_config] never
    returns false.  It returns true when every check passes, and also
    when the only check that does not pass is a probe of
    max_replication_slots that could not be made; in every other case it
    leaves with [ERR_BAD_CONFIG]. *)
Theorem strict_upstream_check_never_returns_false
    (conn : PGconn) (server_version_num : Z) (w : world) :
  fst (check_upstream_config o progname options conn server_version_num true w)
  = (if every_check_passes o options (runtime_options w) conn server_version_num
        || (other_checks_pass o conn
            && slot_probe_not_made o options conn server_version_num)
     then Returns true
     else Exits ERR_BAD_CONFIG).
Proof.
  rewrite <- computed_config_ok_spec.
  pose proof (check_upstream_config_strict o progname options conn
                server_version_num (runtime_options w)) as H.
  cbv zeta in H. unfold computed_config_ok.
  destruct (negb (failed (guc_set_answer o conn "wal_level" "=" "hot_standby"))
            && (if use_replication_slots options then
                  if server_version_num <? 90400 then false
                  else negb (guc_set_typed_answer o conn "max_replication_slots"
                               ">" "1" "integer" =? 0)
                else negb (failed (guc_set_typed_answer o conn "wal_keep_segments"
                                     ">=" (wal_keep_segments (runtime_options w))
                                     "integer")))
            && negb (failed (guc_set_answer o conn "archive_mode" "=" "on"))
            && negb (failed (guc_set_answer o conn "hot_standby" "=" "on"))
            && negb (failed (guc_set_typed_answer o conn "max_wal_senders" ">" "0"
                               "integer")));
    destruct (H w eq_refl) as (added & Hrun & _); rewrite Hrun; reflexivity.
Qed.

End StrictCheck.

(** ** A recovery configuration that is not written out *)

Section RecoveryFileFailures.

Variable o : outside.
Variable MAXLEN : nat.
Variable progname : string.
Variable options : t_configuration_options.
Variable require_password : bool.
Variable repmgr_slot_name : string.


End RecoveryFileFailures.

(** ** What cleanup does to the history *)

Section CleanupEffects.

Variable o : outside.
Variable progname : string.
Variable options : t_configuration_options.

(** X13: a cluster cleanup that succeeds changes the history of
    the master and nothing else.  With a number of days to keep, the
    samples younger than that are kept and the others deleted; with
    none, the history is emptied.  The registry of the master and every
    other database are as they were. *)
Theorem cluster_cleanup_keeps_recent_history (w : world) (master_conn : PGconn) :
  let days := keep_history (runtime_options w) in
  let history_statement :=
    if days >? 0 then DELETE_FROM_repl_monitor days else TRUNCATE_repl_monitor in
  connects o (conninfo options) (moment w) = true ->
  first_primary o (moment w)
    (cluster_rows w (conninfo options) (cluster_name options)) = Some master_conn ->
  pq_ok o master_conn history_statement = true ->
  exists w',
    do_cluster_cleanup o progname options w = (Returns tt, w')
    /\ repl_monitor (dbs w' master_conn)
       = (if days >? 0
          then filter (fun m => col_age_days m <? days) (repl_monitor (dbs w master_conn))
          else [])
    /\ repl_nodes (dbs w' master_conn) = repl_nodes (dbs w master_conn)
    /\ (forall conn, conn <> master_conn -> dbs w' conn = dbs w conn).
Proof.
  cbv zeta. intros Hconn Hmaster Hcleaned.
  unfold do_cluster_cleanup, establish_db_connection, get_master_connection, PQexec.
  run. rewrite Hconn. run.
  match goal with
  | |- context [find_master o ?rows ?w1] =>
      destruct (find_master_spec o rows w1) as (added & Hrun & Hs & Hq)
  end.
  run_in Hrun. rewrite Hrun.
  fold (cluster_rows w (conninfo options) (cluster_name options)).
  rewrite Hmaster. run. rewrite Hcleaned. run.
  destruct (pq_ok o master_conn VACUUM_repl_monitor); run;
    eexists; (split; [reflexivity | ]); cbn [dbs];
    rewrite ?String.eqb_refl;
    (split; [destruct (keep_history (runtime_options w) >? 0); reflexivity | ]);
    (split; [destruct (keep_history (runtime_options w) >? 0); reflexivity | ]);
    intros conn Hother; apply String.eqb_neq in Hother; rewrite ?Hother;
    reflexivity.
Qed.

(** X14: when no registered node of the cluster reports
    that it is the master, cluster cleanup leaves with [ERR_DB_CON]
    without having sent a statement: the history is never cleaned on a
    standby. *)
Theorem cluster_cleanup_needs_a_master (w : world) :
  connects o (conninfo options) (moment w) = true ->
  first_primary o (moment w)
    (cluster_rows w (conninfo options) (cluster_name options)) = None ->
  exists added,
    do_cluster_cleanup o progname options w
    = (Exits ERR_DB_CON, add_events added w)
    /\ statements_sent added = [].
Proof.
  intros Hconn Hmaster.
  unfold do_cluster_cleanup, establish_db_connection, get_master_connection.
  run. rewrite Hconn. run.
  match goal with
  | |- context [find_master o ?rows ?w1] =>
      destruct (find_master_spec o rows w1) as (added & Hrun & Hs & Hq)
  end.
  run_in Hrun. rewrite Hrun.
  fold (cluster_rows w (conninfo options) (cluster_name options)).
  rewrite Hmaster. run.
  eexists. rewrite <- ?app_assoc. split; [reflexivity | ].
  rewrite !statements_sent_app, Hq. reflexivity.
Qed.

End CleanupEffects.

(** ** The schema *)

Section Schema.

Variable o : outside.
Variable get_repmgr_schema : string.
Variable get_repmgr_schema_quoted : string.

Lemma create_object_spec (conn : PGconn) (q : sql_command) (debug fatal : bool)
    (complaint : string) (w0 w : world) (sent : list sql_command) :
  object_created q <> [] ->
  after_statements conn sent [] w0 w ->
  exists w',
    create_object o conn q debug fatal complaint w
    = (if pq_ok o conn q then Returns true
       else if fatal then Exits ERR_BAD_CONFIG else Returns false, w')
    /\ (if pq_ok o conn q then after_statements conn (sent ++ [q]) [] w0 w'
        else after_statements conn sent [q] w0 w').
Proof.
  intros Hcreate
    (Hsent & Hto & Hobjects & Hnodes & Hmonitor & Hother & Hm & Hro & Hf & Hscr).
  rewrite app_nil_r in Hsent, Hto.
  unfold create_object, PQexec.
  destruct (pq_ok o conn q) eqn:Hok.
  - destruct debug; run; rewrite ?Hok; run; eexists; (split; [reflexivity | ]);
      unfold after_statements; cbn [trace dbs moment runtime_options files];
      rewrite !statements_sent_app, !statements_went_to_app, !scripts_run_app,
        ?String.eqb_refl, Hsent, Hto, Hscr;
      cbn [statements_sent statements_went_to scripts_run];
      rewrite ?app_nil_r, ?map_app, <- ?app_assoc;
      (split; [reflexivity | ]);
      (split; [reflexivity | ]);
      (split; [ destruct q; try (contradiction Hcreate; reflexivity);
                cbn [apply_sql schema_objects object_created];
                rewrite Hobjects, flat_map_app; cbn [flat_map object_created];
                rewrite <- ?app_assoc; reflexivity | ]);
      (split; [ destruct q; try (contradiction Hcreate; reflexivity);
                cbn [apply_sql repl_nodes]; exact Hnodes | ]);
      (split; [ destruct q; try (contradiction Hcreate; reflexivity);
                cbn [apply_sql repl_monitor]; exact Hmonitor | ]);
      (split; [ intros other Hne; pose proof Hne as Hne';
                apply String.eqb_neq in Hne'; rewrite Hne'; apply Hother; exact Hne | ]);
      auto.
  - destruct debug, fatal; run; rewrite ?Hok; run; eexists;
      (split; [reflexivity | ]);
      unfold after_statements; cbn [trace dbs moment runtime_options files];
      rewrite !statements_sent_app, !statements_went_to_app, !scripts_run_app,
        Hsent, Hto, Hscr;
      cbn [statements_sent statements_went_to scripts_run];
      rewrite ?app_nil_r, ?map_app, <- ?app_assoc;
      repeat split; auto.
Qed.

Lemma after_no_statement (conn : PGconn) (w : world) :
  after_statements conn [] [] w w.
Proof.
  unfold after_statements. cbn. rewrite !app_nil_r. repeat split; reflexivity.
Qed.

Ltac schema_step :=
  unfold bind at 1;
  match goal with
  | Hafter : after_statements ?conn ?sent [] ?w0 ?w1
    |- context [create_object o ?conn ?q ?debug ?fatal ?complaint ?w1] =>
      let w2 := fresh "w" in
      let Hrun := fresh "Hrun" in
      let Hnext := fresh "Hnext" in
      destruct (create_object_spec conn q debug fatal complaint w0 w1 sent
                  ltac:(discriminate) Hafter) as (w2 & Hrun & Hnext);
      rewrite Hrun; clear Hrun Hafter;
      destruct (pq_ok o conn q);
      [ cbn [app negb] in Hnext |- *
      | cbn [negb]; exists w2; split; [reflexivity | exact Hnext] ]
  end.

(** [create_schema]: the statements are sent in order until one is
    refused. *)
Lemma create_schema_spec (conn : PGconn) (w : world) :
  let statements := schema_statements get_repmgr_schema in
  exists w',
    create_schema o get_repmgr_schema get_repmgr_schema_quoted conn w
    = (match first_refused (pq_ok o conn) statements with
       | None => Returns true
       | Some (_, true) => Exits ERR_BAD_CONFIG
       | Some (_, false) => Returns false
       end, w')
    /\ after_statements conn
         (accepted_before_refusal (pq_ok o conn) statements)
         (match first_refused (pq_ok o conn) statements with
          | None => []
          | Some (q, _) => [q]
          end)
         w w'.
Proof.
  cbv zeta. unfold create_schema.
  cbn [schema_statements first_refused accepted_before_refusal].
  pose proof (after_no_statement conn w) as Hafter.
  do 10 schema_step.
  eexists. split; [reflexivity | ].
  match goal with H : after_statements _ _ _ _ _ |- _ => exact H end.
Qed.

(** X15: [create_schema] sends its ten statements in order and
    stops at the first that the server refuses.  A refused schema, table,
    view or index ends the command with [ERR_BAD_CONFIG]; after a refused
    function [create_schema] returns false; it returns true when every
    statement was accepted.  Nothing is undone: the objects created
    before the refusal stay, and neither the registry nor the history is
    touched. *)
Theorem create_schema_stops_at_first_refusal (conn : PGconn) (w : world) :
  let statements := schema_statements get_repmgr_schema in
  exists w',
    create_schema o get_repmgr_schema get_repmgr_schema_quoted conn w
    = (match first_refused (pq_ok o conn) statements with
       | None => Returns true
       | Some (_, true) => Exits ERR_BAD_CONFIG
       | Some (_, false) => Returns false
       end, w')
    /\ after_statements conn
         (accepted_before_refusal (pq_ok o conn) statements)
         (match first_refused (pq_ok o conn) statements with
          | None => []
          | Some (q, _) => [q]
          end)
         w w'.
Proof.
  exact (create_schema_spec conn w).
Qed.

End Schema.

(** ** What MASTER REGISTER does to the registry *)

Section MasterRegisterEffects.

Variable o : outside.
Variable MIN_SUPPORTED_VERSION_NUM : Z.
Variable MIN_SUPPORTED_VERSION : string.
Variable NO_UPSTREAM_NODE : Z.
Variable MAXLEN : nat.
Variable progname : string.
Variable options : t_configuration_options.
Variable repmgr_slot_name : string.
Variable get_repmgr_schema : string.
Variable get_repmgr_schema_quoted : string.

Local Abbreviation conn := (conninfo options).
Local Abbreviation master_register :=
  (do_master_register o MIN_SUPPORTED_VERSION_NUM MIN_SUPPORTED_VERSION
     NO_UPSTREAM_NODE MAXLEN progname options repmgr_slot_name get_repmgr_schema
     get_repmgr_schema_quoted).

(** The record that [create_node_record] writes for a primary. *)
Lemma node_record_of_primary (w : world) :
  node_record NO_UPSTREAM_NODE options repmgr_slot_name w conn (node options)
    "primary" NO_UPSTREAM_NODE (cluster_name options) (node_name options) conn
    (priority options)
  = primary_record options.
Proof.
  unfold node_record, primary_record. rewrite Z.eqb_refl.
  change (String.eqb "primary" "standby") with false.
  rewrite andb_false_r. reflexivity.
Qed.

(** The record of a primary, when its texts are plain and the server
    accepts it. *)
Lemma create_primary_record (action : option string) (w : world) :
  plain_row (primary_record options) = true ->
  (String.length "NULL" < MAXLEN)%nat ->
  pq_ok o conn (INSERT_INTO_repl_nodes (values_of_row (primary_record options)))
  = true ->
  exists w',
    create_node_record o NO_UPSTREAM_NODE MAXLEN options repmgr_slot_name conn action
      (node options) "primary" NO_UPSTREAM_NODE (cluster_name options)
      (node_name options) conn (priority options) w
    = (Returns true, w')
    /\ statements_sent (trace w')
       = (statements_sent (trace w)
          ++ [INSERT_INTO_repl_nodes (values_of_row (primary_record options))])%list
    /\ repl_nodes (dbs w' conn)
       = (repl_nodes (dbs w conn) ++ [primary_record options])%list
    /\ schema_objects (dbs w' conn) = schema_objects (dbs w conn)
    /\ (forall other, other <> conn -> dbs w' other = dbs w other)
    /\ files w' = files w
    /\ scripts_run (trace w') = scripts_run (trace w).
Proof.
  intros Hplain Hfits Hok.
  pose proof (create_node_record_inserts o NO_UPSTREAM_NODE MAXLEN options
                repmgr_slot_name conn action (node options) "primary"
                NO_UPSTREAM_NODE (cluster_name options) (node_name options) conn
                (priority options) w) as Hrun.
  cbv zeta in Hrun. rewrite node_record_of_primary in Hrun.
  specialize (Hrun Hplain Hfits Hfits Hok).
  eexists. split; [exact Hrun | ].
  unfold after_insert. cbn [trace dbs files].
  rewrite !statements_sent_app, !scripts_run_app, String.eqb_refl.
  destruct action; cbn [statements_sent scripts_run app repl_nodes schema_objects];
    rewrite ?app_nil_r;
    (split; [reflexivity | ]); (split; [reflexivity | ]); (split; [reflexivity | ]);
    (split; [ | split; reflexivity]);
    intros other Hne; apply String.eqb_neq in Hne; rewrite Hne; reflexivity.
Qed.

(** X16: when the schema of the cluster has to be created and the
    server refuses one of the functions, MASTER REGISTER returns
    normally although it has registered nothing: the statements sent are
    those of [create_schema] up to the refused one, no record is
    inserted and the registry is as it was. *)
Theorem master_register_without_a_function_registers_nothing
    (q : sql_command) (w : world) :
  connects o conn (moment w) = true ->
  MIN_SUPPORTED_VERSION_NUM <= server_version_num o conn ->
  recovery o conn (moment w) = Primary ->
  existsb (String.eqb get_repmgr_schema) (schema_objects (dbs w conn)) = false ->
  first_refused (pq_ok o conn) (schema_statements get_repmgr_schema)
  = Some (q, false) ->
  exists w',
    master_register w = (Returns tt, w')
    /\ statements_sent (trace w')
       = (statements_sent (trace w)
          ++ accepted_before_refusal (pq_ok o conn)
               (schema_statements get_repmgr_schema)
          ++ [q])%list
    /\ repl_nodes (dbs w' conn) = repl_nodes (dbs w conn).
Proof.
  intros Hconn Hver Hrec Hschema Hrefused.
  apply Z.ltb_ge in Hver.
  unfold do_master_register, establish_db_connection, check_server_version,
    get_server_version, is_standby, check_cluster_schema.
  run. rewrite Hconn. run. rewrite Hver. run. rewrite Hrec.
  cbn [Z.eqb negb]. run. rewrite Hschema. cbn [andb negb]. run.
  match goal with
  | |- context [create_schema o _ _ conn ?w1] =>
      destruct (create_schema_spec o get_repmgr_schema get_repmgr_schema_quoted
                  conn w1) as (w2 & Hrun & Hafter)
  end.
  cbv zeta in Hrun, Hafter. rewrite Hrefused in Hrun, Hafter. rewrite Hrun.
  cbn [negb]. exists w2. split; [reflexivity | ].
  destruct Hafter as (Hsent & Hto & _ & Hnodes & _).
  cbn [trace dbs] in Hsent, Hnodes.
  rewrite Hsent, Hnodes, !statements_sent_app. cbn [statements_sent].
  rewrite ?app_nil_r. split; reflexivity.
Qed.

(** X17: on a server that has no schema of the cluster yet, a
    MASTER REGISTER whose statements are all accepted sends the ten
    statements of the schema and then one INSERT.  When the cluster, the
    name and the conninfo of the node are plain texts, the registry gains
    exactly one record: the node as a primary, with no upstream node and
    no replication slot, also when replication slots are in use.  No
    other database is touched. *)
Theorem master_register_creates_the_schema_and_the_record (w : world) :
  connects o conn (moment w) = true ->
  MIN_SUPPORTED_VERSION_NUM <= server_version_num o conn ->
  recovery o conn (moment w) = Primary ->
  existsb (String.eqb get_repmgr_schema) (schema_objects (dbs w conn)) = false ->
  first_refused (pq_ok o conn) (schema_statements get_repmgr_schema) = None ->
  plain_row (primary_record options) = true ->
  (String.length "NULL" < MAXLEN)%nat ->
  pq_ok o conn (INSERT_INTO_repl_nodes (values_of_row (primary_record options)))
  = true ->
  exists w',
    master_register w = (Returns tt, w')
    /\ statements_sent (trace w')
       = (statements_sent (trace w)
          ++ map fst (schema_statements get_repmgr_schema)
          ++ [INSERT_INTO_repl_nodes (values_of_row (primary_record options))])%list
    /\ repl_nodes (dbs w' conn)
       = (repl_nodes (dbs w conn) ++ [primary_record options])%list
    /\ In get_repmgr_schema (schema_objects (dbs w' conn))
    /\ (forall other, other <> conn -> dbs w' other = dbs w other).
Proof.
  intros Hconn Hver Hrec Hschema Hrefused Hplain Hfits Hinsert.
  apply Z.ltb_ge in Hver.
  unfold do_master_register, establish_db_connection, check_server_version,
    get_server_version, is_standby, check_cluster_schema.
  run. rewrite Hconn. run. rewrite Hver. run. rewrite Hrec.
  cbn [Z.eqb negb]. run. rewrite Hschema. cbn [andb negb]. run.
  match goal with
  | |- context [create_schema o _ _ conn ?w1] =>
      destruct (create_schema_spec o get_repmgr_schema get_repmgr_schema_quoted
                  conn w1) as (w2 & Hrun & Hafter)
  end.
  cbv zeta in Hrun, Hafter. rewrite Hrefused in Hrun, Hafter. rewrite Hrun.
  cbn [negb].
  assert (Haccepted : accepted_before_refusal (pq_ok o conn)
                        (schema_statements get_repmgr_schema)
                      = map fst (schema_statements get_repmgr_schema)).
  { revert Hrefused. generalize (schema_statements get_repmgr_schema).
    induction l as [| [q fatal] l IH]; [reflexivity | ].
    cbn. destruct (pq_ok o conn q); [ | discriminate].
    intros H. rewrite (IH H). reflexivity. }
  rewrite Haccepted in Hafter.
  destruct (create_primary_record (Some "master register") w2 Hplain Hfits Hinsert)
    as (w3 & Hrun3 & Hsent3 & Hnodes3 & Hobjects3 & Hother3 & _).
  rewrite Hrun3. cbn [negb].
  destruct Hafter as (Hsent & _ & Hobjects & Hnodes & _ & Hother & _).
  cbn [trace dbs] in Hsent, Hnodes, Hobjects, Hother.
  eexists. split; [reflexivity | ]. cbn [trace dbs].
  rewrite !statements_sent_app, Hsent3, Hsent, !statements_sent_app.
  cbn [statements_sent]. rewrite ?app_nil_r, <- ?app_assoc.
  split; [reflexivity | ].
  rewrite Hnodes3, Hnodes. split; [reflexivity | ].
  rewrite Hobjects3, Hobjects. split.
  { apply in_or_app. right. left. reflexivity. }
  intros other Hne. rewrite (Hother3 other Hne). apply Hother. exact Hne.
Qed.

(** X18: with the force flag, on an existing schema, MASTER
    REGISTER deletes the record of the node before it looks for a master
    in the registry.  When another registered node then reports that it
    is a master, the command leaves with [ERR_BAD_CONFIG] and the record
    of the node stays deleted. *)
Theorem master_register_force_deletes_before_it_looks_for_a_master
    (other_master : PGconn) (w : world) :
  connects o conn (moment w) = true ->
  MIN_SUPPORTED_VERSION_NUM <= server_version_num o conn ->
  recovery o conn (moment w) = Primary ->
  existsb (String.eqb get_repmgr_schema) (schema_objects (dbs w conn)) = true ->
  force (runtime_options w) = true ->
  pq_ok o conn (DELETE_FROM_repl_nodes (node options)) = true ->
  first_primary o (moment w)
    (filter (fun r => String.eqb (col_cluster r) (cluster_name options))
            (without_node (node options) (repl_nodes (dbs w conn))))
  = Some other_master ->
  exists w',
    master_register w = (Exits ERR_BAD_CONFIG, w')
    /\ statements_sent (trace w')
       = (statements_sent (trace w) ++ [DELETE_FROM_repl_nodes (node options)])%list
    /\ repl_nodes (dbs w' conn) = without_node (node options) (repl_nodes (dbs w conn)).
Proof.
  intros Hconn Hver Hrec Hschema Hforce Hdelete Hmaster.
  apply Z.ltb_ge in Hver.
  unfold do_master_register, establish_db_connection, check_server_version,
    get_server_version, is_standby, check_cluster_schema, get_master_connection,
    PQexec.
  run. rewrite Hconn. run. rewrite Hver. run. rewrite Hrec.
  cbn [Z.eqb negb]. run. rewrite Hschema, Hforce. cbn [andb negb]. run.
  rewrite Hdelete. cbn [negb]. run. rewrite String.eqb_refl. cbn [apply_sql repl_nodes].
  match goal with
  | |- context [find_master o ?rows ?w1] =>
      destruct (find_master_spec o rows w1) as (added & Hrun & Hs & Hq)
  end.
  run_in Hrun. rewrite Hrun. fold (without_node (node options) (repl_nodes (dbs w conn))).
  rewrite Hmaster. run.
  eexists. split; [reflexivity | ]. cbn [trace dbs].
  rewrite !statements_sent_app, Hq, String.eqb_refl. cbn [statements_sent repl_nodes].
  rewrite ?app_nil_r. split; reflexivity.
Qed.

(** X19: with the force flag, on an existing schema in which
    no other registered node reports that it is a master, MASTER
    REGISTER replaces the record of the node: it sends the DELETE and the
    INSERT and, when the cluster, the name and the conninfo of the node
    are plain texts, the registry is the old one without the records of
    the node, followed by the new record of the primary. *)
Theorem master_register_force_replaces_the_record (w : world) :
  connects o conn (moment w) = true ->
  MIN_SUPPORTED_VERSION_NUM <= server_version_num o conn ->
  recovery o conn (moment w) = Primary ->
  existsb (String.eqb get_repmgr_schema) (schema_objects (dbs w conn)) = true ->
  force (runtime_options w) = true ->
  pq_ok o conn (DELETE_FROM_repl_nodes (node options)) = true ->
  first_primary o (moment w)
    (filter (fun r => String.eqb (col_cluster r) (cluster_name options))
            (without_node (node options) (repl_nodes (dbs w conn))))
  = None ->
  plain_row (primary_record options) = true ->
  (String.length "NULL" < MAXLEN)%nat ->
  pq_ok o conn (INSERT_INTO_repl_nodes (values_of_row (primary_record options)))
  = true ->
  exists w',
    master_register w = (Returns tt, w')
    /\ statements_sent (trace w')
       = (statements_sent (trace w)
          ++ [DELETE_FROM_repl_nodes (node options);
              INSERT_INTO_repl_nodes (values_of_row (primary_record options))])%list
    /\ repl_nodes (dbs w' conn)
       = (without_node (node options) (repl_nodes (dbs w conn))
          ++ [primary_record options])%list.
Proof.
  intros Hconn Hver Hrec Hschema Hforce Hdelete Hmaster Hplain Hfits Hinsert.
  apply Z.ltb_ge in Hver.
  unfold do_master_register, establish_db_connection, check_server_version,
    get_server_version, is_standby, check_cluster_schema, get_master_connection,
    PQexec.
  run. rewrite Hconn. run. rewrite Hver. run. rewrite Hrec.
  cbn [Z.eqb negb]. run. rewrite Hschema, Hforce. cbn [andb negb]. run.
  rewrite Hdelete. cbn [negb]. run. rewrite String.eqb_refl. cbn [apply_sql repl_nodes].
  match goal with
  | |- context [find_master o ?rows ?w1] =>
      destruct (find_master_spec o rows w1) as (added & Hrun & Hs & Hq)
  end.
  run_in Hrun. rewrite Hrun. fold (without_node (node options) (repl_nodes (dbs w conn))).
  rewrite Hmaster. run. cbn [negb]. run.
  match goal with
  | |- context [create_node_record o _ _ _ _ _ ?action _ _ _ _ _ _ _ ?w2] =>
      destruct (create_primary_record action w2 Hplain Hfits Hinsert)
        as (w3 & Hrun3 & Hsent3 & Hnodes3 & _)
  end.
  rewrite Hrun3. cbn [negb].
  cbn [trace dbs] in Hsent3, Hnodes3. rewrite String.eqb_refl in Hnodes3.
  cbn [repl_nodes] in Hnodes3.
  eexists. split; [reflexivity | ]. cbn [trace dbs].
  rewrite !statements_sent_app, Hsent3, !statements_sent_app, Hq, Hnodes3.
  cbn [statements_sent]. rewrite ?app_nil_r, <- ?app_assoc.
  split; reflexivity.
Qed.

End MasterRegisterEffects.

(** ** What STANDBY REGISTER does to the registry *)

Section StandbyRegisterEffects.

Variable o : outside.
Variable MIN_SUPPORTED_VERSION_NUM : Z.
Variable MIN_SUPPORTED_VERSION : string.
Variable NO_UPSTREAM_NODE : Z.
Variable MAXLEN : nat.
Variable progname : string.
Variable options : t_configuration_options.
Variable repmgr_slot_name : string.
Variable get_repmgr_schema : string.

Local Abbreviation conn := (conninfo options).
Local Abbreviation standby_register :=
  (do_standby_register o MIN_SUPPORTED_VERSION_NUM MIN_SUPPORTED_VERSION
     NO_UPSTREAM_NODE MAXLEN progname options repmgr_slot_name get_repmgr_schema).

(** The record that [create_node_record] writes for a standby. *)
Lemma node_record_of_standby (master_conn : PGconn) (w : world) :
  node_record NO_UPSTREAM_NODE options repmgr_slot_name w master_conn
    (node options) "standby" (upstream_node options) (cluster_name options)
    (node_name options) conn (priority options)
  = standby_record NO_UPSTREAM_NODE options repmgr_slot_name
      (repl_nodes (dbs w master_conn)).
Proof.
  unfold node_record, standby_record, recorded_primary.
  change (String.eqb "standby" "standby") with true.
  rewrite andb_true_r. reflexivity.
Qed.

(** The record of a standby, when its texts are plain and fit and the
    master accepts it. *)
Lemma create_standby_record (master_conn : PGconn) (action : option string)
    (w : world) :
  let record :=
    standby_record NO_UPSTREAM_NODE options repmgr_slot_name
      (repl_nodes (dbs w master_conn)) in
  plain_row record = true ->
  (String.length (null_or_number (col_upstream_node_id record)) < MAXLEN)%nat ->
  (String.length (null_or_text (col_slot_name record)) < MAXLEN)%nat ->
  pq_ok o master_conn (INSERT_INTO_repl_nodes (values_of_row record)) = true ->
  exists w',
    create_node_record o NO_UPSTREAM_NODE MAXLEN options repmgr_slot_name master_conn
      action (node options) "standby" (upstream_node options)
      (cluster_name options) (node_name options) conn (priority options) w
    = (Returns true, w')
    /\ statements_sent (trace w')
       = (statements_sent (trace w)
          ++ [INSERT_INTO_repl_nodes (values_of_row record)])%list
    /\ statements_went_to (trace w')
       = (statements_went_to (trace w) ++ [master_conn])%list
    /\ repl_nodes (dbs w' master_conn)
       = (repl_nodes (dbs w master_conn) ++ [record])%list
    /\ (forall other, other <> master_conn -> dbs w' other = dbs w other)
    /\ files w' = files w
    /\ scripts_run (trace w') = scripts_run (trace w).
Proof.
  cbv zeta. intros Hplain Hup Hslot Hok.
  pose proof (create_node_record_inserts o NO_UPSTREAM_NODE MAXLEN options
                repmgr_slot_name master_conn action (node options) "standby"
                (upstream_node options) (cluster_name options) (node_name options)
                conn (priority options) w) as Hrun.
  cbv zeta in Hrun. rewrite node_record_of_standby in Hrun.
  specialize (Hrun Hplain Hup Hslot Hok).
  eexists. split; [exact Hrun | ].
  unfold after_insert. cbn [trace dbs files].
  rewrite !statements_sent_app, !statements_went_to_app, !scripts_run_app,
    String.eqb_refl.
  destruct action;
    cbn [statements_sent statements_went_to scripts_run app repl_nodes];
    rewrite ?app_nil_r;
    (split; [reflexivity | ]); (split; [reflexivity | ]); (split; [reflexivity | ]);
    (split; [ | split; reflexivity]);
    intros other Hne; apply String.eqb_neq in Hne; rewrite Hne; reflexivity.
Qed.

(** X20: when no registered node of the cluster reports that
    it is the master, STANDBY REGISTER leaves with [ERR_BAD_CONFIG]
    without having sent a statement or run a script: nothing is ever
    registered on the standby itself. *)
Theorem standby_register_needs_a_master (w : world) :
  connects o conn (moment w) = true ->
  MIN_SUPPORTED_VERSION_NUM <= server_version_num o conn ->
  recovery o conn (moment w) = Standby ->
  existsb (String.eqb get_repmgr_schema) (schema_objects (dbs w conn)) = true ->
  first_primary o (moment w) (cluster_rows w conn (cluster_name options)) = None ->
  exists added,
    standby_register w = (Exits ERR_BAD_CONFIG, add_events added w)
    /\ statements_sent added = []
    /\ scripts_run added = [].
Proof.
  intros Hconn Hver Hrec Hschema Hmaster.
  apply Z.ltb_ge in Hver.
  unfold do_standby_register, establish_db_connection, check_server_version,
    get_server_version, is_standby, check_cluster_schema, get_master_connection.
  run. rewrite Hconn. run. rewrite Hver. run. rewrite Hrec.
  cbn [Z.eqb Pos.eqb orb]. run. rewrite Hschema. cbn [negb]. run.
  match goal with
  | |- context [find_master o ?rows ?w1] =>
      destruct (find_master_spec o rows w1) as (added & Hrun & Hs & Hq)
  end.
  run_in Hrun. rewrite Hrun. fold (cluster_rows w conn (cluster_name options)).
  rewrite Hmaster. run.
  eexists. rewrite <- ?app_assoc. split; [reflexivity | ].
  rewrite !statements_sent_app, !scripts_run_app, Hs, Hq. split; reflexivity.
Qed.

(** X21: a STANDBY REGISTER that succeeds sends its statements
    on the connection to the master and on no other: the DELETE of the
    old record when the force flag is set, then the INSERT.  When the
    cluster, the name, the conninfo and the slot of the node are plain
    texts, the registry of the master is the old one, without the records
    of the node when forced, followed by the record of the standby; every
    other database is as it was.  The upstream node of the record is the
    one of the configuration file; when none is given it is the id that
    the registry of the master has for the primary of the cluster, which
    is the id of the master found when the registry has that master as
    the primary. *)
Theorem standby_register_writes_to_the_master_only
    (master_conn : PGconn) (w : world) :
  let registry :=
    if force (runtime_options w)
    then without_node (node options) (repl_nodes (dbs w master_conn))
    else repl_nodes (dbs w master_conn) in
  let record := standby_record NO_UPSTREAM_NODE options repmgr_slot_name registry in
  connects o conn (moment w) = true ->
  MIN_SUPPORTED_VERSION_NUM <= server_version_num o conn ->
  0 <= server_version_num o conn ->
  recovery o conn (moment w) = Standby ->
  existsb (String.eqb get_repmgr_schema) (schema_objects (dbs w conn)) = true ->
  first_primary o (moment w) (cluster_rows w conn (cluster_name options))
  = Some master_conn ->
  (force (runtime_options w) = true ->
   pq_ok o master_conn (DELETE_FROM_repl_nodes (node options)) = true) ->
  plain_row record = true ->
  (String.length (null_or_number (col_upstream_node_id record)) < MAXLEN)%nat ->
  (String.length (null_or_text (col_slot_name record)) < MAXLEN)%nat ->
  pq_ok o master_conn (INSERT_INTO_repl_nodes (values_of_row record)) = true ->
  exists w',
    standby_register w = (Returns tt, w')
    /\ repl_nodes (dbs w' master_conn) = (registry ++ [record])%list
    /\ statements_went_to (trace w')
       = (statements_went_to (trace w)
          ++ if force (runtime_options w) then [master_conn; master_conn]
             else [master_conn])%list
    /\ (forall other, other <> master_conn -> dbs w' other = dbs w other)
    /\ (upstream_node options <> NO_UPSTREAM_NODE ->
        col_upstream_node_id record = Some (upstream_node options))
    /\ (upstream_node options = NO_UPSTREAM_NODE ->
        forall p,
          find (fun r => String.eqb (col_cluster r) (cluster_name options)
                         && String.eqb (col_type r) "primary") registry
          = Some p ->
          col_conninfo p = master_conn ->
          col_upstream_node_id record = Some (col_id p)).
Proof.
  cbv zeta. intros Hconn Hver Hpos Hrec Hschema Hmaster Hdelete Hplain Hup Hslot Hinsert.
  assert (Hupstream :
            (upstream_node options <> NO_UPSTREAM_NODE ->
             col_upstream_node_id
               (standby_record NO_UPSTREAM_NODE options repmgr_slot_name
                  (if force (runtime_options w)
                   then without_node (node options) (repl_nodes (dbs w master_conn))
                   else repl_nodes (dbs w master_conn)))
             = Some (upstream_node options))
            /\ (upstream_node options = NO_UPSTREAM_NODE ->
                forall p,
                  find (fun r => String.eqb (col_cluster r) (cluster_name options)
                                 && String.eqb (col_type r) "primary")
                       (if force (runtime_options w)
                        then without_node (node options) (repl_nodes (dbs w master_conn))
                        else repl_nodes (dbs w master_conn))
                  = Some p ->
                  col_conninfo p = master_conn ->
                  col_upstream_node_id
                    (standby_record NO_UPSTREAM_NODE options repmgr_slot_name
                       (if force (runtime_options w)
                        then without_node (node options)
                               (repl_nodes (dbs w master_conn))
                        else repl_nodes (dbs w master_conn)))
                  = Some (col_id p))).
  { unfold standby_record. cbn [col_upstream_node_id]. split.
    - intros Hne. apply Z.eqb_neq in Hne. rewrite Hne. reflexivity.
    - intros Heq p Hp _. rewrite Heq, Z.eqb_refl, Hp. reflexivity. }
  apply Z.ltb_ge in Hver. apply Z.ltb_ge in Hpos.
  unfold do_standby_register, establish_db_connection, check_server_version,
    get_server_version, is_standby, check_cluster_schema, get_master_connection,
    versions_should_match, versions_match, PQexec.
  run. rewrite Hconn. run. rewrite Hver. run. rewrite Hrec.
  cbn [Z.eqb Pos.eqb orb]. run. rewrite Hschema. cbn [negb]. run.
  match goal with
  | |- context [find_master o ?rows ?w1] =>
      destruct (find_master_spec o rows w1) as (added & Hrun & Hs & Hq)
  end.
  run_in Hrun. rewrite Hrun. fold (cluster_rows w conn (cluster_name options)).
  rewrite Hmaster. run. rewrite ?Hver. run. rewrite Hpos. run.
  rewrite Z.eqb_refl. cbn [negb]. run.
  destruct (force (runtime_options w)) eqn:Hforce.
  - rewrite (Hdelete eq_refl). run. cbn [negb]. run.
    match goal with
    | |- context [create_node_record o _ _ _ _ _ ?action _ _ _ _ _ _ _ ?w2] =>
        destruct (create_standby_record master_conn action w2)
          as (w3 & Hrun3 & Hsent3 & Hto3 & Hnodes3 & Hother3 & _)
    end.
    { cbn [dbs]. rewrite String.eqb_refl. cbn [apply_sql repl_nodes].
      exact Hplain. }
    { cbn [dbs]. rewrite String.eqb_refl. cbn [apply_sql repl_nodes].
      exact Hup. }
    { cbn [dbs]. rewrite String.eqb_refl. cbn [apply_sql repl_nodes].
      exact Hslot. }
    { cbn [dbs]. rewrite String.eqb_refl. cbn [apply_sql repl_nodes].
      exact Hinsert. }
    rewrite Hrun3. cbn [negb]. run.
    cbn [trace dbs] in Hto3, Hnodes3, Hother3.
    rewrite String.eqb_refl in Hnodes3. cbn [apply_sql repl_nodes] in Hnodes3.
    eexists. split; [reflexivity | ]. cbn [trace dbs].
    rewrite !statements_went_to_app, Hto3, !statements_went_to_app.
    assert (Hnone : statements_went_to added = []).
    { clear - Hq. induction added as [| e added IH]; [reflexivity | ].
      destruct e; cbn in Hq |- *; try (apply IH; exact Hq). discriminate Hq. }
    rewrite Hnone. cbn [statements_went_to]. rewrite ?app_nil_r, <- ?app_assoc.
    split; [exact Hnodes3 | ]. split; [reflexivity | ].
    split; [ | exact Hupstream].
    intros other Hne. rewrite (Hother3 other Hne).
    apply String.eqb_neq in Hne. rewrite Hne. reflexivity.
  - run.
    match goal with
    | |- context [create_node_record o _ _ _ _ _ ?action _ _ _ _ _ _ _ ?w2] =>
        destruct (create_standby_record master_conn action w2 Hplain Hup Hslot Hinsert)
          as (w3 & Hrun3 & Hsent3 & Hto3 & Hnodes3 & Hother3 & _)
    end.
    rewrite Hrun3. cbn [negb]. run.
    cbn [trace dbs] in Hto3, Hnodes3, Hother3.
    eexists. split; [reflexivity | ]. cbn [trace dbs].
    rewrite !statements_went_to_app, Hto3, !statements_went_to_app.
    assert (Hnone : statements_went_to added = []).
    { clear - Hq. induction added as [| e added IH]; [reflexivity | ].
      destruct e; cbn in Hq |- *; try (apply IH; exact Hq). discriminate Hq. }
    rewrite Hnone. cbn [statements_went_to]. rewrite ?app_nil_r, <- ?app_assoc.
    split; [exact Hnodes3 | ]. split; [reflexivity | ].
    split; [ | exact Hupstream].
    intros other Hne. exact (Hother3 other Hne).
Qed.

End StandbyRegisterEffects.

(** ** What a command leaves alone *)

Lemma keeps_ret {X A : Type} (obs : world -> X) (a : A) : keeps obs (ret a).
Proof. intros w. reflexivity. Qed.

Lemma keeps_exit {X A : Type} (obs : world -> X) (code : errcode) :
  keeps obs (@exit A code).
Proof. intros w. reflexivity. Qed.

Lemma keeps_out_of_fuel {X A : Type} (obs : world -> X) :
  keeps obs (@out_of_fuel A).
Proof. intros w. reflexivity. Qed.

Lemma keeps_bind {X A B : Type} (obs : world -> X) (c : M A) (k : A -> M B) :
  keeps obs c -> (forall a, keeps obs (k a)) -> keeps obs (bind c k).
Proof.
  intros Hc Hk w. unfold bind. specialize (Hc w).
  destruct (c w) as [[a | code | ] w1]; cbn [snd] in Hc |- *.
  - rewrite (Hk a w1). exact Hc.
  - exact Hc.
  - exact Hc.
Qed.

Lemma slept_app (a b : list event) :
  slept (a ++ b) = (slept a ++ slept b)%list.
Proof.
  induction a as [| e a IH]; [reflexivity | ].
  destruct e; cbn; rewrite IH; reflexivity.
Qed.

(** The databases and the statements are kept by everything that is not
    a statement. *)
Lemma registries_kept_by_emit (e : event) :
  statements_sent [e] = [] -> keeps registries (emit e).
Proof.
  intros He w. unfold registries, emit. cbn [snd trace dbs].
  rewrite statements_sent_app, He, app_nil_r. reflexivity.
Qed.

Lemma registries_kept_by_sleep (seconds : Z) : keeps registries (sleep seconds).
Proof.
  intros w. unfold registries, sleep. cbn [snd trace dbs].
  rewrite statements_sent_app, app_nil_r. reflexivity.
Qed.

Lemma registries_kept_by_system (o : outside) (script : string) :
  keeps registries (system o script).
Proof.
  intros w. unfold registries, system. cbn [snd trace dbs].
  rewrite statements_sent_app, app_nil_r. reflexivity.
Qed.

Lemma sleeps_kept_by_emit (e : event) :
  slept [e] = [] -> keeps (fun w => slept (trace w)) (emit e).
Proof.
  intros He w. unfold emit. cbn [snd trace].
  rewrite slept_app, He, app_nil_r. reflexivity.
Qed.

Lemma sleeps_kept_by_system (o : outside) (script : string) :
  keeps (fun w => slept (trace w)) (system o script).
Proof.
  intros w. unfold system. cbn [snd trace].
  rewrite slept_app, app_nil_r. reflexivity.
Qed.

Lemma settings_kept_by_emit (e : event) :
  scripts_run [e] = [] -> keeps settings (emit e).
Proof.
  intros He w. unfold settings, emit. cbn [snd trace dbs files runtime_options].
  rewrite scripts_run_app, He, app_nil_r. reflexivity.
Qed.

Lemma options_and_scripts_kept_by_emit (e : event) :
  scripts_run [e] = [] -> keeps options_and_scripts (emit e).
Proof.
  intros He w. unfold options_and_scripts, emit. cbn [snd trace runtime_options].
  rewrite scripts_run_app, He, app_nil_r. reflexivity.
Qed.

Ltac keeps_base :=
  first
    [ apply keeps_ret
    | apply keeps_exit
    | apply keeps_out_of_fuel
    | apply registries_kept_by_sleep
    | apply registries_kept_by_system
    | apply registries_kept_by_emit; reflexivity
    | apply sleeps_kept_by_system
    | apply sleeps_kept_by_emit; reflexivity
    | apply settings_kept_by_emit; reflexivity
    | apply options_and_scripts_kept_by_emit; reflexivity
    | intros ?; reflexivity ].

Ltac keeps_step :=
  first
    [ apply keeps_bind; [ | intros ? ]
    | match goal with
      | |- keeps _ (if ?b then _ else _) => destruct b
      | |- keeps _ (when ?b _) => destruct b; unfold when
      | |- keeps _ (match ?x with _ => _ end) => destruct x
      end
    | keeps_base ].

Section Registries.

Variable o : outside.
Variable MIN_SUPPORTED_VERSION_NUM : Z.
Variable MIN_SUPPORTED_VERSION : string.
Variable MAXLEN : nat.
Variable progname : string.
Variable options : t_configuration_options.
Variable require_password : bool.
Variable repmgr_slot_name : string.
Variable pg_bindir : string.

Lemma registries_kept_by_find_master (rows : list node_row) :
  keeps registries (find_master o rows).
Proof.
  induction rows as [| r rest IH]; cbn [find_master]; unfold is_standby, PQfinish.
  - keeps_base.
  - repeat first [exact IH | keeps_step].
Qed.

Lemma registries_kept_by_discover_master (fuel : nat) :
  forall conn, keeps registries (discover_master o options fuel conn).
Proof.
  induction fuel as [| fuel IH]; intros conn; cbn [discover_master].
  - keeps_base.
  - unfold is_pgup, establish_db_connection, get_master_connection.
    repeat first [apply IH | apply registries_kept_by_find_master | keeps_step].
Qed.

Lemma registries_kept_by_promote_check_loop (fuel : nat) (conn : PGconn) :
  forall timeout interval i retval,
    keeps registries (promote_check_loop o fuel conn timeout interval i retval).
Proof.
  induction fuel as [| fuel IH]; intros timeout interval i retval;
    cbn [promote_check_loop]; unfold is_standby.
  - repeat keeps_step.
  - repeat first [apply IH | keeps_step].
Qed.

(** X22: STANDBY FOLLOW writes to no database.  However it
    ends and however long it waits for a master, it has sent none of the
    statements that change a registry or a history, and every database
    is as it was: the registry is not told that the standby follows a
    new master. *)
Theorem standby_follow_changes_no_registry (fuel : nat) (w : world) :
  let w' :=
    snd (do_standby_follow o MIN_SUPPORTED_VERSION_NUM MIN_SUPPORTED_VERSION
           MAXLEN progname options require_password repmgr_slot_name pg_bindir
           fuel w) in
  dbs w' = dbs w /\ statements_sent (trace w') = statements_sent (trace w).
Proof.
  cbv zeta.
  assert (H : keeps registries
                (do_standby_follow o MIN_SUPPORTED_VERSION_NUM
                   MIN_SUPPORTED_VERSION MAXLEN progname options require_password
                   repmgr_slot_name pg_bindir fuel)).
  { unfold do_standby_follow, establish_db_connection, check_server_version,
      get_server_version, is_standby, versions_should_match, get_pg_setting,
      create_recovery_file, write_recovery_file_line, or_return_false, fputs,
      fopen_w, fclose,
      write_primary_conninfo, getenv_PGPASSWORD, make_pg_path, maxlen_snprintf,
      log_info, log_err, log_notice, PQfinish.
    repeat first [apply registries_kept_by_discover_master | keeps_step]. }
  specialize (H w). unfold registries in H. inversion H. auto.
Qed.

(** X23: STANDBY PROMOTE writes to no database.  However
    it ends, it has sent none of the statements that change a registry
    or a history, and every database is as it was: after a promotion the
    record of the node still has the type it had. *)
Theorem standby_promote_changes_no_registry (w : world) :
  let w' :=
    snd (do_standby_promote o MIN_SUPPORTED_VERSION_NUM MIN_SUPPORTED_VERSION
           MAXLEN progname options pg_bindir w) in
  dbs w' = dbs w /\ statements_sent (trace w') = statements_sent (trace w).
Proof.
  cbv zeta.
  assert (H : keeps registries
                (do_standby_promote o MIN_SUPPORTED_VERSION_NUM
                   MIN_SUPPORTED_VERSION MAXLEN progname options pg_bindir)).
  { unfold do_standby_promote, promote_preconditions, promote_server,
      promote_confirmation, establish_db_connection, check_server_version,
      get_server_version, is_standby, get_master_connection, get_pg_setting,
      make_pg_path, maxlen_snprintf, log_info, log_err, log_notice, PQfinish.
    repeat first [ apply registries_kept_by_find_master
                 | apply registries_kept_by_promote_check_loop
                 | keeps_step ]. }
  specialize (H w). unfold registries in H. inversion H. auto.
Qed.




End Registries.

(** ** STANDBY FOLLOW and STANDBY PROMOTE that do not succeed *)

Section FollowAndPromoteFailures.

Variable o : outside.
Variable MIN_SUPPORTED_VERSION_NUM : Z.
Variable MIN_SUPPORTED_VERSION : string.
Variable MAXLEN : nat.
Variable progname : string.
Variable options : t_configuration_options.
Variable require_password : bool.
Variable repmgr_slot_name : string.
Variable pg_bindir : string.

Local Abbreviation conn := (conninfo options).

(** X25: without the wait flag STANDBY FOLLOW looks for a master
    once.  When the standby answers and no registered node of the
    cluster reports that it is the master, the command leaves with
    [ERR_BAD_CONFIG] after that one round; it has run no script, written
    no file and changed no option. *)
Theorem standby_follow_without_wait_gives_up (fuel : nat) (w : world) :
  connects o conn (moment w) = true ->
  MIN_SUPPORTED_VERSION_NUM <= server_version_num o conn ->
  recovery o conn (moment w) = Standby ->
  pgup o conn (moment w) = true ->
  wait_for_master (runtime_options w) = false ->
  first_primary o (S (moment w)) (cluster_rows w conn (cluster_name options)) = None ->
  exists w',
    do_standby_follow o MIN_SUPPORTED_VERSION_NUM MIN_SUPPORTED_VERSION MAXLEN
      progname options require_password repmgr_slot_name pg_bindir (S fuel) w
    = (Exits ERR_BAD_CONFIG, w')
    /\ scripts_run (trace w') = scripts_run (trace w)
    /\ files w' = files w
    /\ runtime_options w' = runtime_options w
    /\ moment w' = S (moment w).
Proof.
  intros Hconn Hver Hrec Hup Hwait Hmaster.
  apply Z.ltb_ge in Hver.
  unfold do_standby_follow, establish_db_connection, check_server_version,
    get_server_version, is_standby.
  cbn [discover_master]. unfold is_pgup, get_master_connection.
  run. rewrite Hconn. run. rewrite Hver. run. rewrite Hrec.
  cbn [Z.eqb Pos.eqb orb]. run. rewrite Hup. cbn [negb]. run.
  match goal with
  | |- context [find_master o ?rows ?w1] =>
      destruct (find_master_spec o rows w1) as (added & Hrun & Hs & Hq)
  end.
  run_in Hrun. rewrite Hrun. fold (cluster_rows w conn (cluster_name options)).
  rewrite Hmaster. run. rewrite Hwait. run.
  eexists. split; [reflexivity | ]. cbn [trace files runtime_options moment].
  rewrite !scripts_run_app, Hs. cbn [scripts_run]. rewrite ?app_nil_r.
  repeat split; reflexivity.
Qed.

(** X26: STANDBY PROMOTE runs pg_ctl with -D and the data
    directory of the server and the word promote, without the pg_ctl
    options of the configuration file.  When that script fails the
    command leaves with [ERR_NO_RESTART] at once: the script and the
    message about it are the last things it does, and it does not look
    at the server again. *)
Theorem standby_promote_stops_when_the_script_fails
    (data_dir : string) (w : world) :
  let script := pg_bindir ++ "pg_ctl" ++ " -D " ++ data_dir ++ " promote" in
  connects o conn (moment w) = true ->
  MIN_SUPPORTED_VERSION_NUM <= server_version_num o conn ->
  recovery o conn (moment w) = Standby ->
  first_primary o (moment w) (cluster_rows w conn (cluster_name options)) = None ->
  pg_setting o conn "data_directory" = Setting data_dir ->
  (String.length script < MAXLEN)%nat ->
  system_rc o script <> 0 ->
  exists w' before,
    do_standby_promote o MIN_SUPPORTED_VERSION_NUM MIN_SUPPORTED_VERSION MAXLEN
      progname options pg_bindir w
    = (Exits ERR_NO_RESTART, w')
    /\ trace w'
       = (trace w ++ before
          ++ [System script;
              Log LOG_ERR ("Unable to promote server from standby to master" ++ nl)])%list
    /\ scripts_run before = [].
Proof.
  cbv zeta. intros Hconn Hver Hrec Hmaster Hdir Hfits Hrc.
  assert (Hpath : (String.length (pg_bindir ++ "pg_ctl") < MAXLEN)%nat).
  { revert Hfits. clear.
    assert (Hlen : forall a b, String.length (a ++ b)
                               = (String.length a + String.length b)%nat).
    { induction a as [| x a IH]; intros b; cbn; [reflexivity | ].
      rewrite IH. reflexivity. }
    rewrite !Hlen. lia. }
  destruct (promote_preconditions_spec o MIN_SUPPORTED_VERSION_NUM
              MIN_SUPPORTED_VERSION progname options w)
    as (added & Hw & Hs & Hq & Hres).
  unfold do_standby_promote. unfold bind at 1.
  destruct (promote_preconditions o MIN_SUPPORTED_VERSION_NUM
              MIN_SUPPORTED_VERSION progname options w)
    as [[[c retval] | code | ] w1] eqn:Hpre; cbn [fst snd] in Hw, Hres.
  - destruct Hres as (-> & -> & _ & _). subst w1.
    unfold promote_server, get_pg_setting, make_pg_path.
    rewrite Hdir. run. cbn [negb]. run.
    rewrite (maxlen_snprintf_fits _ _ _ Hpath).
    rewrite string_app_assoc.
    match goal with
    | |- context [maxlen_snprintf MAXLEN ?t ?w1] =>
        rewrite (maxlen_snprintf_fits MAXLEN t w1 Hfits)
    end.
    unfold system. run.
    apply Z.eqb_neq in Hrc. rewrite Hrc. cbn [negb]. run.
    eexists.
    exists (added
            ++ [Log LOG_NOTICE (progname ++ ": Promoting standby" ++ nl);
                PQfinish_ev conn;
                Log LOG_NOTICE
                  (progname ++ ": promoting server using '"
                   ++ (pg_bindir ++ "pg_ctl" ++ " -D " ++ data_dir ++ " promote")
                   ++ "'" ++ nl)])%list.
    split; [reflexivity | ]. cbn [trace]. split.
    + rewrite <- !app_assoc. reflexivity.
    + rewrite scripts_run_app, Hs. reflexivity.
  - exfalso. apply Z.ltb_ge in Hver.
    destruct (Hres Hconn (proj1 (Z.ltb_ge _ _) Hver)) as [_ [Hnot | [c Hc]]].
    + apply Hnot. exact Hrec.
    + rewrite Hc in Hmaster. discriminate Hmaster.
  - contradiction.
Qed.

End FollowAndPromoteFailures.

(** ** STANDBY FOLLOW that succeeds *)

Section Follow.

Variable o : outside.
Variable MIN_SUPPORTED_VERSION_NUM : Z.
Variable MIN_SUPPORTED_VERSION : string.
Variable MAXLEN : nat.
Variable progname : string.
Variable options : t_configuration_options.
Variable require_password : bool.
Variable repmgr_slot_name : string.
Variable pg_bindir : string.

Local Abbreviation conn := (conninfo options).

Lemma create_recovery_file_keeps_options (data_dir : string) :
  keeps options_and_scripts
        (create_recovery_file o MAXLEN progname options require_password
           repmgr_slot_name data_dir).
Proof.
  unfold create_recovery_file, write_recovery_file_line, or_return_false, fputs,
      fopen_w, fclose,
    write_primary_conninfo, getenv_PGPASSWORD, maxlen_snprintf, log_err.
  repeat keeps_step.
Qed.

Lemma settings_kept_by_find_master (rows : list node_row) :
  keeps settings (find_master o rows).
Proof.
  induction rows as [| r rest IH]; cbn [find_master]; unfold is_standby, PQfinish.
  - keeps_base.
  - repeat first [exact IH | keeps_step].
Qed.

Lemma first_primary_is_registered (m : nat) (rows : list node_row) (c : PGconn) :
  first_primary o m rows = Some c -> In c (map col_conninfo rows).
Proof.
  induction rows as [| r rest IH]; cbn; [discriminate | ].
  destruct (reports_primary o m r).
  - intros H. inversion H. left. reflexivity.
  - intros H. right. apply IH. exact H.
Qed.

(** The master that the search of [do_standby_follow] finds is a
    registered node of the cluster; the search changes nothing. *)
Lemma discover_master_returns (fuel : nat) :
  forall (w w1 : world) (conn' master_conn : PGconn),
    discover_master o options fuel conn w
    = (Returns (conn', Some master_conn), w1) ->
    conn' = conn
    /\ In master_conn (map col_conninfo (cluster_rows w conn (cluster_name options)))
    /\ settings w1 = settings w.
Proof.
  induction fuel as [| fuel IH]; intros w w1 conn' master_conn H;
    cbn [discover_master] in H; [discriminate H | ].
  unfold is_pgup, establish_db_connection, get_master_connection in H.
  run_in H.
  assert (Hfind : forall before,
             scripts_run before = [] ->
             (let (r, w'0) :=
                find_master o
                  (filter (fun r => String.eqb (col_cluster r) (cluster_name options))
                          (repl_nodes (dbs w conn)))
                  (mkWorld (S (moment w)) (clock w) (runtime_options w) (dbs w)
                           (files w) (trace w ++ before)) in
              match r with
              | Returns a =>
                  match a with
                  | Some _ => fun w0 : world => (Returns (conn, a), w0)
                  | None =>
                      if wait_for_master (runtime_options w'0)
                      then discover_master o options fuel conn
                      else fun w0 : world => (Returns (conn, None), w0)
                  end w'0
              | Exits code => (Exits code, w'0)
              | Diverges => (Diverges, w'0)
              end) = (Returns (conn', Some master_conn), w1) ->
             conn' = conn
             /\ In master_conn
                   (map col_conninfo (cluster_rows w conn (cluster_name options)))
             /\ settings w1 = settings w).
  { intros before Hbefore Hrun.
    match type of Hrun with
    | context [find_master o ?rows ?w0] =>
        destruct (find_master_spec o rows w0) as (added & Hfm & Hs & Hq)
    end.
    rewrite Hfm in Hrun. cbn [moment] in Hrun.
    fold (cluster_rows w conn (cluster_name options)) in Hrun.
    destruct (first_primary o (S (moment w))
                (cluster_rows w conn (cluster_name options))) as [c | ] eqn:Hfp.
    - inversion Hrun; subst. split; [reflexivity | ].
      split; [apply (first_primary_is_registered _ _ _ Hfp) | ].
      unfold settings, add_events. cbn [runtime_options dbs files trace].
      rewrite !scripts_run_app, Hs, Hbefore, !app_nil_r. reflexivity.
    - cbn [add_events runtime_options] in Hrun.
      destruct (wait_for_master (runtime_options w)); [ | discriminate Hrun].
      apply IH in Hrun as (Hc & Hin & Hsettings).
      split; [exact Hc | ]. split; [exact Hin | ].
      rewrite Hsettings. unfold settings, add_events.
      cbn [runtime_options dbs files trace].
      rewrite !scripts_run_app, Hs, Hbefore, !app_nil_r. reflexivity. }
  destruct (pgup o conn (moment w)); cbn [negb] in H; run_in H.
  - apply (Hfind [] eq_refl). rewrite app_nil_r. exact H.
  - destruct (connects o conn (S (moment w))); run_in H; [ | discriminate H].
    apply (Hfind [Connect conn] eq_refl). exact H.
Qed.


(** X27: when STANDBY FOLLOW ends normally it has found a
    registered node of the cluster as the master; it has replaced the
    host, the port and the user of the runtime options by those of the
    connection to that master; it has written the recovery configuration
    for them into the data directory of the standby, or has left an
    empty file there when the lines could not be written out at the close
    of the file; and it has then run exactly one script, which succeeded:
    pg_ctl with the options of the configuration file, -w, -D and the
    data directory, and -m fast restart. *)
Theorem standby_follow_points_at_the_master_found (fuel : nat) (w w' : world) :
  do_standby_follow o MIN_SUPPORTED_VERSION_NUM MIN_SUPPORTED_VERSION MAXLEN
    progname options require_password repmgr_slot_name pg_bindir fuel w
  = (Returns tt, w') ->
  exists master_conn data_dir,
    let script :=
      pg_bindir ++ "pg_ctl" ++ " " ++ pgctl_options options ++ " -w -D "
      ++ data_dir ++ " -m fast restart" in
    let ro := follow_options o MAXLEN master_conn (runtime_options w) in
    In master_conn (map col_conninfo (cluster_rows w conn (cluster_name options)))
    /\ pg_setting o conn "data_directory" = Setting data_dir
    /\ runtime_options w' = ro
    /\ files w' (data_dir ++ "/" ++ RECOVERY_FILE)
       = Some (if fclose_ok o (data_dir ++ "/" ++ RECOVERY_FILE)
               then recovery_configuration o options repmgr_slot_name ro
               else "")
    /\ scripts_run (trace w') = (scripts_run (trace w) ++ [script])%list
    /\ system_rc o script = 0.
Proof.
  intros H.
  unfold do_standby_follow, establish_db_connection, check_server_version,
    get_server_version in H.
  unfold is_standby at 1 in H.
  run_in H.
  destruct (connects o conn (moment w)); run_in H; [ | discriminate H].
  destruct (server_version_num o conn <? MIN_SUPPORTED_VERSION_NUM) eqn:Hver;
    run_in H.
  { destruct (server_version_num o conn >? 0); run_in H; discriminate H. }
  destruct (recovery o conn (moment w)); cbn [Z.eqb Pos.eqb orb] in H; run_in H;
    try discriminate H.
  match type of H with
  | context [discover_master o options fuel conn ?w0] =>
      destruct (discover_master o options fuel conn w0)
        as [[[conn' [master_conn | ]] | code | ] w1] eqn:Hdiscover
  end; try discriminate H.
  apply discover_master_returns in Hdiscover as (-> & Hin & Hsettings).
  unfold settings in Hsettings. cbn [runtime_options dbs files trace] in Hsettings.
  rewrite !scripts_run_app in Hsettings. cbn [scripts_run] in Hsettings.
  rewrite !app_nil_r in Hsettings.
  injection Hsettings as Hro Hdbs Hfiles Hscripts.
  unfold cluster_rows in Hin. cbn [dbs] in Hin.
  fold (cluster_rows w conn (cluster_name options)) in Hin.
  unfold is_standby, versions_should_match, versions_match, get_pg_setting,
    make_pg_path in H.
  run_in H.
  destruct (recovery o master_conn (moment w1)); cbn [Z.eqb Pos.eqb negb] in H;
    run_in H; try discriminate H.
  rewrite Hver in H. run_in H.
  destruct (server_version_num o conn <? 0); run_in H; [discriminate H | ].
  rewrite Z.eqb_refl in H. cbn [negb] in H. run_in H.
  destruct (pg_setting o conn "data_directory") as [ | | data_dir] eqn:Hdir;
    run_in H; try discriminate H.
  cbn [negb] in H. run_in H.
  match type of H with
  | context [create_recovery_file o MAXLEN progname options require_password
               repmgr_slot_name data_dir ?w2] =>
      pose proof (create_recovery_file_keeps_options data_dir w2) as Hkept;
      destruct (create_recovery_file o MAXLEN progname options require_password
                  repmgr_slot_name data_dir w2)
        as [[[ | ] | code | ] w3] eqn:Hfile
  end; try discriminate H.
  apply create_recovery_file_writes in Hfile.
  cbn [runtime_options] in Hfile.
  unfold options_and_scripts in Hkept.
  cbn [snd runtime_options trace] in Hkept.
  injection Hkept as Hro3 Hscripts3.
  cbn [negb] in H.
  destruct (maxlen_snprintf MAXLEN (pg_bindir ++ "pg_ctl") w3)
    as [[pg_ctl | code | ] w4] eqn:Hpath; try discriminate H.
  apply maxlen_snprintf_returns in Hpath as [-> ->].
  match type of H with
  | context [maxlen_snprintf MAXLEN ?text w3] =>
      destruct (maxlen_snprintf MAXLEN text w3)
        as [[script | code | ] w4] eqn:Hscript
  end; try discriminate H.
  apply maxlen_snprintf_returns in Hscript as [-> ->].
  unfold system in H. run_in H.
  match type of H with
  | context [system_rc o ?text =? 0] =>
      destruct (system_rc o text =? 0) eqn:Hrc
  end; cbn [negb] in H; run_in H; [ | discriminate H].
  inversion H; subst w'; clear H.
  exists master_conn, data_dir. cbv zeta.
  cbn [runtime_options files trace].
  rewrite string_app_assoc in Hrc.
  apply Z.eqb_eq in Hrc.
  rewrite Hro3, Hro in *.
  split; [exact Hin | ]. split; [reflexivity | ].
  split; [reflexivity | ].
  split; [exact Hfile | ].
  split; [ | exact Hrc].
  rewrite !scripts_run_app, Hscripts3, !scripts_run_app, Hscripts.
  cbn [scripts_run]. rewrite ?app_nil_r, string_app_assoc. reflexivity.
Qed.

End Follow.

(** ** STANDBY FOLLOW that waits *)

Section FollowWaits.

Variable o : outside.
Variable MIN_SUPPORTED_VERSION_NUM : Z.
Variable MIN_SUPPORTED_VERSION : string.
Variable MAXLEN : nat.
Variable progname : string.
Variable options : t_configuration_options.
Variable require_password : bool.
Variable repmgr_slot_name : string.
Variable pg_bindir : string.

Local Abbreviation conn := (conninfo options).

(** The search for a master with the wait flag, while no master
    appears: it is still going on when the fuel is used up. *)
Lemma discover_master_waits (rows : list node_row) (fuel : nat) :
  (forall m, pgup o conn m = true) ->
  (forall m, first_primary o m rows = None) ->
  forall w,
    wait_for_master (runtime_options w) = true ->
    cluster_rows w conn (cluster_name options) = rows ->
    fst (discover_master o options fuel conn w) = Diverges.
Proof.
  intros Hup Hnone. induction fuel as [| fuel IH]; intros w Hwait Hrows;
    cbn [discover_master]; [reflexivity | ].
  unfold is_pgup, get_master_connection. run. rewrite Hup. cbn [negb]. run.
  match goal with
  | |- context [find_master o ?rows ?w1] =>
      destruct (find_master_spec o rows w1) as (added & Hrun & _)
  end.
  rewrite Hrun. cbn [moment].
  fold (cluster_rows w conn (cluster_name options)). rewrite Hrows, Hnone.
  cbn [add_events runtime_options]. rewrite Hwait.
  apply IH; [exact Hwait | exact Hrows].
Qed.

(** X28: with the wait flag STANDBY FOLLOW has no limit on the
    search for a master.  While the standby answers and no registered
    node of the cluster reports that it is the master, the command
    neither returns nor leaves, however many rounds it is given. *)
Theorem standby_follow_waits_without_a_limit (fuel : nat) (w : world) :
  connects o conn (moment w) = true ->
  MIN_SUPPORTED_VERSION_NUM <= server_version_num o conn ->
  recovery o conn (moment w) = Standby ->
  wait_for_master (runtime_options w) = true ->
  (forall m, pgup o conn m = true) ->
  (forall m, first_primary o m (cluster_rows w conn (cluster_name options)) = None) ->
  fst (do_standby_follow o MIN_SUPPORTED_VERSION_NUM MIN_SUPPORTED_VERSION MAXLEN
         progname options require_password repmgr_slot_name pg_bindir fuel w)
  = Diverges.
Proof.
  intros Hconn Hver Hrec Hwait Hup Hnone.
  apply Z.ltb_ge in Hver.
  unfold do_standby_follow, establish_db_connection, check_server_version,
    get_server_version, is_standby.
  run. rewrite Hconn. run. rewrite Hver. run. rewrite Hrec.
  cbn [Z.eqb Pos.eqb orb]. run.
  match goal with
  | |- context [discover_master o options fuel conn ?w1] =>
      pose proof (discover_master_waits _ fuel Hup Hnone w1 Hwait eq_refl) as Hd;
      destruct (discover_master o options fuel conn w1) as [[a | code | ] w2]
  end; cbn [fst] in Hd; try discriminate Hd.
  reflexivity.
Qed.

End FollowWaits.

(** * The further theorems at work *)


Lemma cluster_cleanup_keeps_recent_history_witness :
  let o := cluster_outside node1_primary all_9_4 (Setting "5") in
  let run := do_cluster_cleanup o "repmgr" (node2_options false) history_world in
  fst run = Returns tt
  /\ repl_monitor (dbs (snd run) node1) = [mkMonitor 2 1]
  /\ repl_nodes (dbs (snd run) node1) = [node1_row].
Proof.
  destruct (cluster_cleanup_keeps_recent_history
              (cluster_outside node1_primary all_9_4 (Setting "5")) "repmgr"
              (node2_options false) history_world node1 eq_refl eq_refl eq_refl)
    as (w' & Hrun & Hmonitor & Hnodes & _).
  cbn [conninfo node1_options node2_options] in *. cbv zeta. rewrite Hrun. cbn [fst snd]. rewrite Hmonitor, Hnodes.
  split; [reflexivity | ]. split; reflexivity.
Defined.

Lemma cluster_cleanup_needs_a_master_witness :
  let o := cluster_outside node2_stays_standby all_9_4 (Setting "5") in
  let run := do_cluster_cleanup o "repmgr" (node2_options false) history_world in
  fst run = Exits ERR_DB_CON
  /\ statements_sent (trace (snd run)) = []
  /\ dbs (snd run) = dbs history_world.
Proof.
  destruct (cluster_cleanup_needs_a_master
              (cluster_outside node2_stays_standby all_9_4 (Setting "5")) "repmgr"
              (node2_options false) history_world eq_refl eq_refl)
    as (added & Hrun & Hsent).
  cbn [conninfo node1_options node2_options] in *. cbv zeta. rewrite Hrun. cbn [fst snd]. unfold add_events.
  cbn [trace dbs history_world app]. rewrite Hsent.
  split; [reflexivity | ]. split; reflexivity.
Defined.

Lemma master_register_without_a_function_registers_nothing_witness :
  let o :=
    with_statements refuses_functions
      (cluster_outside node1_primary all_9_4 (Setting "5")) in
  let run :=
    do_master_register o 90300 "9.3" (-1) 1024 "repmgr" node1_options ""
      "repmgr_test" "repmgr_test" empty_world in
  fst run = Returns tt
  /\ statements_sent (trace (snd run))
     = [CREATE_SCHEMA "repmgr_test"; CREATE_FUNCTION "repmgr_update_last_updated"]
  /\ repl_nodes (dbs (snd run) node1) = [].
Proof.
  destruct (master_register_without_a_function_registers_nothing
              (with_statements refuses_functions
                 (cluster_outside node1_primary all_9_4 (Setting "5")))
              90300 "9.3" (-1) 1024 "repmgr" node1_options "" "repmgr_test"
              "repmgr_test" (CREATE_FUNCTION "repmgr_update_last_updated")
              empty_world)
    as (w' & Hrun & Hsent & Hnodes).
  - reflexivity.
  - vm_compute. discriminate.
  - reflexivity.
  - reflexivity.
  - reflexivity.
  - cbn [conninfo node1_options node2_options] in *. cbv zeta. rewrite Hrun. cbn [fst snd]. rewrite Hsent, Hnodes.
    split; [reflexivity | ]. split; reflexivity.
Defined.

Lemma master_register_creates_the_schema_and_the_record_witness :
  let o := cluster_outside node1_primary all_9_4 (Setting "5") in
  let run :=
    do_master_register o 90300 "9.3" (-1) 1024 "repmgr" node1_options ""
      "repmgr_test" "repmgr_test" empty_world in
  fst run = Returns tt
  /\ repl_nodes (dbs (snd run) node1) = [node1_row]
  /\ List.length (statements_sent (trace (snd run))) = 11%nat.
Proof.
  destruct (master_register_creates_the_schema_and_the_record
              (cluster_outside node1_primary all_9_4 (Setting "5"))
              90300 "9.3" (-1) 1024 "repmgr" node1_options "" "repmgr_test"
              "repmgr_test" empty_world)
    as (w' & Hrun & Hsent & Hnodes & _).
  - reflexivity.
  - vm_compute. discriminate.
  - reflexivity.
  - reflexivity.
  - reflexivity.
  - reflexivity.
  - apply Nat.ltb_lt. reflexivity.
  - reflexivity.
  - cbn [conninfo node1_options node2_options] in *. cbv zeta. rewrite Hrun. cbn [fst snd]. rewrite Hsent, Hnodes.
    split; [reflexivity | ]. split; reflexivity.
Defined.

Lemma master_register_force_deletes_before_it_looks_for_a_master_witness :
  let o := cluster_outside everyone_primary all_9_4 (Setting "5") in
  let run :=
    do_master_register o 90300 "9.3" (-1) 1024 "repmgr" node1_options ""
      "repmgr_test" "repmgr_test" two_primaries_world in
  fst run = Exits ERR_BAD_CONFIG
  /\ map col_id (repl_nodes (dbs (snd run) node1)) = [2].
Proof.
  destruct (master_register_force_deletes_before_it_looks_for_a_master
              (cluster_outside everyone_primary all_9_4 (Setting "5"))
              90300 "9.3" (-1) 1024 "repmgr" node1_options "" "repmgr_test"
              "repmgr_test" node2 two_primaries_world)
    as (w' & Hrun & _ & Hnodes).
  - reflexivity.
  - vm_compute. discriminate.
  - reflexivity.
  - reflexivity.
  - reflexivity.
  - reflexivity.
  - reflexivity.
  - cbn [conninfo node1_options node2_options] in *. cbv zeta. rewrite Hrun. cbn [fst snd]. rewrite Hnodes.
    split; reflexivity.
Defined.

Lemma master_register_force_replaces_the_record_witness :
  let o := cluster_outside node1_primary all_9_4 (Setting "5") in
  let run :=
    do_master_register o 90300 "9.3" (-1) 1024 "repmgr" node1_options ""
      "repmgr_test" "repmgr_test" forced_world in
  fst run = Returns tt
  /\ repl_nodes (dbs (snd run) node1) = [node1_row]
  /\ statements_sent (trace (snd run))
     = [DELETE_FROM_repl_nodes 1;
        INSERT_INTO_repl_nodes
          "(1, 'primary', NULL, 'test', 'node1', 'host=node1', NULL, 100) "].
Proof.
  destruct (master_register_force_replaces_the_record
              (cluster_outside node1_primary all_9_4 (Setting "5"))
              90300 "9.3" (-1) 1024 "repmgr" node1_options "" "repmgr_test"
              "repmgr_test" forced_world)
    as (w' & Hrun & Hsent & Hnodes).
  - reflexivity.
  - vm_compute. discriminate.
  - reflexivity.
  - reflexivity.
  - reflexivity.
  - reflexivity.
  - reflexivity.
  - reflexivity.
  - apply Nat.ltb_lt. reflexivity.
  - reflexivity.
  - cbn [conninfo node1_options node2_options] in *. cbv zeta. rewrite Hrun. cbn [fst snd]. rewrite Hsent, Hnodes.
    split; [reflexivity | ]. split; reflexivity.
Defined.

Lemma standby_register_needs_a_master_witness :
  let o := cluster_outside node2_stays_standby all_9_4 (Setting "5") in
  let run :=
    do_standby_register o 90300 "9.3" (-1) 1024 "repmgr" (node2_options false) ""
      "repmgr_test" first_world in
  fst run = Exits ERR_BAD_CONFIG
  /\ statements_sent (trace (snd run)) = []
  /\ dbs (snd run) = dbs first_world.
Proof.
  destruct (standby_register_needs_a_master
              (cluster_outside node2_stays_standby all_9_4 (Setting "5"))
              90300 "9.3" (-1) 1024 "repmgr" (node2_options false) "" "repmgr_test"
              first_world)
    as (added & Hrun & Hsent & _).
  - reflexivity.
  - vm_compute. discriminate.
  - reflexivity.
  - reflexivity.
  - reflexivity.
  - cbn [conninfo node1_options node2_options] in *. cbv zeta. rewrite Hrun. cbn [fst snd]. unfold add_events.
    cbn [trace dbs first_world app]. rewrite Hsent.
    split; [reflexivity | ]. split; reflexivity.
Defined.

Lemma standby_register_writes_to_the_master_only_witness :
  let o := cluster_outside node1_primary all_9_4 (Setting "5") in
  let run :=
    do_standby_register o 90300 "9.3" (-1) 1024 "repmgr" (node2_options true)
      "repmgr_slot_2" "repmgr_test" first_world in
  fst run = Returns tt
  /\ repl_nodes (dbs (snd run) node1)
     = [node1_row;
        mkNode 2 "standby" (Some 1) "test" "node2" node2 (Some "repmgr_slot_2")
               100 true]
  /\ statements_went_to (trace (snd run)) = [node1]
  /\ dbs (snd run) node2 = registered.
Proof.
  destruct (standby_register_writes_to_the_master_only
              (cluster_outside node1_primary all_9_4 (Setting "5"))
              90300 "9.3" (-1) 1024 "repmgr" (node2_options true) "repmgr_slot_2"
              "repmgr_test" node1 first_world)
    as (w' & Hrun & Hnodes & Hto & Hother & _).
  - reflexivity.
  - vm_compute. discriminate.
  - vm_compute. discriminate.
  - reflexivity.
  - reflexivity.
  - reflexivity.
  - intros Hforce. discriminate Hforce.
  - reflexivity.
  - apply Nat.ltb_lt. reflexivity.
  - apply Nat.ltb_lt. reflexivity.
  - reflexivity.
  - cbn [conninfo node1_options node2_options] in *. cbv zeta. rewrite Hrun. cbn [fst snd]. rewrite Hnodes, Hto.
    split; [reflexivity | ]. split; [reflexivity | ]. split; [reflexivity | ].
    apply Hother. discriminate.
Defined.

Lemma standby_follow_without_wait_gives_up_witness :
  let o := cluster_outside node2_stays_standby all_9_4 (Setting "5") in
  let run :=
    do_standby_follow o 90300 "9.3" 1024 "repmgr" (node2_options false) false ""
      "/usr/bin/" 1 first_world in
  fst run = Exits ERR_BAD_CONFIG
  /\ scripts_run (trace (snd run)) = []
  /\ files (snd run) "/data/recovery.conf" = None.
Proof.
  destruct (standby_follow_without_wait_gives_up
              (cluster_outside node2_stays_standby all_9_4 (Setting "5"))
              90300 "9.3" 1024 "repmgr" (node2_options false) false ""
              "/usr/bin/" 0 first_world)
    as (w' & Hrun & Hscripts & Hfiles & _).
  - reflexivity.
  - vm_compute. discriminate.
  - reflexivity.
  - reflexivity.
  - reflexivity.
  - reflexivity.
  - cbn [conninfo node1_options node2_options] in *. cbv zeta. rewrite Hrun. cbn [fst snd]. rewrite Hscripts, Hfiles.
    split; [reflexivity | ]. split; reflexivity.
Defined.

Lemma standby_promote_stops_when_the_script_fails_witness :
  let o :=
    with_scripts (fun _ => 256)
      (cluster_outside node2_stays_standby all_9_4 (Setting "5")) in
  let run :=
    do_standby_promote o 90300 "9.3" 1024 "repmgr" (node2_options false)
      "/usr/bin/" first_world in
  fst run = Exits ERR_NO_RESTART
  /\ scripts_run (trace (snd run)) = ["/usr/bin/pg_ctl -D /data promote"].
Proof.
  destruct (standby_promote_stops_when_the_script_fails
              (with_scripts (fun _ => 256)
                 (cluster_outside node2_stays_standby all_9_4 (Setting "5")))
              90300 "9.3" 1024 "repmgr" (node2_options false) "/usr/bin/" "/data"
              first_world)
    as (w' & before & Hrun & Htrace & Hscripts).
  - reflexivity.
  - vm_compute. discriminate.
  - reflexivity.
  - reflexivity.
  - reflexivity.
  - apply Nat.ltb_lt. reflexivity.
  - discriminate.
  - cbn [conninfo node1_options node2_options] in *. cbv zeta. rewrite Hrun. cbn [fst snd]. rewrite Htrace.
    rewrite !scripts_run_app, Hscripts. split; reflexivity.
Defined.

Lemma standby_follow_points_at_the_master_found_witness :
  let o := cluster_outside node1_primary all_9_4 (Setting "5") in
  let run :=
    do_standby_follow o 90300 "9.3" 1024 "repmgr" (node2_options false) false ""
      "/usr/bin/" 1 first_world in
  fst run = Returns tt
  /\ exists master_conn data_dir,
       In master_conn [node1]
       /\ scripts_run (trace (snd run))
          = ["/usr/bin/pg_ctl  -w -D " ++ data_dir ++ " -m fast restart"]
       /\ host (runtime_options (snd run))
          = strncpy_MAXLEN 1024
              (PQhost (cluster_outside node1_primary all_9_4 (Setting "5"))
                      master_conn).
Proof.
  split; [vm_compute; reflexivity | ].
  assert (Hrun : do_standby_follow
                   (cluster_outside node1_primary all_9_4 (Setting "5"))
                   90300 "9.3" 1024 "repmgr" (node2_options false) false ""
                   "/usr/bin/" 1 first_world
                 = (Returns tt,
                    snd (do_standby_follow
                           (cluster_outside node1_primary all_9_4 (Setting "5"))
                           90300 "9.3" 1024 "repmgr" (node2_options false) false ""
                           "/usr/bin/" 1 first_world)))
    by (vm_compute; reflexivity).
  destruct (standby_follow_points_at_the_master_found
              (cluster_outside node1_primary all_9_4 (Setting "5"))
              90300 "9.3" 1024 "repmgr" (node2_options false) false ""
              "/usr/bin/" 1 first_world _ Hrun)
    as (master_conn & data_dir & Hin & _ & Hro & _ & Hscripts & _).
  exists master_conn, data_dir. cbv zeta.
  split; [exact Hin | ]. split; [exact Hscripts | ].
  rewrite Hro. reflexivity.
Defined.

Lemma standby_follow_waits_without_a_limit_witness :
  let o := cluster_outside node2_stays_standby all_9_4 (Setting "5") in
  fst (do_standby_follow o 90300 "9.3" 1024 "repmgr" (node2_options false) false
         "" "/usr/bin/" 1000 waiting_world)
  = Diverges.
Proof.
  apply (standby_follow_waits_without_a_limit
           (cluster_outside node2_stays_standby all_9_4 (Setting "5"))
           90300 "9.3" 1024 "repmgr" (node2_options false) false "" "/usr/bin/"
           1000 waiting_world).
  - reflexivity.
  - vm_compute. discriminate.
  - reflexivity.
  - reflexivity.
  - intros m. reflexivity.
  - intros m. reflexivity.
Defined.
